(** * PayPoint POS: cart / inventory transaction engine

    A shallow embedding of [Burton.Downer_POS_Program_ITT103_SP2025.py].

    - Python objects that are mutated through several references
      ([Product], reached from the inventory and from every [CartItem]) live in
      a heap indexed by object identity; a [CartItem] stores the identity of
      its product, never a copy.
    - [int] is [Z], [float] is the binary64 type [PrimFloat.float].
    - [print] is modelled by a trace of events, one constructor per message
      that reports a decision or a state change.
    - [input] reads from a list of pending lines; built-ins of the language
      that parse or normalise text are parameters of the model. *)

From Stdlib Require Import ZArith List Bool Ascii String Floats Lia.
From stdpp Require Import base list strings gmap.

Local Open Scope Z_scope.
Set Warnings "-inexact-float".

(** ** Products and the heap of product objects *)

(** [class Product]: [id], [name], [price], [stock], [category]. The price is
    a Python number: the inventory holds [float] prices and one [int] price. *)
Inductive num :=
| NInt (z : Z)
| NFloat (f : float).

(** The value of [discount_amount]: a [float] at or above the threshold, the
    [bool] that [self.discount == 0] evaluates to below it. *)
Inductive dval :=
| DFloat (f : float)
| DBool (b : bool).

Record Product := mkProduct {
  p_id : Z;
  p_name : string;
  p_price : num;
  p_stock : Z;
  p_category : string
}.

(** Identity of a [Product] object. *)
Definition loc := nat.

(** Every reference denotes an object, so the heap is total. *)
Definition heap := loc -> Product.

(** [product.stock = v] on the object [l]. *)
Definition set_stock (h : heap) (l : loc) (v : Z) : heap :=
  fun l' =>
    if Nat.eqb l' l
    then {| p_id := p_id (h l); p_name := p_name (h l); p_price := p_price (h l);
            p_stock := v; p_category := p_category (h l) |}
    else h l'.

(** ** Messages printed by the program *)

Inductive event :=
| EQuantityMustBePositive
| EInsufficientStockAdditional (name : string) (additional : Z)
| EInsufficientStockAvailable (name : string) (available : Z)
| ELowStockAlert (name : string) (left : Z)
| ECannotRemove (quantity in_cart : Z) (name : string)
| ENoChangesMade
| ERemoved (quantity : Z) (name : string) (cart_quantity : Z)
| EStockUpdated (stock : Z)
| EItemNotFound
(* messages of the POS layer *)
| EAdminLoggedIn (username : string)
| EAdminLoginFailed
| ENoMatchingProducts
| ESearchResults (found : list loc)
| EShowInventory
| EProductNotFound
| EQuantityAtLeastOne
| EAdded (quantity : Z) (name : string)
| EInvalidInput
| ECartIsEmpty
| ENoMatchingItems
| ECartListing (lines : list (loc * Z))
| ECartNowEmpty
| EUpdatedCartTotal (total : float)
| ECartReceipt (lines : list (loc * Z))
               (subtotal : num) (tax : float) (discount : dval) (total : float)
| ETransactionCancelled
| EAccessDenied
| EInvalidChoice
| ECheckoutCartEmpty
| EPaymentSummary (subtotal : num) (tax : float) (discount : dval) (total : float)
| EInsufficientPayment (shortfall : float)
| EAdminRequired
| EReturningToPaymentOptions
| ENoItemsRemoved
| ECancellationAborted
| EInvalidAmount
| EReceipt (cashier : string) (lines : list (loc * Z))
           (subtotal : num) (tax : float) (discount : dval)
           (total payment change : float).

(** ** Cart items and the cart *)

(** [class CartItem]: a reference to the product and a quantity. *)
Record CartItem := mkCartItem {
  ci_product : loc;
  ci_quantity : Z
}.

(** [class Discount] has no fields. *)
Inductive Discount := mkDiscount.

(** [class Cart]: [items] in insertion order and the discount policy. *)
Record Cart := mkCart {
  items : list CartItem;
  discount : Discount
}.

(** [Cart()] *)
Definition Cart_init : Cart := {| items := []; discount := mkDiscount |}.

(** [Cart.clear] *)
Definition clear (c : Cart) : Cart := {| items := []; discount := discount c |}.

Definition with_items (c : Cart) (its : list CartItem) : Cart :=
  {| items := its; discount := discount c |}.

(** [Cart.check_low_stock]: prints the alert when [product.stock <= 5]. *)
Definition check_low_stock (h : heap) (product : loc) : list event :=
  if p_stock (h product) <=? 5
  then [ELowStockAlert (p_name (h product)) (p_stock (h product))]
  else [].

(** What a cart method leaves behind: its return value, the heap, the cart and
    what it printed. *)
Record outcome := mkOutcome {
  ret : bool;
  o_heap : heap;
  o_cart : Cart;
  o_out : list event
}.

(** The [for item in self.items] loop of [Cart.add_item]. [None]: the loop
    ran to its end without a [return]. [Some]: one of the two [return]s in the
    loop body was taken, with the heap and the items as they are then. *)
Fixpoint add_item_loop (h : heap) (product : loc) (quantity : Z)
    (its : list CartItem) : option (bool * heap * list CartItem * list event) :=
  match its with
  | [] => None
  | item :: rest =>
      if p_id (h (ci_product item)) =? p_id (h product) then
        let total_quantity := ci_quantity item + quantity in
        if total_quantity >? p_stock (h product) then
          Some (false, h, its,
                [EInsufficientStockAdditional (p_name (h product))
                   (p_stock (h product) - ci_quantity item)])
        else
          let item' := {| ci_product := ci_product item;
                          ci_quantity := ci_quantity item + quantity |} in
          let out1 := check_low_stock h (ci_product item) in
          let h' := set_stock h product (p_stock (h product) - quantity) in
          let out2 := check_low_stock h' product in
          Some (true, h', item' :: rest, out1 ++ out2)
      else
        match add_item_loop h product quantity rest with
        | Some (r, h', rest', out) => Some (r, h', item :: rest', out)
        | None => None
        end
  end.

(** [Cart.add_item]. [quantity] is an [int] by its type here, so the
    [isinstance] test is always passed. *)
Definition add_item (h : heap) (c : Cart) (product : loc) (quantity : Z) : outcome :=
  if quantity <=? 0 then
    mkOutcome false h c [EQuantityMustBePositive]
  else
    match add_item_loop h product quantity (items c) with
    | Some (r, h', its', out) => mkOutcome r h' (with_items c its') out
    | None =>
        if quantity >? p_stock (h product) then
          mkOutcome false h c
            [EInsufficientStockAvailable (p_name (h product)) (p_stock (h product))]
        else
          let cart_item := mkCartItem product quantity in
          let h' := set_stock h product (p_stock (h product) - quantity) in
          mkOutcome true h' (with_items c (items c ++ [cart_item]))
            (check_low_stock h' product)
    end.

(** The [for item in list(self.items)] loop of [Cart.remove_item], over the
    snapshot. [rl_returned] tells that [return False] was taken inside the
    loop; the heap and the items then keep what earlier iterations did.
    [self.items.remove(item)] compares by identity, so it drops exactly the
    item of the current iteration. *)
Record remove_loop_state := mkRemoveLoop {
  rl_returned : bool;
  rl_removed : bool;
  rl_heap : heap;
  rl_items : list CartItem;
  rl_out : list event
}.

Fixpoint remove_item_loop (h : heap) (product_id quantity : Z)
    (snapshot : list CartItem) : remove_loop_state :=
  match snapshot with
  | [] => mkRemoveLoop false false h [] []
  | item :: rest =>
      if p_id (h (ci_product item)) =? product_id then
        if quantity >? ci_quantity item then
          mkRemoveLoop true false h (item :: rest)
            [ECannotRemove quantity (ci_quantity item) (p_name (h (ci_product item)));
             ENoChangesMade]
        else
          let p := ci_product item in
          let h1 := set_stock h p (p_stock (h p) + quantity) in
          let out1 := check_low_stock h1 p in
          let item' := {| ci_product := p; ci_quantity := ci_quantity item - quantity |} in
          let kept := if ci_quantity item' =? 0 then [] else [item'] in
          let out2 := [ERemoved quantity (p_name (h1 p)) (ci_quantity item');
                       EStockUpdated (p_stock (h1 p))] in
          let out3 := check_low_stock h1 p in
          let r := remove_item_loop h1 product_id quantity rest in
          mkRemoveLoop (rl_returned r) true (rl_heap r) (kept ++ rl_items r)
            (out1 ++ out2 ++ out3 ++ rl_out r)
      else
        let r := remove_item_loop h product_id quantity rest in
        mkRemoveLoop (rl_returned r) (rl_removed r) (rl_heap r) (item :: rl_items r)
          (rl_out r)
  end.

(** [Cart.remove_item] *)
Definition remove_item (h : heap) (c : Cart) (product_id quantity : Z) : outcome :=
  let r := remove_item_loop h product_id quantity (items c) in
  if rl_returned r then
    mkOutcome false (rl_heap r) (with_items c (rl_items r)) (rl_out r)
  else if negb (rl_removed r) then
    mkOutcome false (rl_heap r) (with_items c (rl_items r)) (rl_out r ++ [EItemNotFound])
  else
    mkOutcome true (rl_heap r) (with_items c (rl_items r)) (rl_out r).

(** [Cart.apply_discount]: replaces the policy. The program never calls
    it. *)
Definition apply_discount (c : Cart) (d : Discount) : Cart :=
  {| items := items c; discount := d |}.

(** [Cart.get_all_items] *)
Definition get_all_items (c : Cart) : list (loc * Z) :=
  map (fun item => (ci_product item, ci_quantity item)) (items c).

(** [Cart.is_empty] *)
Definition is_empty (c : Cart) : bool :=
  match items c with [] => true | _ => false end.

(** ** Python numbers and the pricing policy *)

(** [float(z)] for an [int]: rounding to nearest even on 53 bits; [None]
    stands for [OverflowError] (the rounded value does not fit binary64). *)
Definition int_to_float (z : Z) : option float :=
  match binary_normalize prec emax z 0 false with
  | S754_infinity _ => None
  | sf => Some (SF2Prim sf)
  end.

(** The [float] operand an arithmetic operator makes of a number. *)
Definition to_float (n : num) : option float :=
  match n with
  | NInt z => int_to_float z
  | NFloat f => Some f
  end.

(** [a * b] on numbers: exact on two [int]s, binary64 otherwise. *)
Definition num_mul (a b : num) : option num :=
  match a, b with
  | NInt x, NInt y => Some (NInt (x * y))
  | _, _ =>
      match to_float a, to_float b with
      | Some x, Some y => Some (NFloat (x * y)%float)
      | _, _ => None
      end
  end.

(** [n * f] and [n + f] with a [float] right operand. *)
Definition num_mul_float (n : num) (f : float) : option float :=
  match to_float n with
  | Some x => Some (x * f)%float
  | None => None
  end.

Definition num_add_float (n : num) (f : float) : option float :=
  match to_float n with
  | Some x => Some (x + f)%float
  | None => None
  end.

(** [n >= 5000]. The literal is an [int]; Python compares an [int] and a
    [float] by value, and 5000 is a binary64 number, so on a [float] the
    test is the binary64 comparison with [5000.0]. *)
Definition ge_5000 (n : num) : bool :=
  match n with
  | NInt z => z >=? 5000
  | NFloat f => (5000 <=? f)%float
  end.

(** [n < 5000], by the same reading. *)
Definition lt_5000 (n : num) : bool :=
  match n with
  | NInt z => z <? 5000
  | NFloat f => (f <? 5000)%float
  end.

(** The [float] a [bool] or a [float] is in arithmetic. *)
Definition dval_float (d : dval) : float :=
  match d with
  | DFloat f => f
  | DBool true => 1%float
  | DBool false => 0%float
  end.

(** [d == 0] *)
Definition dval_eq_zero (d : dval) : bool :=
  match d with
  | DFloat f => (f =? 0)%float
  | DBool b => negb b
  end.

(** [Discount.apply_discount]: [subtotal * 0.05]. *)
Definition Discount_apply_discount (d : Discount) (subtotal : num) : option float :=
  num_mul_float subtotal 0.05%float.

(** [self.discount == 0]: a [Discount] defines no [__eq__], so the comparison
    with an [int] falls back to identity and is [False]. *)
Definition Discount_eq_int (d : Discount) (z : Z) : bool := false.

(** [Cart.discount_amount] *)
Definition discount_amount (c : Cart) (subtotal : num) : option dval :=
  if ge_5000 subtotal
  then match Discount_apply_discount (discount c) subtotal with
       | Some f => Some (DFloat f)
       | None => None
       end
  else Some (DBool (Discount_eq_int (discount c) 0)).

(** [CartItem.total_price]: [self.product.price * self.quantity]. *)
Definition total_price (h : heap) (item : CartItem) : option num :=
  num_mul (p_price (h (ci_product item))) (NInt (ci_quantity item)).

Fixpoint total_prices (h : heap) (its : list CartItem) : option (list num) :=
  match its with
  | [] => Some []
  | item :: rest =>
      match total_price h item, total_prices h rest with
      | Some x, Some xs => Some (x :: xs)
      | _, _ => None
      end
  end.

(** ** Built-ins of the language

    [int(s)], [float(s)], [s.strip()], [s.lower()] and [sum(xs)]. [None] is
    [ValueError] for the parsers and [OverflowError] for [sum]. The built-in
    [sum] is left abstract: on [float]s it is a compensated summation, not a
    fold of [+]. *)
Class PyBuiltins := {
  py_int : string -> option Z;
  py_float : string -> option float;
  py_strip : string -> string;
  py_lower : string -> string;
  py_sum : list num -> option num
}.

(** [needle in hay] on strings. *)
Fixpoint str_in (needle hay : string) : bool :=
  String.prefix needle hay ||
  match hay with
  | EmptyString => false
  | String _ hay' => str_in needle hay'
  end.

Section Pricing.
Context `{PyBuiltins}.

(** [Cart.calculate_subtotal] *)
Definition calculate_subtotal (h : heap) (c : Cart) : option num :=
  match total_prices h (items c) with
  | Some xs => py_sum xs
  | None => None
  end.

(** The four lines that every call site repeats, and that
    [POS.recalculate_total] packages: subtotal, tax, discount, total. *)
Definition totals_of (tax_rate : float) (c : Cart) (subtotal : num)
  : option (num * float * dval * float) :=
  match num_mul_float subtotal tax_rate with
  | None => None
  | Some tax =>
      match discount_amount c subtotal with
      | None => None
      | Some discount =>
          match num_add_float subtotal tax with
          | None => None
          | Some st => Some (subtotal, tax, discount, (st - dval_float discount)%float)
          end
      end
  end.

Definition recalculate_total_pure (tax_rate : float) (h : heap) (c : Cart)
  : option (num * float * dval * float) :=
  match calculate_subtotal h c with
  | Some subtotal => totals_of tax_rate c subtotal
  | None => None
  end.
End Pricing.

(** ** Users and the POS object *)

(** [class User] *)
Record User := mkUser {
  username : string;
  password : string;
  role : string
}.

(** [User.has_permission] *)
Definition has_permission (u : User) (required_role : string) : bool :=
  String.eqb (role u) required_role.

(** [class POS]. [inventory] is the dict from product id to product object,
    in insertion order; [pos_heap] holds the objects themselves. *)
Record POS := mkPOS {
  tax_rate : float;
  users : gmap string User;
  current_user : option User;
  inventory : list (Z * loc);
  pos_heap : heap;
  cart : Cart
}.

(** Assignments to [self.current_user], [self.cart], and to the cart
    together with the product objects it updates. *)
Definition set_current_user (u : option User) (s : POS) : POS :=
  mkPOS (tax_rate s) (users s) u (inventory s) (pos_heap s) (cart s).

Definition set_cart (c : Cart) (s : POS) : POS :=
  mkPOS (tax_rate s) (users s) (current_user s) (inventory s) (pos_heap s) c.

Definition set_heap_cart (h : heap) (c : Cart) (s : POS) : POS :=
  mkPOS (tax_rate s) (users s) (current_user s) (inventory s) h c.

(** [self.inventory.get(product_id)] *)
Fixpoint inventory_get (inv : list (Z * loc)) (product_id : Z) : option loc :=
  match inv with
  | [] => None
  | (k, l) :: rest => if k =? product_id then Some l else inventory_get rest product_id
  end.

(** ** The interaction monad: state, pending input, printed output,
       exceptions *)

Inductive exn := ValueError | OverflowError | EOFError | AttributeError.

Record world := mkWorld {
  pos : POS;
  stdin : list string;
  stdout : list event
}.

Inductive result (A : Type) :=
| Done (a : A) (w : world)
| Raised (e : exn) (w : world)
| OutOfFuel.
Arguments Done {A} a w.
Arguments Raised {A} e w.
Arguments OutOfFuel {A}.

Definition M (A : Type) := world -> result A.

Definition mret {A} (a : A) : M A := fun w => Done a w.

Definition bind {A B} (m : M A) (k : A -> M B) : M B :=
  fun w =>
    match m w with
    | Done a w' => k a w'
    | Raised e w' => Raised e w'
    | OutOfFuel => OutOfFuel
    end.

Declare Scope M_scope.
Delimit Scope M_scope with M.
Bind Scope M_scope with M.
Notation "'let!' x ':=' c1 'in' c2" := (bind c1 (fun x => c2))
  (at level 10, x name, c1 at level 100, c2 at level 200) : M_scope.
Notation "c1 ;; c2" := (bind c1 (fun _ => c2))
  (at level 100, c2 at level 200, right associativity) : M_scope.
Local Open Scope M_scope.

Definition raise {A} (e : exn) : M A := fun w => Raised e w.

(** [try: body except ValueError: handler] *)
Definition try_except_ValueError {A} (body handler : M A) : M A :=
  fun w =>
    match body w with
    | Raised ValueError w' => handler w'
    | r => r
    end.

Definition get_pos : M POS := fun w => Done (pos w) w.

Definition modify_pos (f : POS -> POS) : M unit :=
  fun w => Done tt (mkWorld (f (pos w)) (stdin w) (stdout w)).

Definition print (e : event) : M unit :=
  fun w => Done tt (mkWorld (pos w) (stdin w) (stdout w ++ [e])).

Definition print_all (es : list event) : M unit :=
  fun w => Done tt (mkWorld (pos w) (stdin w) (stdout w ++ es)).

(** [input(prompt)]: the next pending line; [EOFError] when there is none. *)
Definition input : M string :=
  fun w =>
    match stdin w with
    | [] => Raised EOFError w
    | line :: rest => Done line (mkWorld (pos w) rest (stdout w))
    end.

(** A pure computation that may raise [e]. *)
Definition lift_option {A} (e : exn) (o : option A) : M A :=
  match o with
  | Some a => mret a
  | None => raise e
  end.

(** [self.current_user.<attribute>]: [AttributeError] on [None]. *)
Definition the_current_user : M User :=
  let! s := get_pos in lift_option AttributeError (current_user s).

(** [answer in ['yes', 'y']] *)
Definition is_yes_or_y (answer : string) : bool :=
  String.eqb answer "yes" || String.eqb answer "y".

(** [POS.cancel_sale]'s loop: [item.product.stock += item.quantity]. *)
Fixpoint restock (h : heap) (its : list CartItem) : heap :=
  match its with
  | [] => h
  | item :: rest =>
      restock (set_stock h (ci_product item)
                 (p_stock (h (ci_product item)) + ci_quantity item)) rest
  end.

Section Menus.
Context `{PyBuiltins}.

(** [POS.admin_login] *)
Definition admin_login : M bool :=
  let! uname := input in
  let! pwd := input in
  let! s := get_pos in
  match users s !! py_strip uname with
  | Some user =>
      if String.eqb (password user) (py_strip pwd) && has_permission user "admin"
      then modify_pos (set_current_user (Some user)) ;;
           print (EAdminLoggedIn (username user)) ;;
           mret true
      else print EAdminLoginFailed ;; mret false
  | None => print EAdminLoginFailed ;; mret false
  end.

(** [POS.search_products] *)
Definition search_products (s : POS) (query : string) : list loc :=
  let query := py_lower query in
  List.filter (fun l => str_in query (py_lower (p_name (pos_heap s l)))
                   || str_in query (py_lower (p_category (pos_heap s l))))
         (map snd (inventory s)).

(** [POS.recalculate_total] *)
Definition recalculate_total : M (num * float * dval * float) :=
  let! s := get_pos in
  lift_option OverflowError (recalculate_total_pure (tax_rate s) (pos_heap s) (cart s)).

(** [Cart.display_receipt]: the listing and the four amounts, as one
    message. *)
Definition display_receipt : M float :=
  let! s := get_pos in
  let! t := recalculate_total in
  let '(subtotal, tax, discount, total) := t in
  print (ECartReceipt (get_all_items (cart s)) subtotal tax discount total) ;;
  mret total.

(** [POS.view_cart] *)
Definition view_cart : M unit :=
  let! s := get_pos in
  if is_empty (cart s) then print ECartIsEmpty
  else display_receipt ;; mret tt.

(** [POS.cancel_sale] *)
Definition cancel_sale : M unit :=
  modify_pos (fun s =>
    set_heap_cart (restock (pos_heap s) (items (cart s))) (clear (cart s)) s) ;;
  print ETransactionCancelled.

(** [POS.print_receipt]. The order id and the timestamp only reach the
    printed text and are left out of the message. *)
Definition print_receipt (subtotal : num) (tax : float) (discount : dval)
    (total payment change : float) : M bool :=
  let! cashier := the_current_user in
  let! s := get_pos in
  print (EReceipt (username cashier) (get_all_items (cart s))
           subtotal tax discount total payment change) ;;
  modify_pos (fun s => set_cart (clear (cart s)) s) ;;
  mret true.

(** [POS.add_item_to_cart] *)
Definition add_item_to_cart : M unit :=
  let! line := input in
  let search_query := py_strip line in
  let! s := get_pos in
  let results := search_products s search_query in
  if negb (String.eqb search_query "") && (match results with [] => true | _ => false end)
  then print ENoMatchingProducts
  else
    (if String.eqb search_query "" then print EShowInventory
     else print (ESearchResults results)) ;;
    try_except_ValueError
      (let! line := input in
       let! product_id := lift_option ValueError (py_int line) in
       let! s := get_pos in
       match inventory_get (inventory s) product_id with
       | None => print EProductNotFound
       | Some product =>
           let! line := input in
           let! quantity := lift_option ValueError (py_int line) in
           if quantity <=? 0 then print EQuantityAtLeastOne
           else
             let o := add_item (pos_heap s) (cart s) product quantity in
             modify_pos (set_heap_cart (o_heap o) (o_cart o)) ;;
             print_all (o_out o) ;;
             if ret o
             then print (EAdded quantity (p_name (o_heap o product)))
             else mret tt
       end)
      (print EInvalidInput).

(** The part of [POS.remove_item_fr_cart] before the [try]: [Some r] when
    the method returns [r] there, [None] when it goes on. *)
Definition remove_item_search : M (option bool) :=
  let! s := get_pos in
  if is_empty (cart s) then print ECartIsEmpty ;; mret (Some false)
  else
    let! line := input in
    let search_query := py_strip line in
    let cart_items := get_all_items (cart s) in
    if String.eqb search_query "" then
      print (ECartListing cart_items) ;; mret None
    else
      let results :=
        List.filter (fun pq : loc * Z =>
                  str_in (py_lower search_query) (py_lower (p_name (pos_heap s (fst pq))))
                  || str_in (py_lower search_query)
                       (py_lower (p_category (pos_heap s (fst pq)))))
               cart_items in
      match results with
      | [] => print ENoMatchingItems ;; mret (Some false)
      | _ => print (ECartListing results) ;; mret None
      end.

(** The three menu loops call each other: [new_sale] calls [checkout] and
    [remove_item_fr_cart], [checkout] calls [remove_item_fr_cart], and
    [remove_item_fr_cart] calls [new_sale] when a removal empties the cart.
    Every loop iteration and every call spends one unit of fuel.

    [new_sale_loop] and [checkout_loop] are the [while True] loops of
    [new_sale] and [checkout]. [checkout_options] is the inner [while True]
    of [checkout]: [None] is a [break] (back to the payment entry), [Some r]
    is [return r]; the [try] block of [checkout_loop] hands the same signal
    to the code after it.
    [remove_item_fr_cart] returns [Some True], [Some False] or [None]. *)
Fixpoint new_sale (fuel : nat) : M unit :=
  match fuel with
  | O => fun _ => OutOfFuel
  | S fuel => modify_pos (set_cart Cart_init) ;; new_sale_loop fuel
  end

with new_sale_loop (fuel : nat) : M unit :=
  match fuel with
  | O => fun _ => OutOfFuel
  | S fuel =>
      let! line := input in
      let choice := py_strip line in
      if String.eqb choice "1" then
        add_item_to_cart ;; new_sale_loop fuel
      else if String.eqb choice "2" then
        let! u := the_current_user in
        if has_permission u "admin"
        then remove_item_fr_cart fuel ;; new_sale_loop fuel
        else print EAccessDenied ;; new_sale_loop fuel
      else if String.eqb choice "3" then
        view_cart ;; new_sale_loop fuel
      else if String.eqb choice "4" then
        let! done := checkout fuel in
        if done then mret tt else new_sale_loop fuel
      else if String.eqb choice "5" then
        let! answer := input in
        if String.eqb (py_lower answer) "yes"
        then cancel_sale
        else new_sale_loop fuel
      else
        print EInvalidChoice ;; new_sale_loop fuel
  end

with checkout (fuel : nat) : M bool :=
  match fuel with
  | O => fun _ => OutOfFuel
  | S fuel =>
      let! s := get_pos in
      if is_empty (cart s) then print ECheckoutCartEmpty ;; mret false
      else checkout_loop fuel
  end

with checkout_loop (fuel : nat) : M bool :=
  match fuel with
  | O => fun _ => OutOfFuel
  | S fuel =>
      view_cart ;;
      let! t := recalculate_total in
      let '(subtotal, tax, discount, total) := t in
      print (EPaymentSummary subtotal tax discount total) ;;
      let! r := try_except_ValueError
             (let! line := input in
              let! payment := lift_option ValueError (py_float line) in
              if (payment <? total)%float then
                let shortfall := (total - payment)%float in
                print (EInsufficientPayment shortfall) ;;
                checkout_options fuel
              else
                let change := (payment - total)%float in
                let! b := print_receipt subtotal tax discount total payment change in
                mret (Some b))
             (print EInvalidAmount ;; mret None) in
      match r with
      | Some b => mret b
      | None => checkout_loop fuel
      end
  end

with checkout_options (fuel : nat) : M (option bool) :=
  match fuel with
  | O => fun _ => OutOfFuel
  | S fuel =>
      let! choice := input in
      if String.eqb choice "1" then mret None
      else if String.eqb choice "2" then
        let! u := the_current_user in
        if negb (has_permission u "admin") then
          print EAdminRequired ;;
          let! answer := input in
          if is_yes_or_y (py_lower answer) then
            let! s := get_pos in
            let original_user := current_user s in
            let! logged := admin_login in
            if logged then
              let! removed := remove_item_fr_cart fuel in
              modify_pos (set_current_user original_user) ;;
              match removed with
              | Some true => mret None
              | _ => checkout_options fuel
              end
            else checkout_options fuel
          else
            print EReturningToPaymentOptions ;; checkout_options fuel
        else
          let! removed := remove_item_fr_cart fuel in
          match removed with
          | Some true => mret None
          | _ => print ENoItemsRemoved ;; mret (Some false)
          end
      else if String.eqb choice "3" then
        let! answer := input in
        if is_yes_or_y (py_lower answer)
        then cancel_sale ;; mret (Some true)
        else print ECancellationAborted ;; mret (Some false)
      else
        print EInvalidChoice ;; mret (Some false)
  end

with remove_item_fr_cart (fuel : nat) : M (option bool) :=
  match fuel with
  | O => fun _ => OutOfFuel
  | S fuel =>
      let! early := remove_item_search in
      match early with
      | Some r => mret (Some r)
      | None =>
          try_except_ValueError
            (let! line := input in
             let! product_id := lift_option ValueError (py_int line) in
             let! line := input in
             let! quantity := lift_option ValueError (py_int line) in
             let! s := get_pos in
             let o := remove_item (pos_heap s) (cart s) product_id quantity in
             modify_pos (set_heap_cart (o_heap o) (o_cart o)) ;;
             print_all (o_out o) ;;
             if ret o then
               (if is_empty (o_cart o) then
                  print ECartNowEmpty ;;
                  new_sale fuel
                else
                  recalculate_total ;;
                  let! t := recalculate_total in
                  let '(_, _, _, total) := t in
                  print (EUpdatedCartTotal total)) ;;
               mret (Some true)
             else mret (Some false))
            (print EInvalidInput ;; mret None)
      end
  end.
End Menus.

(** ** The start-up data of the program *)

(** [POS._initialize_inventory], in the order of the dict literal; the
    object of the [n]-th entry is [n]. *)
Definition initial_products : list Product :=
  [ mkProduct 40 "Notebook" (NFloat 500) 8 "General";
    mkProduct 45 "Unmaster Lock Padlock" (NFloat 400) 5 "General";
    mkProduct 101 "Rice (5lb)" (NFloat 480) 25 "Groceries";
    mkProduct 102 "Flour (5lb)" (NFloat 430) 28 "Groceries";
    mkProduct 103 "Bread" (NFloat 600) 30 "Groceries";
    mkProduct 104 "Milk" (NFloat 770) 15 "Groceries";
    mkProduct 105 "Eggs (dozen)" (NFloat 780) 20 "Groceries";
    mkProduct 106 "Sugar (5lb)" (NFloat 400) 25 "Groceries";
    mkProduct 107 "Pasta" (NFloat 120) 30 "Groceries";
    mkProduct 108 "Butter" (NFloat 250) 20 "Groceries";
    mkProduct 109 "Canned Beans (1kg)" (NFloat 320) 10 "Groceries";
    mkProduct 110 "Honey" (NFloat 1940) 8 "Groceries";
    mkProduct 201 "Laundry Detergent" (NFloat 1050) 14 "Household";
    mkProduct 202 "Bleach" (NFloat 250) 16 "Household";
    mkProduct 203 "Tissue" (NFloat 160) 36 "Household";
    mkProduct 204 "Olive Oil (1L)" (NFloat 165) 24 "Household";
    mkProduct 205 "Dishwashing Liquid" (NFloat 175) 16 "Household";
    mkProduct 206 "Coconut Oil (1L)" (NFloat 910) 8 "Household";
    mkProduct 207 "Desk Fan" (NFloat 8500) 12 "Household";
    mkProduct 208 "Frying Pan (med)" (NFloat 5560) 6 "Household";
    mkProduct 209 "Light Bulb" (NFloat 700) 18 "Household";
    mkProduct 210 "Fabric Softener" (NFloat 300) 10 "Household";
    mkProduct 211 "Toothbrush" (NFloat 630) 12 "Household";
    mkProduct 212 "Broom" (NFloat 600) 15 "Household";
    mkProduct 213 "Foil Paper" (NFloat 660) 30 "Household";
    mkProduct 214 "Rum (750ml)" (NFloat 1700) 24 "Household";
    mkProduct 215 "Baking Powder (500g)" (NFloat 140) 16 "Household";
    mkProduct 301 "Wireless Mouse" (NInt 1550) 11 "Electronics";
    mkProduct 302 "Bluetooth Buds" (NFloat 3100) 7 "Electronics";
    mkProduct 303 "Apple iPad Pro" (NFloat 35000) 6 "Electronics";
    mkProduct 304 "Smart Speaker" (NFloat 4500) 11 "Electronics";
    mkProduct 305 "USB-C Cable" (NFloat 2000) 20 "Electronics" ].

(** The heap at start-up. References past the inventory denote no object of
    the program; they are given pairwise distinct negative ids. *)
Definition initial_heap : heap :=
  fun l => nth l initial_products
             (mkProduct (- Z.of_nat l) "" (NInt 0) 0 "").

(** The objects of products 40, 45, 101 and 207. *)
Definition Notebook : loc := 0%nat.
Definition Padlock : loc := 1%nat.
Definition Rice : loc := 2%nat.
Definition DeskFan : loc := 18%nat.

Definition initial_inventory : list (Z * loc) :=
  imap (fun n p => (p_id p, n)) initial_products.

(** [POS._initialize_users] *)
Definition initial_users : gmap string User :=
  <[ "admin" := mkUser "admin" "admin123" "admin" ]>
  (<[ "manager" := mkUser "manager" "mgr123" "admin" ]>
  (<[ "adowner" := mkUser "adowner" "moneyo" "cashier" ]>
  (<[ "dburton" := mkUser "dburton" "chiching" "cashier" ]> ∅))).

(** [POS()] once [user] has logged in. *)
Definition initial_POS (user : User) : POS :=
  mkPOS 0.10%float initial_users (Some user) initial_inventory initial_heap Cart_init.

(** ** The built-ins on the text of the examples

    The examples below feed the program ASCII lines: menu choices, answers,
    names, and plain decimal numerals with an optional minus sign. On such
    lines the built-ins are as follows. [sum] is given for the lists the
    examples sum: lists of [int]s, where it is exact, and lists of at most
    one element [x], where it is [0 + x]. *)

Definition digit_of (a : ascii) : option Z :=
  let n := Z.of_nat (nat_of_ascii a) in
  if (48 <=? n) && (n <=? 57) then Some (n - 48) else None.

Fixpoint digits_value (s : string) (acc : Z) : option Z :=
  match s with
  | EmptyString => Some acc
  | String a s' =>
      match digit_of a with
      | Some d => digits_value s' (10 * acc + d)
      | None => None
      end
  end.

Definition numeral_int (s : string) : option Z :=
  match s with
  | EmptyString => None
  | String "-"%char EmptyString => None
  | String "-"%char s' => option_map Z.opp (digits_value s' 0)
  | _ => digits_value s 0
  end.

(** [float(s)] on such a numeral: the nearest binary64 number of the
    digits, an infinity when they are out of range, with the sign of the
    text, so that [-0] is read as [-0.0]. *)
Definition digits_float (s : string) : option float :=
  match digits_value s 0 with
  | Some z => Some (SF2Prim (binary_normalize prec emax z 0 false))
  | None => None
  end.

Definition numeral_float (s : string) : option float :=
  match s with
  | EmptyString => None
  | String "-"%char EmptyString => None
  | String "-"%char s' => option_map PrimFloat.opp (digits_float s')
  | _ => digits_float s
  end.

Definition ascii_lower_char (a : ascii) : ascii :=
  let n := nat_of_ascii a in
  if (65 <=? n)%nat && (n <=? 90)%nat then ascii_of_nat (n + 32) else a.

Fixpoint ascii_lower (s : string) : string :=
  match s with
  | EmptyString => EmptyString
  | String a s' => String (ascii_lower_char a) (ascii_lower s')
  end.

Definition is_ascii_space (a : ascii) : bool :=
  let n := nat_of_ascii a in
  (Nat.eqb n 32) || ((9 <=? n)%nat && (n <=? 13)%nat) || ((28 <=? n)%nat && (n <=? 31)%nat).

Fixpoint strip_left (s : string) : string :=
  match s with
  | EmptyString => EmptyString
  | String a s' => if is_ascii_space a then strip_left s' else s
  end.

Fixpoint strip_right (s : string) : string :=
  match s with
  | EmptyString => EmptyString
  | String a s' =>
      match strip_right s' with
      | EmptyString => if is_ascii_space a then EmptyString else String a EmptyString
      | t => String a t
      end
  end.

Definition ascii_strip (s : string) : string := strip_right (strip_left s).

(** [0 + x1 + x2 + ...] *)
Definition num_add (a b : num) : option num :=
  match a, b with
  | NInt x, NInt y => Some (NInt (x + y))
  | _, _ =>
      match to_float a, to_float b with
      | Some x, Some y => Some (NFloat (x + y)%float)
      | _, _ => None
      end
  end.

Definition sum_left (xs : list num) : option num :=
  fold_left (fun acc x => match acc with Some a => num_add a x | None => None end)
            xs (Some (NInt 0)).

Definition ascii_builtins : PyBuiltins := {|
  py_int := numeral_int;
  py_float := numeral_float;
  py_strip := ascii_strip;
  py_lower := ascii_lower;
  py_sum := sum_left
|}.

(** ** A session at the till

    The cashier [dburton] is logged in and one Notebook is in the cart. *)

Definition dburton : User := mkUser "dburton" "chiching" "cashier".

Definition one_notebook (lines : list string) : world :=
  let o := add_item initial_heap Cart_init Notebook 1 in
  mkWorld (set_heap_cart (o_heap o) (o_cart o) (initial_POS dburton)) lines [].

(** The lines typed during a checkout in which the cashier tenders nothing,
    asks to remove items, and a supervisor logs in for the removal. The
    removal takes the only Notebook out of the cart. *)
Definition override_script : list string :=
  [ "0";                      (* payment, short of the total *)
    "2"; "yes";               (* remove items; switch to admin *)
    "admin"; "admin123";      (* admin login *)
    ""; "40"; "1";            (* the removal: it empties the cart *)
    "1"; ""; "40"; "2";       (* add two Notebooks *)
    "2"; ""; "40"; "1";       (* remove one *)
    "2"; ""; "40"; "1";       (* remove the other: the cart is empty again *)
    "5"; "yes";               (* cancel *)
    "5"; "yes";               (* cancel *)
    "0" ]%string.             (* payment for the now empty cart *)

(** The lines of a cashier who adds two Notebooks and asks to remove one in
    the transaction menu, then cancels. *)
Definition cashier_script : list string :=
  [ "1"; ""; "40"; "2"; "2"; "5"; "yes" ]%string.

(** The messages that report a removal or its refusal. *)
Definition is_removal_message (e : event) : bool :=
  match e with
  | ERemoved _ _ _ | EAccessDenied | EAdminLoggedIn _ => true
  | _ => false
  end.

(** ** Notions used by the statements *)

(** The quantity the cart holds of the product object [l]. *)
Fixpoint held (its : list CartItem) (l : loc) : Z :=
  match its with
  | [] => 0
  | item :: rest =>
      (if Nat.eqb (ci_product item) l then ci_quantity item else 0) + held rest l
  end.

(** The product ids of the cart lines, in order. *)
Definition line_ids (h : heap) (its : list CartItem) : list Z :=
  map (fun item => p_id (h (ci_product item))) its.

(** "Product ID is unique to each product": no two product objects share an
    id. *)
Definition ids_unique (h : heap) : Prop :=
  forall l1 l2 : loc, p_id (h l1) = p_id (h l2) -> l1 = l2.

(** One line per product id. *)
Definition lines_unique (h : heap) (c : Cart) : Prop :=
  NoDup (line_ids h (items c)).

(** Every line holds a positive quantity. *)
Definition lines_positive (c : Cart) : Prop :=
  Forall (fun item => 0 < ci_quantity item) (items c).

(** Calls of the two mutating cart methods. *)
Inductive cart_op :=
| OpAdd (product : loc) (quantity : Z)
| OpRemove (product_id quantity : Z).

Definition apply_op (h : heap) (c : Cart) (op : cart_op) : outcome :=
  match op with
  | OpAdd product quantity => add_item h c product quantity
  | OpRemove product_id quantity => remove_item h c product_id quantity
  end.

(** The state after a sequence of calls, whatever they return. *)
Fixpoint run_ops (h : heap) (c : Cart) (ops : list cart_op) : heap * Cart :=
  match ops with
  | [] => (h, c)
  | op :: rest =>
      let o := apply_op h c op in run_ops (o_heap o) (o_cart o) rest
  end.

(** The state after a sequence of calls that all return [True]; [None] when
    one of them returns [False]. *)
Fixpoint run_successful (h : heap) (c : Cart) (ops : list cart_op)
    : option (heap * Cart) :=
  match ops with
  | [] => Some (h, c)
  | op :: rest =>
      let o := apply_op h c op in
      if ret o then run_successful (o_heap o) (o_cart o) rest else None
  end.

(** A computation keeps the principal: when it returns, and when it raises
    [ValueError], [current_user] is who it was. *)
Definition keeps_user_at {A} (m : M A) (w : world) : Prop :=
  match m w with
  | Done _ w' => current_user (pos w') = current_user (pos w)
  | Raised ValueError w' => current_user (pos w') = current_user (pos w)
  | _ => True
  end.

Definition keeps_user {A} (m : M A) : Prop := forall w, keeps_user_at m w.

Definition never_ValueError {A} (m : M A) : Prop :=
  forall w, match m w with Raised ValueError _ => False | _ => True end.

(** The low-stock alerts among printed messages. *)
Definition is_low_stock_alert (e : event) : bool :=
  match e with
  | ELowStockAlert _ _ => true
  | _ => false
  end.

Definition low_stock_alerts (out : list event) : list event :=
  List.filter is_low_stock_alert out.

(** ** Further notions *)

(** The calls of a sequence that remove take away a quantity that is not
    negative. *)
Definition nonneg_removals (ops : list cart_op) : Prop :=
  Forall (fun op => match op with
                    | OpRemove _ quantity => 0 <= quantity
                    | OpAdd _ _ => True
                    end) ops.

(** The product objects of the cart lines, in order. *)
Definition line_products (c : Cart) : list loc := map ci_product (items c).

(** ** Pre- and postconditions of computations

    [hoare P m Q E]: started in a state that satisfies [P], the computation
    [m] ends, when it returns [a], in a state that satisfies [Q a], and when
    it raises, in a state that satisfies [E]. *)
Definition hoare {A} (P : world -> Prop) (m : M A)
    (Q : A -> world -> Prop) (E : world -> Prop) : Prop :=
  forall w, P w ->
    match m w with
    | Done a w' => Q a w'
    | Raised _ w' => E w'
    | OutOfFuel => True
    end.

(** [m] reads the POS object without assigning to it. *)
Definition read_only {A} (m : M A) : Prop :=
  forall w,
    match m w with
    | Done _ w' | Raised _ w' => pos w' = pos w
    | OutOfFuel => True
    end.

(** [P] looks at the POS object only, not at the console. *)
Definition pos_determined (P : world -> Prop) : Prop :=
  forall w w', pos w' = pos w -> P w -> P w'.

(** Two product heaps that differ in stocks at most. *)
Definition same_product_data (h h' : heap) : Prop :=
  forall l, p_id (h' l) = p_id (h l) /\ p_name (h' l) = p_name (h l) /\
            p_price (h' l) = p_price (h l) /\ p_category (h' l) = p_category (h l).

(** Two states of the POS object with the same users, the same inventory
    dict, the same tax rate and the same products, stocks apart. *)
Definition same_catalogue (s s' : POS) : Prop :=
  users s' = users s /\ inventory s' = inventory s /\ tax_rate s' = tax_rate s /\
  same_product_data (pos_heap s) (pos_heap s').

(** The units of the product object [l] that the POS object accounts for:
    in stock or in the cart. *)
Definition units (s : POS) (l : loc) : Z :=
  p_stock (pos_heap s l) + held (items (cart s)) l.

(** ** Who may remove

    [is_admin]: the current user exists and has the admin role.
    [admin_seen], [removal_seen]: the output so far has the message of a
    successful admin login, of a removal. [authorised]: an admin at the
    till, or a removal in the output, is always backed by an admin login
    in the output. *)
Definition is_admin (o : option User) : bool :=
  match o with
  | Some u => has_permission u "admin"
  | None => false
  end.

Definition is_removal (e : event) : bool :=
  match e with
  | ERemoved _ _ _ => true
  | _ => false
  end.

Definition is_admin_login (e : event) : bool :=
  match e with
  | EAdminLoggedIn _ => true
  | _ => false
  end.

Definition admin_seen (w : world) : Prop :=
  existsb is_admin_login (stdout w) = true.

Definition removal_seen (w : world) : Prop :=
  existsb is_removal (stdout w) = true.

Definition authorised (w : world) : Prop :=
  is_admin (current_user (pos w)) = true \/ removal_seen w -> admin_seen w.

(** A step that assigns nothing to the POS object and prints no removal. *)
Definition silent_step (w w' : world) : Prop :=
  pos w' = pos w /\
  exists printed, stdout w' = stdout w ++ printed /\ existsb is_removal printed = false.

Definition silent {A} (m : M A) : Prop :=
  forall w,
    match m w with
    | Done _ w' | Raised _ w' => silent_step w w'
    | OutOfFuel => True
    end.

Definition silent_stable (P : world -> Prop) : Prop :=
  forall w w', silent_step w w' -> P w -> P w'.

(** A step after which the output is the old output with more text at its
    end. *)
Definition appends {A} (m : M A) : Prop :=
  forall w,
    match m w with
    | Done _ w' | Raised _ w' => exists printed, stdout w' = stdout w ++ printed
    | OutOfFuel => True
    end.

(** ** What a computation prints

    [emits ok m]: the output after [m] is the output before it with more
    messages at its end, all of which satisfy [ok]. *)
Definition emits {A} (ok : event -> Prop) (m : M A) : Prop :=
  forall w,
    match m w with
    | Done _ w' | Raised _ w' =>
        exists printed, stdout w' = stdout w ++ printed /\ Forall ok printed
    | OutOfFuel => True
    end.

(** A final receipt whose payment is not less than its total and whose
    change is the difference; any other message. *)
Definition receipt_paid (e : event) : Prop :=
  match e with
  | EReceipt _ _ _ _ _ total payment change =>
      (payment <? total)%float = false /\ change = (payment - total)%float
  | _ => True
  end.

(** [float(line)] of a Python that reads the numerals of [numeral_float]
    and, as Python does, [nan] in any case with blanks around it. *)
Definition float_or_nan (line : string) : option float :=
  if String.eqb (ascii_lower (ascii_strip line)) "nan" then Some nan
  else numeral_float line.

Definition nan_builtins : PyBuiltins := {|
  py_int := numeral_int;
  py_float := float_or_nan;
  py_strip := ascii_strip;
  py_lower := ascii_lower;
  py_sum := sum_left
|}.

(** Since the POS object was [s0], nothing was assigned to it, unless an
    admin has logged in. *)
Definition untouched (s0 : POS) (w : world) : Prop :=
  admin_seen w \/ pos w = s0.

(** ** Coming to an end

    [finishes k m]: with at most [k] lines of input pending, [m] ends, by a
    return or by an exception, and leaves no more lines pending than it
    found. *)
Definition finishes {A} (k : nat) (m : M A) : Prop :=
  forall w, (length (stdin w) <= k)%nat ->
    match m w with
    | Done _ w' | Raised _ w' => (length (stdin w') <= length (stdin w))%nat
    | OutOfFuel => False
    end.

(** ** Logging in and the main loop

    [POS.login] and [POS.run] print messages of their own. A session is the
    world of the menus together with these messages, each with the number
    of messages of the menus printed before it, which fixes the order of
    all that is on the screen. *)
Inductive run_message :=
| RStoreBanner
| RLoginBanner
| RWelcome (username : string)
| RInvalidCredentials (attempts : Z)
| RAttemptsExceeded
| RExitingSystem
| RMainMenu
| RLoggedOut
| RGoodbye
| RInvalidChoice.

Record session := mkSession {
  ses_world : world;
  ses_shown : list (nat * run_message)
}.

(** How a call ends: it returns, an exception leaves it, or the fuel of the
    model is used up. *)
Inductive ended (A : Type) :=
| Returned (a : A) (ses : session)
| Crashed (e : exn) (ses : session)
| Starved.
Arguments Returned {A} a ses.
Arguments Crashed {A} e ses.
Arguments Starved {A}.

Definition SM (A : Type) := session -> ended A.

Definition sm_ret {A} (a : A) : SM A := fun ses => Returned a ses.

Definition sm_bind {A B} (m : SM A) (k : A -> SM B) : SM B :=
  fun ses =>
    match m ses with
    | Returned a ses' => k a ses'
    | Crashed e ses' => Crashed e ses'
    | Starved => Starved
    end.

(** A computation of the menus, run on the world of the session. *)
Definition lift {A} (m : M A) : SM A :=
  fun ses =>
    match m (ses_world ses) with
    | Done a w' => Returned a (mkSession w' (ses_shown ses))
    | Raised e w' => Crashed e (mkSession w' (ses_shown ses))
    | OutOfFuel => Starved
    end.

Definition say (m : run_message) : SM unit :=
  fun ses =>
    Returned tt (mkSession (ses_world ses)
                   (ses_shown ses ++ [(length (stdout (ses_world ses)), m)])).

Declare Scope SM_scope.
Delimit Scope SM_scope with SM.
Notation "'let!' x ':=' c1 'in' c2" := (sm_bind c1 (fun x => c2))
  (at level 10, x name, c1 at level 100, c2 at level 200) : SM_scope.
Notation "c1 ;; c2" := (sm_bind c1 (fun _ => c2))
  (at level 100, c2 at level 200, right associativity) : SM_scope.

(** [not r] on what [login] returns: [None] and [False] are falsy. *)
Definition falsy (r : option bool) : bool :=
  match r with
  | Some true => false
  | _ => true
  end.

(** What a turn of the inner [while True] of [run] does to the loops: go
    on, [break], or [return]. *)
Inductive signal := Continue | Break | Return.

Section Session.
Context `{PyBuiltins}.
Local Open Scope SM_scope.

(** [POS.login], from the test of the [while] on, with [attempts] attempts
    left. [None] is the end of the method without a [return]. *)
Fixpoint login_loop (attempts : nat) : SM (option bool) :=
  match attempts with
  | O => sm_ret None
  | S remaining =>
      say RLoginBanner ;;
      let! uname := lift input in
      let! pwd := lift input in
      let! s := lift get_pos in
      let failed :=
        say (RInvalidCredentials (Z.of_nat remaining)) ;;
        match remaining with
        | O => say RAttemptsExceeded ;; sm_ret (Some false)
        | S _ => login_loop remaining
        end in
      match users s !! py_strip uname with
      | Some user =>
          if String.eqb (password user) (py_strip pwd)
          then lift (modify_pos (set_current_user (Some user))) ;;
               say (RWelcome (username user)) ;;
               sm_ret (Some true)
          else failed
      | None => failed
      end
  end.

Definition login : SM (option bool) := login_loop 3.

(** One turn of the inner [while True] of [POS.run]. [show_inventory] is
    the message [EShowInventory], as in [add_item_to_cart]. *)
Definition run_turn (fuel : nat) : SM signal :=
  say RMainMenu ;;
  let! line := lift input in
  let choice := py_strip line in
  if String.eqb choice "1" then lift (new_sale fuel) ;; sm_ret Continue
  else if String.eqb choice "2" then lift view_cart ;; sm_ret Continue
  else if String.eqb choice "3" then lift (checkout fuel) ;; sm_ret Continue
  else if String.eqb choice "4" then lift (print EShowInventory) ;; sm_ret Continue
  else if String.eqb choice "5" then
    lift (modify_pos (set_current_user None)) ;;
    let! r := login in
    if falsy r then say RLoggedOut ;; sm_ret Break
    else sm_ret Continue
  else if String.eqb choice "6" then say RGoodbye ;; sm_ret Return
  else say RInvalidChoice ;; sm_ret Continue.

(** The two nested [while True] loops of [POS.run]: after a [break] of the
    inner loop the outer one makes a new cart and enters the inner loop
    again. *)
Fixpoint run_loop (fuel : nat) : SM unit :=
  match fuel with
  | O => fun _ => Starved
  | S fuel =>
      let! sig := run_turn fuel in
      match sig with
      | Continue => run_loop fuel
      | Break => lift (modify_pos (set_cart Cart_init)) ;; run_loop fuel
      | Return => sm_ret tt
      end
  end.

(** [POS.run] *)
Definition run (fuel : nat) : SM unit :=
  say RStoreBanner ;;
  let! r := login in
  if falsy r then say RExitingSystem
  else lift (modify_pos (set_cart Cart_init)) ;; run_loop fuel.

Local Close Scope SM_scope.
End Session.

(** The lines of failed attempts: no pair of a name and a password is the
    pair of a user. *)
Fixpoint all_rejected `{PyBuiltins} (s : POS) (lines : list string) : Prop :=
  match lines with
  | name :: pw :: rest =>
      (forall u, users s !! py_strip name = Some u -> password u <> py_strip pw) /\
      all_rejected s rest
  | _ => True
  end.

(** [self.cart = Cart()] at the top of the outer loop of [run]. *)
Definition with_new_cart (ses : session) : session :=
  mkSession (mkWorld (set_cart Cart_init (pos (ses_world ses)))
               (stdin (ses_world ses)) (stdout (ses_world ses)))
            (ses_shown ses).

(** [turn_begins fuel ses fuel' ses']: while [run_loop fuel] runs from
    [ses], a turn of the inner loop begins in the state [ses'], as
    [run_turn fuel']. *)
Inductive turn_begins `{PyBuiltins} : nat -> session -> nat -> session -> Prop :=
| turn_begins_now fuel ses :
    turn_begins (S fuel) ses fuel ses
| turn_begins_continue fuel ses ses1 fuel' ses' :
    run_turn fuel ses = Returned Continue ses1 ->
    turn_begins fuel ses1 fuel' ses' ->
    turn_begins (S fuel) ses fuel' ses'
| turn_begins_break fuel ses ses1 fuel' ses' :
    run_turn fuel ses = Returned Break ses1 ->
    turn_begins fuel (with_new_cart ses1) fuel' ses' ->
    turn_begins (S fuel) ses fuel' ses'.

(** [POS()]: nobody is logged in. *)
Definition POS_new : POS :=
  mkPOS 0.10%float initial_users None initial_inventory initial_heap Cart_init.

Definition fresh_session (lines : list string) : session :=
  mkSession (mkWorld POS_new lines []) [].

(** The lines of a cashier who logs in, logs out, fails three times to log
    in again, and then sells one Notebook for 600. *)
Definition relogin_script : list string :=
  [ "dburton"; "chiching";            (* login *)
    "5";                              (* logout *)
    "x"; "x"; "x"; "x"; "x"; "x";     (* three rejected attempts *)
    "1";                              (* new transaction *)
    "1"; ""; "40"; "1";               (* add one Notebook *)
    "4";                              (* checkout *)
    "600" ]%string.                   (* payment *)

(** ** The inventory listing *)

From Stdlib Require DecimalString.
From stdpp Require sorting.

(** [str(z)] for an [int]. *)
Definition py_str_int (z : Z) : string :=
  DecimalString.NilZero.string_of_int (Z.to_int z).

(** [str(product.id)[0]]. The text of an [int] is never empty, so the index
    is in range. *)
Definition id_initial (z : Z) : ascii :=
  match py_str_int z with
  | String a _ => a
  | EmptyString => "0"%char
  end.

(** [categories[category].append(product)] on a [defaultdict(list)], a dict
    in insertion order. *)
Fixpoint group_append (category : ascii) (product : loc)
    (categories : list (ascii * list loc)) : list (ascii * list loc) :=
  match categories with
  | [] => [(category, [product])]
  | (c, products) :: rest =>
      if Ascii.eqb c category then (c, products ++ [product]) :: rest
      else (c, products) :: group_append category product rest
  end.

(** The first loop of [POS.show_inventory]. *)
Definition inventory_groups (s : POS) : list (ascii * list loc) :=
  fold_left (fun categories product =>
               group_append (id_initial (p_id (pos_heap s product))) product categories)
            (map snd (inventory s)) [].

(** The order of two items of the dict in [sorted]: the keys are strings of
    one character, compared by code point; they differ, so the lists are
    never compared. *)
Definition key_le (x y : ascii * list loc) : Prop :=
  (N_of_ascii (fst x) <= N_of_ascii (fst y))%N.

#[local] Instance key_le_dec (x y : ascii * list loc) : Decision (key_le x y) :=
  decide (N_of_ascii (fst x) <= N_of_ascii (fst y))%N.

(** [POS.show_inventory]: the groups in the order in which they are
    printed, each with its products in the order of their lines. *)
Definition show_inventory (s : POS) : list (ascii * list loc) :=
  stdpp.sorting.merge_sort key_le (inventory_groups s).

(** ** Exceptions that leave a computation

    [no_ValueError m]: whatever [m] raises, it is not [ValueError]. *)
Definition no_ValueError {A} (m : M A) : Prop :=
  forall w,
    match m w with
    | Raised ValueError _ => False
    | _ => True
    end.

(** * Properties *)

(** ** The heap *)

Lemma set_stock_stock_same (h : heap) (l : loc) (v : Z) :
  p_stock (set_stock h l v l) = v.
Proof. unfold set_stock. now rewrite Nat.eqb_refl. Qed.

Lemma set_stock_other (h : heap) (l l' : loc) (v : Z) :
  l' <> l -> set_stock h l v l' = h l'.
Proof.
  intros Hne. unfold set_stock.
  destruct (Nat.eqb_spec l' l) as [->|_]; [contradiction | reflexivity].
Qed.

Lemma set_stock_stock (h : heap) (l l' : loc) (v : Z) :
  p_stock (set_stock h l v l') = if Nat.eqb l' l then v else p_stock (h l').
Proof. unfold set_stock. now destruct (Nat.eqb l' l). Qed.

Lemma set_stock_id (h : heap) (l l' : loc) (v : Z) :
  p_id (set_stock h l v l') = p_id (h l').
Proof.
  unfold set_stock. destruct (Nat.eqb_spec l' l) as [->|_]; reflexivity.
Qed.

(** Writing back the stock that is already there changes no object. *)
Lemma set_stock_restore (h : heap) (l l' : loc) (v : Z) :
  v = p_stock (h l) -> set_stock h l v l' = h l'.
Proof.
  intros ->. unfold set_stock.
  destruct (Nat.eqb_spec l' l) as [->|_]; [now destruct (h l) | reflexivity].
Qed.

Lemma line_ids_set_stock (h : heap) (l : loc) (v : Z) (its : list CartItem) :
  line_ids (set_stock h l v) its = line_ids h its.
Proof.
  unfold line_ids. apply map_ext. intros item. apply set_stock_id.
Qed.

Lemma ids_unique_set_stock (h : heap) (l : loc) (v : Z) :
  ids_unique h -> ids_unique (set_stock h l v).
Proof.
  intros Hu l1 l2. rewrite !set_stock_id. apply Hu.
Qed.

Lemma held_app (its1 its2 : list CartItem) (l : loc) :
  held (its1 ++ its2) l = held its1 l + held its2 l.
Proof. induction its1 as [|item its1 IH]; simpl; [reflexivity | rewrite IH; lia]. Qed.

(** ** [Cart.add_item] *)

Lemma add_item_loop_None (h : heap) (product : loc) (quantity : Z)
    (its : list CartItem) :
  add_item_loop h product quantity its = None <->
  p_id (h product) ∉ line_ids h its.
Proof.
  induction its as [|item rest IH]; simpl.
  - split; [intros _; apply not_elem_of_nil | reflexivity].
  - rewrite not_elem_of_cons.
    destruct (Z.eqb_spec (p_id (h (ci_product item))) (p_id (h product))) as [Heq|Hne].
    + split.
      * destruct (_ >? _); discriminate.
      * intros [Hne _]. now symmetry in Heq.
    + destruct (add_item_loop h product quantity rest) as [[[[r h'] rest'] out]|].
      * split; [discriminate|]. intros [_ Hn]. apply IH in Hn. discriminate.
      * split; [|reflexivity]. intros _. split; [congruence | now apply IH].
Qed.

(** A [return False] inside the loop comes before any assignment. *)
Lemma add_item_loop_false (h h' : heap) (product : loc) (quantity : Z)
    (its its' : list CartItem) (out : list event) :
  add_item_loop h product quantity its = Some (false, h', its', out) ->
  h' = h /\ its' = its.
Proof.
  revert its' out. induction its as [|item rest IH]; simpl; intros its' out Hl.
  - discriminate.
  - destruct (p_id (h (ci_product item)) =? p_id (h product)).
    + destruct (_ >? _); inversion Hl; subst; auto.
    + destruct (add_item_loop h product quantity rest) as [[[[r h1] rest1] out1]|];
        [|discriminate].
      inversion Hl; subst.
      destruct (IH _ _ eq_refl) as [-> ->]. auto.
Qed.

(** A [return True] inside the loop: the first line with the id of
    [product] got [quantity] more, and [product.stock] got [quantity] less. *)
Lemma add_item_loop_true (h h' : heap) (product : loc) (quantity : Z)
    (its its' : list CartItem) (out : list event) :
  add_item_loop h product quantity its = Some (true, h', its', out) ->
  exists pre item post,
    its = pre ++ item :: post /\
    (p_id (h product) ∉ line_ids h pre) /\
    p_id (h (ci_product item)) = p_id (h product) /\
    ci_quantity item + quantity <= p_stock (h product) /\
    h' = set_stock h product (p_stock (h product) - quantity) /\
    its' = pre ++ mkCartItem (ci_product item) (ci_quantity item + quantity) :: post /\
    out = check_low_stock h (ci_product item) ++ check_low_stock h' product.
Proof.
  revert its' out. induction its as [|item rest IH]; simpl; intros its' out Hl.
  - discriminate.
  - destruct (Z.eqb_spec (p_id (h (ci_product item))) (p_id (h product))) as [Heq|Hne].
    + destruct (Z.gtb_spec (ci_quantity item + quantity) (p_stock (h product)));
        [discriminate|].
      inversion Hl; subst.
      exists [], item, rest. simpl.
      repeat split; auto using not_elem_of_nil.
    + destruct (add_item_loop h product quantity rest) as [[[[r h1] rest1] out1]|];
        [|discriminate].
      inversion Hl; subst.
      destruct (IH _ _ eq_refl) as (pre & it & post & -> & Hpre & Hid & Hq & Hh & -> & ->).
      exists (item :: pre), it, post. simpl.
      repeat split; auto.
      rewrite not_elem_of_cons. split; [congruence | assumption].
Qed.

(** The two ways [add_item] returns [True]. *)
Lemma add_item_true (h : heap) (c : Cart) (product : loc) (quantity : Z) :
  ret (add_item h c product quantity) = true ->
  0 < quantity /\
  o_heap (add_item h c product quantity)
    = set_stock h product (p_stock (h product) - quantity) /\
  discount (o_cart (add_item h c product quantity)) = discount c /\
  ((exists pre item post,
       items c = pre ++ item :: post /\
       (p_id (h product) ∉ line_ids h pre) /\
       p_id (h (ci_product item)) = p_id (h product) /\
       ci_quantity item + quantity <= p_stock (h product) /\
       items (o_cart (add_item h c product quantity))
         = pre ++ mkCartItem (ci_product item) (ci_quantity item + quantity) :: post)
   \/
   ((p_id (h product) ∉ line_ids h (items c)) /\
    quantity <= p_stock (h product) /\
    items (o_cart (add_item h c product quantity))
      = items c ++ [mkCartItem product quantity])).
Proof.
  unfold add_item.
  destruct (Z.leb_spec quantity 0) as [|Hpos]; [discriminate|].
  destruct (add_item_loop h product quantity (items c))
    as [[[[r h'] its'] out]|] eqn:Hl.
  - simpl. intros ->.
    apply add_item_loop_true in Hl
      as (pre & item & post & Hits & Hpre & Hid & Hq & -> & -> & _).
    split; [assumption|]. split; [reflexivity|]. split; [reflexivity|].
    left. exists pre, item, post. auto.
  - apply add_item_loop_None in Hl.
    destruct (Z.gtb_spec quantity (p_stock (h product))); [discriminate|].
    simpl. intros _.
    split; [assumption|]. split; [reflexivity|]. split; [reflexivity|].
    right. auto.
Qed.

(** [add_item] returning [False] changes nothing. *)
Lemma add_item_false (h : heap) (c : Cart) (product : loc) (quantity : Z) :
  ret (add_item h c product quantity) = false ->
  o_heap (add_item h c product quantity) = h /\
  o_cart (add_item h c product quantity) = c.
Proof.
  unfold add_item.
  destruct (quantity <=? 0); [auto|].
  destruct (add_item_loop h product quantity (items c))
    as [[[[r h'] its'] out]|] eqn:Hl.
  - simpl. intros ->. apply add_item_loop_false in Hl as [-> ->].
    split; [reflexivity | now destruct c].
  - destruct (quantity >? p_stock (h product)); [auto | discriminate].
Qed.

(** ** [Cart.remove_item] *)

(** Without a line for [product_id] the loop changes nothing. *)
Lemma remove_item_loop_no_match (h : heap) (product_id quantity : Z)
    (its : list CartItem) :
  product_id ∉ line_ids h its ->
  remove_item_loop h product_id quantity its = mkRemoveLoop false false h its [].
Proof.
  induction its as [|item rest IH]; simpl; intros Hn.
  - reflexivity.
  - apply not_elem_of_cons in Hn as [Hne Hn].
    destruct (Z.eqb_spec (p_id (h (ci_product item))) product_id) as [Heq|_];
      [congruence|].
    now rewrite IH.
Qed.

(** Lines before the first one for [product_id] are passed over. *)
Lemma remove_item_loop_app (h : heap) (product_id quantity : Z)
    (pre rest : list CartItem) :
  product_id ∉ line_ids h pre ->
  remove_item_loop h product_id quantity (pre ++ rest) =
  let r := remove_item_loop h product_id quantity rest in
  mkRemoveLoop (rl_returned r) (rl_removed r) (rl_heap r) (pre ++ rl_items r) (rl_out r).
Proof.
  induction pre as [|item pre IH]; simpl; intros Hn.
  - now destruct (remove_item_loop h product_id quantity rest).
  - apply not_elem_of_cons in Hn as [Hne Hn].
    destruct (Z.eqb_spec (p_id (h (ci_product item))) product_id) as [Heq|_];
      [congruence|].
    now rewrite IH.
Qed.

(** The loop never changes a product id. *)
Lemma remove_item_loop_id (h : heap) (product_id quantity : Z)
    (its : list CartItem) (l : loc) :
  p_id (rl_heap (remove_item_loop h product_id quantity its) l) = p_id (h l).
Proof.
  revert h. induction its as [|item rest IH]; simpl; intros h.
  - reflexivity.
  - destruct (p_id (h (ci_product item)) =? product_id).
    + destruct (quantity >? ci_quantity item); simpl; [reflexivity|].
      rewrite IH. apply set_stock_id.
    + simpl. apply IH.
Qed.

(** Each iteration moves stock between a line and its own product. *)
Lemma remove_item_loop_conserves (h : heap) (product_id quantity : Z)
    (its : list CartItem) (l : loc) :
  p_stock (rl_heap (remove_item_loop h product_id quantity its) l)
    + held (rl_items (remove_item_loop h product_id quantity its)) l
  = p_stock (h l) + held its l.
Proof.
  revert h. induction its as [|item rest IH]; simpl; intros h.
  - reflexivity.
  - destruct (p_id (h (ci_product item)) =? product_id).
    + destruct (quantity >? ci_quantity item); simpl; [reflexivity|].
      rewrite held_app.
      specialize (IH (set_stock h (ci_product item)
                        (p_stock (h (ci_product item)) + quantity))).
      rewrite set_stock_stock in IH.
      destruct (Z.eqb_spec (ci_quantity item - quantity) 0) as [Hz|Hz]; simpl;
        (destruct (Nat.eqb_spec (ci_product item) l) as [Heq|Hne];
         [ subst l; rewrite Nat.eqb_refl in IH
         | rewrite (proj2 (Nat.eqb_neq l (ci_product item))) in IH by auto ]);
        lia.
    + simpl. specialize (IH h). lia.
Qed.

(** The lines that remain are lines that were there, in the same order. *)
Lemma remove_item_loop_sublist (h : heap) (product_id quantity : Z)
    (its : list CartItem) :
  line_ids (rl_heap (remove_item_loop h product_id quantity its))
           (rl_items (remove_item_loop h product_id quantity its))
  `sublist_of` line_ids h its.
Proof.
  assert (Hids : forall h1 h2 l, (forall x, p_id (h1 x) = p_id (h2 x)) ->
                                 line_ids h1 l = line_ids h2 l).
  { intros h1 h2 l Hx. unfold line_ids. apply map_ext. intros; apply Hx. }
  revert h. induction its as [|item rest IH]; simpl; intros h.
  - constructor.
  - destruct (p_id (h (ci_product item)) =? product_id).
    + destruct (quantity >? ci_quantity item); simpl; [reflexivity|].
      specialize (IH (set_stock h (ci_product item)
                        (p_stock (h (ci_product item)) + quantity))).
      rewrite line_ids_set_stock in IH.
      destruct (ci_quantity item - quantity =? 0); simpl.
      * now apply sublist_cons.
      * rewrite remove_item_loop_id, set_stock_id. now apply sublist_skip.
    + simpl. rewrite remove_item_loop_id. apply sublist_skip, IH.
Qed.

(** As long as no removal was made, nothing was changed. *)
Lemma remove_item_loop_not_removed (h : heap) (product_id quantity : Z)
    (its : list CartItem) :
  rl_removed (remove_item_loop h product_id quantity its) = false ->
  rl_heap (remove_item_loop h product_id quantity its) = h /\
  rl_items (remove_item_loop h product_id quantity its) = its.
Proof.
  induction its as [|item rest IH]; simpl.
  - auto.
  - destruct (p_id (h (ci_product item)) =? product_id).
    + destruct (quantity >? ci_quantity item); simpl; [auto | discriminate].
    + simpl. intros Hr. destruct (IH Hr) as [-> ->]. auto.
Qed.

(** With one line per product id, [return False] inside the loop is taken
    before any removal. *)
Lemma remove_item_loop_returned (h : heap) (product_id quantity : Z)
    (its : list CartItem) :
  NoDup (line_ids h its) ->
  rl_returned (remove_item_loop h product_id quantity its) = true ->
  rl_removed (remove_item_loop h product_id quantity its) = false.
Proof.
  induction its as [|item rest IH]; simpl; intros Hnd.
  - reflexivity.
  - apply NoDup_cons in Hnd as [Hfresh Hnd].
    destruct (Z.eqb_spec (p_id (h (ci_product item))) product_id) as [Heq|_].
    + destruct (quantity >? ci_quantity item); simpl; [reflexivity|].
      rewrite remove_item_loop_no_match; [discriminate|].
      rewrite line_ids_set_stock. now rewrite <- Heq.
    + simpl. now apply IH.
Qed.

(** [remove_item] returning [False] changes nothing, on a cart with one
    line per product id. *)
Lemma remove_item_false (h : heap) (c : Cart) (product_id quantity : Z) :
  NoDup (line_ids h (items c)) ->
  ret (remove_item h c product_id quantity) = false ->
  o_heap (remove_item h c product_id quantity) = h /\
  o_cart (remove_item h c product_id quantity) = c.
Proof.
  intros Hnd. unfold remove_item.
  pose proof (remove_item_loop_returned h product_id quantity (items c) Hnd) as Hret.
  pose proof (remove_item_loop_not_removed h product_id quantity (items c)) as Hnr.
  destruct (rl_returned _) eqn:E1; simpl.
  - intros _. destruct (Hnr (Hret eq_refl)) as [-> ->]. split; [reflexivity | now destruct c].
  - destruct (rl_removed _) eqn:E2; simpl; [discriminate|].
    intros _. destruct (Hnr eq_refl) as [-> ->]. split; [reflexivity | now destruct c].
Qed.

(** ** What every call of [add_item] and [remove_item] preserves *)

Lemma line_ids_ext (h1 h2 : heap) (its : list CartItem) :
  (forall l, p_id (h1 l) = p_id (h2 l)) -> line_ids h1 its = line_ids h2 its.
Proof. intros Hx. unfold line_ids. apply map_ext. intros; apply Hx. Qed.

Lemma line_ids_app (h : heap) (its1 its2 : list CartItem) :
  line_ids h (its1 ++ its2) = line_ids h its1 ++ line_ids h its2.
Proof. unfold line_ids. apply map_app. Qed.

(** Product ids are never assigned. *)
Lemma apply_op_id (h : heap) (c : Cart) (op : cart_op) (l : loc) :
  p_id (o_heap (apply_op h c op) l) = p_id (h l).
Proof.
  destruct op as [product quantity | product_id quantity]; simpl.
  - destruct (ret (add_item h c product quantity)) eqn:Hr.
    + apply add_item_true in Hr as (_ & -> & _). apply set_stock_id.
    + apply add_item_false in Hr as [-> _]. reflexivity.
  - unfold remove_item.
    destruct (rl_returned _); [|destruct (negb _)]; simpl; apply remove_item_loop_id.
Qed.

Lemma apply_op_ids_unique (h : heap) (c : Cart) (op : cart_op) :
  ids_unique h -> ids_unique (o_heap (apply_op h c op)).
Proof. intros Hu l1 l2. rewrite !apply_op_id. apply Hu. Qed.

Lemma remove_item_items (h : heap) (c : Cart) (product_id quantity : Z) :
  o_heap (remove_item h c product_id quantity)
    = rl_heap (remove_item_loop h product_id quantity (items c)) /\
  items (o_cart (remove_item h c product_id quantity))
    = rl_items (remove_item_loop h product_id quantity (items c)).
Proof.
  unfold remove_item.
  destruct (rl_returned _); [|destruct (negb _)]; simpl; auto.
Qed.

(** [add_item] merges into the line of the same id and [remove_item] only
    shrinks or drops lines: one line per product id is kept. *)
Lemma apply_op_lines_unique (h : heap) (c : Cart) (op : cart_op) :
  lines_unique h c ->
  lines_unique (o_heap (apply_op h c op)) (o_cart (apply_op h c op)).
Proof.
  unfold lines_unique. intros Hnd.
  destruct op as [product quantity | product_id quantity]; simpl.
  - destruct (ret (add_item h c product quantity)) eqn:Hr.
    + apply add_item_true in Hr as (_ & -> & _ & Hcase).
      rewrite line_ids_set_stock.
      destruct Hcase as [(pre & item & post & Hits & _ & _ & _ & ->) | (Hfresh & _ & ->)].
      * rewrite Hits in Hnd. now rewrite line_ids_app in *.
      * rewrite line_ids_app. apply NoDup_app. repeat split; auto.
        -- intros x Hx Hin. simpl in Hin. apply list_elem_of_singleton in Hin. now subst.
        -- apply NoDup_singleton.
    + now apply add_item_false in Hr as [-> ->].
  - destruct (remove_item_items h c product_id quantity) as [-> ->].
    eapply sublist_NoDup; [exact Hnd | apply remove_item_loop_sublist].
Qed.

Lemma remove_item_loop_positive (h : heap) (product_id quantity : Z)
    (its : list CartItem) :
  Forall (fun item => 0 < ci_quantity item) its ->
  Forall (fun item => 0 < ci_quantity item)
         (rl_items (remove_item_loop h product_id quantity its)).
Proof.
  revert h. induction its as [|item rest IH]; simpl; intros h Hpos.
  - constructor.
  - apply Forall_cons in Hpos as [Hi Hrest].
    destruct (p_id (h (ci_product item)) =? product_id).
    + destruct (Z.gtb_spec quantity (ci_quantity item)); simpl.
      * now constructor.
      * apply Forall_app. split; [|now apply IH].
        destruct (Z.eqb_spec (ci_quantity item - quantity) 0); constructor;
          [simpl; lia | constructor].
    + simpl. constructor; [assumption | now apply IH].
Qed.

(** No call leaves a line with a quantity of zero or less. *)
Lemma apply_op_lines_positive (h : heap) (c : Cart) (op : cart_op) :
  lines_positive c -> lines_positive (o_cart (apply_op h c op)).
Proof.
  unfold lines_positive. intros Hpos.
  destruct op as [product quantity | product_id quantity]; simpl.
  - destruct (ret (add_item h c product quantity)) eqn:Hr.
    + apply add_item_true in Hr as (Hq & _ & _ & Hcase).
      destruct Hcase as [(pre & item & post & Hits & _ & _ & _ & ->) | (_ & _ & ->)].
      * rewrite Hits in Hpos. apply Forall_app in Hpos as [Hpre Hpost].
        apply Forall_cons in Hpost as [Hi Hpost].
        apply Forall_app. split; [assumption|].
        constructor; [simpl; lia | assumption].
      * apply Forall_app. split; [assumption|]. constructor; [simpl; lia | constructor].
    + now apply add_item_false in Hr as [_ ->].
  - destruct (remove_item_items h c product_id quantity) as [_ ->].
    now apply remove_item_loop_positive.
Qed.

(** Stock plus held quantity is the same before and after a call. *)
Lemma apply_op_conserves (h : heap) (c : Cart) (op : cart_op) (l : loc) :
  ids_unique h ->
  p_stock (o_heap (apply_op h c op) l) + held (items (o_cart (apply_op h c op))) l
  = p_stock (h l) + held (items c) l.
Proof.
  intros Hu.
  destruct op as [product quantity | product_id quantity]; simpl.
  - destruct (ret (add_item h c product quantity)) eqn:Hr.
    + apply add_item_true in Hr as (_ & -> & _ & Hcase).
      rewrite set_stock_stock.
      destruct Hcase as [(pre & item & post & -> & _ & Hid & _ & ->) | (_ & _ & ->)].
      * apply Hu in Hid. rewrite !held_app. simpl. rewrite Hid.
        destruct (Nat.eqb_spec product l) as [->|Hne].
        -- rewrite Nat.eqb_refl. lia.
        -- rewrite (proj2 (Nat.eqb_neq l product)) by auto. lia.
      * rewrite held_app. simpl.
        destruct (Nat.eqb_spec product l) as [->|Hne].
        -- rewrite Nat.eqb_refl. lia.
        -- rewrite (proj2 (Nat.eqb_neq l product)) by auto. lia.
    + now apply add_item_false in Hr as [-> ->].
  - destruct (remove_item_items h c product_id quantity) as [-> ->].
    apply remove_item_loop_conserves.
Qed.

(** ** Sequences of calls *)

Lemma run_ops_app (h : heap) (c : Cart) (ops1 ops2 : list cart_op) :
  run_ops h c (ops1 ++ ops2)
  = run_ops (fst (run_ops h c ops1)) (snd (run_ops h c ops1)) ops2.
Proof.
  revert h c. induction ops1 as [|op ops1 IH]; simpl; intros h c; [reflexivity | apply IH].
Qed.

(** A sequence of successful calls is a sequence of calls. *)
Lemma run_successful_run_ops (h : heap) (c : Cart) (ops : list cart_op)
    (st : heap * Cart) :
  run_successful h c ops = Some st -> run_ops h c ops = st.
Proof.
  revert h c. induction ops as [|op ops IH]; simpl; intros h c.
  - now intros [= ->].
  - destruct (ret (apply_op h c op)); [apply IH | discriminate].
Qed.

(** The first [k] calls of a successful sequence are a successful
    sequence. *)
Lemma run_successful_firstn (h : heap) (c : Cart) (ops : list cart_op)
    (st : heap * Cart) (k : nat) :
  run_successful h c ops = Some st ->
  exists st', run_successful h c (firstn k ops) = Some st'.
Proof.
  revert h c k. induction ops as [|op ops IH]; intros h c k Hrun.
  - destruct k; simpl; eauto.
  - destruct k; simpl; [eauto|].
    simpl in Hrun. destruct (ret (apply_op h c op)); [|discriminate].
    now apply IH.
Qed.

Lemma run_ops_lines_unique (h : heap) (c : Cart) (ops : list cart_op) :
  lines_unique h c ->
  lines_unique (fst (run_ops h c ops)) (snd (run_ops h c ops)).
Proof.
  revert h c. induction ops as [|op ops IH]; simpl; intros h c Hnd; [assumption|].
  now apply IH, apply_op_lines_unique.
Qed.

Lemma run_ops_lines_positive (h : heap) (c : Cart) (ops : list cart_op) :
  lines_positive c -> lines_positive (snd (run_ops h c ops)).
Proof.
  revert h c. induction ops as [|op ops IH]; simpl; intros h c Hpos; [assumption|].
  now apply IH, apply_op_lines_positive.
Qed.

Lemma run_ops_ids_unique (h : heap) (c : Cart) (ops : list cart_op) :
  ids_unique h -> ids_unique (fst (run_ops h c ops)).
Proof.
  revert h c. induction ops as [|op ops IH]; simpl; intros h c Hu; [assumption|].
  now apply IH, apply_op_ids_unique.
Qed.

Lemma run_ops_conserves (h : heap) (c : Cart) (ops : list cart_op) (l : loc) :
  ids_unique h ->
  p_stock (fst (run_ops h c ops) l) + held (items (snd (run_ops h c ops))) l
  = p_stock (h l) + held (items c) l.
Proof.
  revert h c. induction ops as [|op ops IH]; simpl; intros h c Hu; [reflexivity|].
  rewrite IH by now apply apply_op_ids_unique.
  now apply apply_op_conserves.
Qed.

Lemma Cart_init_lines_unique (h : heap) : lines_unique h Cart_init.
Proof. apply NoDup_nil_2. Qed.

Lemma Cart_init_lines_positive : lines_positive Cart_init.
Proof. constructor. Qed.

(** ** The start-up inventory has one product per id *)

Lemma nth_heap_ids_unique (ps : list Product) :
  NoDup (map p_id ps) ->
  Forall (fun p => 0 < p_id p) ps ->
  ids_unique (fun l => nth l ps (mkProduct (- Z.of_nat l) "" (NInt 0) 0 "")).
Proof.
  intros Hnd Hpos l1 l2 Heq.
  apply NoDup_ListNoDup in Hnd.
  assert (Hin : forall l d, (l < length ps)%nat -> 0 < p_id (nth l ps d)).
  { intros l d Hl. rewrite List.Forall_forall in Hpos. apply Hpos, nth_In, Hl. }
  assert (Hout : forall l d, (length ps <= l)%nat -> nth l ps d = d).
  { intros l d Hl. now apply nth_overflow. }
  destruct (Nat.lt_ge_cases l1 (length ps)) as [H1|H1],
           (Nat.lt_ge_cases l2 (length ps)) as [H2|H2].
  - rewrite (List.NoDup_nth (map p_id ps) 0) in Hnd.
    apply Hnd; rewrite ?length_map; try assumption.
    rewrite <- (map_nth p_id ps (mkProduct (- Z.of_nat l1) "" (NInt 0) 0 "") l1) in Heq.
    rewrite <- (map_nth p_id ps (mkProduct (- Z.of_nat l2) "" (NInt 0) 0 "") l2) in Heq.
    rewrite (nth_indep (map p_id ps) _ 0) in Heq by now rewrite length_map.
    rewrite Heq. apply nth_indep. now rewrite length_map.
  - specialize (Hin l1 (mkProduct (- Z.of_nat l1) "" (NInt 0) 0 "") H1).
    rewrite (Hout l2 _ H2) in Heq. simpl in Heq. lia.
  - specialize (Hin l2 (mkProduct (- Z.of_nat l2) "" (NInt 0) 0 "") H2).
    rewrite (Hout l1 _ H1) in Heq. simpl in Heq. lia.
  - rewrite (Hout l1 _ H1), (Hout l2 _ H2) in Heq. simpl in Heq. lia.
Qed.

Lemma initial_heap_ids_unique : ids_unique initial_heap.
Proof.
  apply nth_heap_ids_unique.
  - refine (bool_decide_eq_true_1 _ _). vm_compute. reflexivity.
  - refine (bool_decide_eq_true_1 _ _). vm_compute. reflexivity.
Qed.

(** ** Removing from the one line of a product *)

(** When exactly one line carries [product_id] and holds at least
    [quantity], the loop gives [quantity] back to the stock of that line's
    product and shrinks or drops that line. *)
Lemma remove_item_loop_at (h : heap) (product_id quantity : Z)
    (pre post : list CartItem) (item : CartItem) :
  product_id ∉ line_ids h pre ->
  p_id (h (ci_product item)) = product_id ->
  quantity <= ci_quantity item ->
  product_id ∉ line_ids h post ->
  remove_item_loop h product_id quantity (pre ++ item :: post) =
  let p := ci_product item in
  let h1 := set_stock h p (p_stock (h p) + quantity) in
  mkRemoveLoop false true h1
    (pre ++ (if ci_quantity item - quantity =? 0 then []
             else [mkCartItem p (ci_quantity item - quantity)]) ++ post)
    (check_low_stock h1 p
       ++ [ERemoved quantity (p_name (h1 p)) (ci_quantity item - quantity);
           EStockUpdated (p_stock (h1 p))]
       ++ check_low_stock h1 p ++ []).
Proof.
  intros Hpre Hid Hq Hpost.
  rewrite remove_item_loop_app by assumption. simpl.
  rewrite (proj2 (Z.eqb_eq _ _) Hid).
  destruct (Z.gtb_spec quantity (ci_quantity item)); [lia|].
  rewrite remove_item_loop_no_match by now rewrite line_ids_set_stock.
  reflexivity.
Qed.

Lemma set_stock_twice (h : heap) (l l' : loc) (a b : Z) :
  set_stock (set_stock h l a) l b l' = set_stock h l b l'.
Proof.
  unfold set_stock. rewrite Nat.eqb_refl.
  destruct (Nat.eqb l' l); reflexivity.
Qed.

Lemma with_items_items (c : Cart) (its : list CartItem) :
  with_items (with_items c its) (items c) = c.
Proof. now destruct c. Qed.

(** A successful [add_item] of [quantity] units of [product], followed by
    [remove_item] of the same id and quantity, on a cart with one positive
    line per product id and a catalogue with one product per id. *)
Lemma add_remove_round_trip (h : heap) (c : Cart) (product : loc) (quantity : Z) :
  ids_unique h -> lines_unique h c -> lines_positive c ->
  ret (add_item h c product quantity) = true ->
  let o1 := add_item h c product quantity in
  let o2 := remove_item (o_heap o1) (o_cart o1) (p_id (o_heap o1 product)) quantity in
  ret o2 = true /\ (forall l, o_heap o2 l = h l) /\ o_cart o2 = c.
Proof.
  intros Hu Hnd Hpos Hadd. unfold lines_unique, lines_positive in *.
  assert (Hc : o_cart (add_item h c product quantity)
               = with_items c (items (o_cart (add_item h c product quantity)))).
  { destruct (add_item_true _ _ _ _ Hadd) as (_ & _ & Hd & _).
    destruct (o_cart (add_item h c product quantity)) as [its d]. simpl in *.
    now subst d. }
  destruct (add_item_true _ _ _ _ Hadd) as (Hq & Hh & _ & Hcase).
  cbv zeta. rewrite Hc, Hh. clear Hc Hh.
  rewrite set_stock_id. unfold remove_item. cbn [items with_items].
  destruct Hcase as [(pre & item & post & Hits & Hpre & Hid & Hle & ->)
                    | (Hfresh & Hle & ->)].
  - rewrite Hits in Hnd, Hpos. rewrite line_ids_app in Hnd. simpl in Hnd.
    apply NoDup_app in Hnd as (_ & _ & Hnd). apply NoDup_cons in Hnd as [Hpost _].
    apply Forall_app in Hpos as [_ Hpos]. apply Forall_cons in Hpos as [Hn _].
    pose proof (Hu _ _ Hid) as Hp.
    rewrite remove_item_loop_at; cbn [ci_product ci_quantity];
      rewrite ?line_ids_set_stock, ?set_stock_id;
      try assumption; try lia; try (rewrite <- Hid; assumption).
    cbn [rl_returned rl_removed negb ret o_heap o_cart rl_heap rl_items].
    split; [reflexivity|]. split.
    + intros l. rewrite Hp, set_stock_twice. apply set_stock_restore.
      rewrite set_stock_stock_same. lia.
    + replace (ci_quantity item + quantity - quantity) with (ci_quantity item) by lia.
      destruct (Z.eqb_spec (ci_quantity item) 0); [lia|].
      replace (mkCartItem (ci_product item) (ci_quantity item)) with item
        by now destruct item.
      simpl. rewrite <- Hits. apply with_items_items.
  - rewrite (remove_item_loop_at _ _ _ (items c) [] (mkCartItem product quantity));
      cbn [ci_product ci_quantity];
      rewrite ?line_ids_set_stock, ?set_stock_id;
      try assumption; try reflexivity; try lia; try apply not_elem_of_nil.
    cbn [rl_returned rl_removed negb ret o_heap o_cart rl_heap rl_items].
    split; [reflexivity|]. split.
    + intros l. rewrite set_stock_twice. apply set_stock_restore.
      rewrite set_stock_stock_same. lia.
    + rewrite Z.sub_diag. simpl. rewrite app_nil_r. apply with_items_items.
Qed.

(** On a cart with one line per product id, [remove_item] leaves the lines
    as they are or changes exactly one of them. *)
Lemma remove_item_one_line (h : heap) (c : Cart) (product_id quantity : Z) :
  lines_unique h c ->
  items (o_cart (remove_item h c product_id quantity)) = items c \/
  exists pre item post,
    items c = pre ++ item :: post /\
    items (o_cart (remove_item h c product_id quantity))
    = pre ++ (if ci_quantity item - quantity =? 0 then []
              else [mkCartItem (ci_product item) (ci_quantity item - quantity)])
          ++ post.
Proof.
  unfold lines_unique. intros Hnd.
  destruct (remove_item_items h c product_id quantity) as [_ ->].
  destruct (decide (product_id ∈ line_ids h (items c))) as [Hin|Hnin].
  - unfold line_ids in Hin. apply list_elem_of_fmap in Hin as (item & Hid & Hin).
    apply list_elem_of_split in Hin as (pre & post & Hits).
    rewrite Hits in Hnd |- *. rewrite line_ids_app in Hnd. simpl in Hnd.
    apply NoDup_app in Hnd as (_ & Hpre & Hnd). apply NoDup_cons in Hnd as [Hpost _].
    assert (Hpre' : product_id ∉ line_ids h pre).
    { intros Hx. apply (Hpre _ Hx). subst. apply list_elem_of_here. }
    destruct (Z.gtb_spec quantity (ci_quantity item)) as [Hgt|Hle].
    + left. rewrite remove_item_loop_app by assumption. simpl.
      rewrite <- Hid, Z.eqb_refl.
      destruct (Z.gtb_spec quantity (ci_quantity item)); [reflexivity | lia].
    + right. exists pre, item, post. split; [reflexivity|].
      rewrite remove_item_loop_at; auto. now subst.
  - left. now rewrite remove_item_loop_no_match.
Qed.

(** ** The claims about the cart engine *)

(** C1 (the code departs from the claim). The claim lets a further
    [add_item] on an existing line succeed whenever the newly requested
    quantity does not exceed the stock still available. The loop of
    [add_item] compares [item.quantity + quantity] with [product.stock],
    from which [item.quantity] was already taken when the line was filled.
    Rice (5lb), 25 in stock: after adding 10, 15 remain; adding 10 more is
    refused although 10 + 10 does not exceed 15 + 10, and nothing changes. *)
Example C1_existing_line_counts_reserved_stock_twice :
  let o1 := add_item initial_heap Cart_init Rice 10 in
  let o2 := add_item (o_heap o1) (o_cart o1) Rice 10 in
  ret o1 = true /\
  p_stock (o_heap o1 Rice) = 15 /\
  items (o_cart o1) = [mkCartItem Rice 10] /\
  (10 + 10 >? p_stock (o_heap o1 Rice) + 10) = false /\
  ret o2 = false /\
  o_out o2 = [EInsufficientStockAdditional "Rice (5lb)" 5] /\
  p_stock (o_heap o2 Rice) = 15 /\
  items (o_cart o2) = [mkCartItem Rice 10].
Proof. vm_compute. repeat split; reflexivity. Qed.

(** What the existing-line branch of [add_item] decides, in general. *)
Lemma add_item_existing_line (h : heap) (c : Cart) (product : loc) (quantity : Z)
    (pre post : list CartItem) (item : CartItem) :
  0 < quantity ->
  items c = pre ++ item :: post ->
  (p_id (h product) ∉ line_ids h pre) ->
  p_id (h (ci_product item)) = p_id (h product) ->
  ret (add_item h c product quantity)
  = negb (ci_quantity item + quantity >? p_stock (h product)).
Proof.
  intros Hq Hits Hpre Hid. unfold add_item.
  destruct (Z.leb_spec quantity 0); [lia|].
  rewrite Hits. clear Hits.
  induction pre as [|x pre IH]; simpl.
  - rewrite (proj2 (Z.eqb_eq _ _) Hid).
    now destruct (ci_quantity item + quantity >? p_stock (h product)).
  - apply not_elem_of_cons in Hpre as [Hne Hpre].
    destruct (Z.eqb_spec (p_id (h (ci_product x))) (p_id (h product))); [congruence|].
    specialize (IH Hpre).
    destruct (add_item_loop h product quantity (pre ++ item :: post))
      as [[[[r h'] its'] out]|]; simpl in *; [assumption|].
    destruct (quantity >? p_stock (h product)); simpl in *;
      destruct (ci_quantity item + quantity >? p_stock (h product)); simpl in *;
      congruence.
Qed.

(** C2. Stock conservation: in a sequence of successful [add_item] and
    [remove_item] calls that starts from the empty cart, after each of the
    calls the stock a product started with is its current stock plus the
    quantity the cart holds of it. The catalogue has one product per id. *)
Theorem C2_stock_conservation (h0 : heap) (ops : list cart_op)
    (final : heap * Cart) (k : nat) :
  ids_unique h0 ->
  run_successful h0 Cart_init ops = Some final ->
  exists h c,
    run_successful h0 Cart_init (firstn k ops) = Some (h, c) /\
    forall l, p_stock (h0 l) = p_stock (h l) + held (items c) l.
Proof.
  intros Hu Hrun.
  destruct (run_successful_firstn _ _ _ _ k Hrun) as [[h c] Hk].
  exists h, c. split; [assumption|]. intros l.
  apply run_successful_run_ops in Hk.
  pose proof (run_ops_conserves h0 Cart_init (firstn k ops) l Hu) as Hc.
  rewrite Hk in Hc. simpl in Hc. lia.
Qed.

(** Rice and Notebook from the start-up inventory, after two of three
    successful calls. *)
Lemma C2_stock_conservation_witness :
  ids_unique initial_heap /\
  exists h c,
    run_successful initial_heap Cart_init
      (firstn 2 [OpAdd Rice 20; OpRemove 101 5; OpAdd Notebook 2]) = Some (h, c) /\
    forall l, p_stock (initial_heap l) = p_stock (h l) + held (items c) l.
Proof.
  split; [exact initial_heap_ids_unique|].
  apply (C2_stock_conservation initial_heap
           [OpAdd Rice 20; OpRemove 101 5; OpAdd Notebook 2]
           (run_ops initial_heap Cart_init [OpAdd Rice 20; OpRemove 101 5; OpAdd Notebook 2])
           2 initial_heap_ids_unique).
  reflexivity.
Defined.

(** C3. Atomicity of failure: on every cart built from the empty cart by
    [add_item] and [remove_item] calls, a call that returns [False] leaves
    the heap of products (so every stock) and the cart as they were. *)
Theorem C3_failure_changes_nothing (h0 : heap) (ops : list cart_op)
    (h : heap) (c : Cart) (op : cart_op) :
  run_ops h0 Cart_init ops = (h, c) ->
  ret (apply_op h c op) = false ->
  o_heap (apply_op h c op) = h /\ o_cart (apply_op h c op) = c.
Proof.
  intros Hrun Hret.
  pose proof (run_ops_lines_unique h0 Cart_init ops (Cart_init_lines_unique h0)) as Hnd.
  rewrite Hrun in Hnd. simpl in Hnd.
  destruct op as [product quantity | product_id quantity]; simpl in *.
  - now apply add_item_false.
  - now apply remove_item_false.
Qed.

(** Twenty Rice in the cart; removing twenty-one is refused. *)
Lemma C3_failure_changes_nothing_witness :
  let h := fst (run_ops initial_heap Cart_init [OpAdd Rice 20]) in
  let c := snd (run_ops initial_heap Cart_init [OpAdd Rice 20]) in
  ret (apply_op h c (OpRemove 101 21)) = false /\
  o_heap (apply_op h c (OpRemove 101 21)) = h /\
  o_cart (apply_op h c (OpRemove 101 21)) = c.
Proof.
  split; [reflexivity|].
  apply (C3_failure_changes_nothing initial_heap [OpAdd Rice 20]); reflexivity.
Defined.

(** C5. Round trip: on every cart built from the empty cart, over a
    catalogue with one product per id, a successful [add_item(p, q)]
    followed at once by [remove_item(p.id, q)] succeeds and gives back every
    product object and the cart exactly as before the addition; no line of
    quantity zero is left. *)
Theorem C5_add_then_remove_restores (h0 : heap) (ops : list cart_op)
    (h : heap) (c : Cart) (product : loc) (quantity : Z) :
  ids_unique h0 ->
  run_ops h0 Cart_init ops = (h, c) ->
  ret (add_item h c product quantity) = true ->
  let o1 := add_item h c product quantity in
  let o2 := remove_item (o_heap o1) (o_cart o1) (p_id (o_heap o1 product)) quantity in
  ret o2 = true /\
  (forall l, o_heap o2 l = h l) /\
  o_cart o2 = c /\
  Forall (fun item => ci_quantity item <> 0) (items (o_cart o2)).
Proof.
  intros Hu Hrun Hadd.
  pose proof (run_ops_lines_unique h0 Cart_init ops (Cart_init_lines_unique h0)) as Hnd.
  pose proof (run_ops_lines_positive h0 Cart_init ops Cart_init_lines_positive) as Hpos.
  pose proof (run_ops_ids_unique h0 Cart_init ops Hu) as Hu'.
  rewrite Hrun in Hnd, Hpos, Hu'. simpl in Hnd, Hpos, Hu'.
  destruct (add_remove_round_trip h c product quantity Hu' Hnd Hpos Hadd)
    as (Hret & Hheap & Hcart).
  cbv zeta. repeat split; try assumption.
  rewrite Hcart. eapply Forall_impl; [exact Hpos|]. simpl. intros; lia.
Qed.

(** Five more Rice onto a cart with Rice and a Notebook, then five off. *)
Lemma C5_add_then_remove_restores_witness :
  let h := fst (run_ops initial_heap Cart_init [OpAdd Rice 5; OpAdd Notebook 1]) in
  let c := snd (run_ops initial_heap Cart_init [OpAdd Rice 5; OpAdd Notebook 1]) in
  let o1 := add_item h c Rice 5 in
  let o2 := remove_item (o_heap o1) (o_cart o1) (p_id (o_heap o1 Rice)) 5 in
  ret o1 = true /\
  ret o2 = true /\
  (forall l, o_heap o2 l = h l) /\
  o_cart o2 = c /\
  Forall (fun item => ci_quantity item <> 0) (items (o_cart o2)).
Proof.
  split; [reflexivity|].
  apply (C5_add_then_remove_restores initial_heap [OpAdd Rice 5; OpAdd Notebook 1]).
  - exact initial_heap_ids_unique.
  - reflexivity.
  - reflexivity.
Defined.

(** C10. Line uniqueness: every cart built from the empty cart by
    [add_item] and [remove_item] calls has at most one line per product id,
    and a [remove_item] call on it leaves the lines as they are or changes
    exactly one line (shrunk, or dropped when its quantity reaches zero). *)
Theorem C10_one_line_per_product_id (h0 : heap) (ops : list cart_op) :
  let h := fst (run_ops h0 Cart_init ops) in
  let c := snd (run_ops h0 Cart_init ops) in
  NoDup (line_ids h (items c)) /\
  forall product_id quantity,
    items (o_cart (remove_item h c product_id quantity)) = items c \/
    exists pre item post,
      items c = pre ++ item :: post /\
      items (o_cart (remove_item h c product_id quantity))
      = pre ++ (if ci_quantity item - quantity =? 0 then []
                else [mkCartItem (ci_product item) (ci_quantity item - quantity)])
            ++ post.
Proof.
  cbv zeta.
  pose proof (run_ops_lines_unique h0 Cart_init ops (Cart_init_lines_unique h0)) as Hnd.
  split; [exact Hnd|].
  intros product_id quantity. now apply remove_item_one_line.
Qed.

(** The stock scenario of the specification: Rice (5lb), id 101, 25 in
    stock. Adding 20 leaves 5 and prints the alert; adding 10 more is
    refused and the stock stays 5; removing 20 gives 25 back and empties the
    cart. *)
Example stock_scenario :
  let o1 := add_item initial_heap Cart_init Rice 20 in
  let o2 := add_item (o_heap o1) (o_cart o1) Rice 10 in
  let o3 := remove_item (o_heap o2) (o_cart o2) 101 20 in
  (ret o1 = true /\ p_stock (o_heap o1 Rice) = 5 /\
   o_out o1 = [ELowStockAlert "Rice (5lb)" 5]) /\
  (ret o2 = false /\ p_stock (o_heap o2 Rice) = 5) /\
  (ret o3 = true /\ p_stock (o_heap o3 Rice) = 25 /\ items (o_cart o3) = []).
Proof. vm_compute. repeat split; reflexivity. Qed.

(** C6 (the code departs from the claim). The claim has one low-stock
    signal per successful mutation, decided by the stock after it. Only the
    new-line branch of [add_item] does that. The existing-line branch calls
    [check_low_stock] once before [product.stock] is decremented and once
    after; [remove_item] calls it twice after the increment. Padlock, 5 in
    stock: the first addition prints one alert (4 left); a second addition
    prints the stale 4 and then 3; a removal prints the same alert twice. *)
Example C6_low_stock_alert_repeated :
  let o1 := add_item initial_heap Cart_init Padlock 1 in
  let o2 := add_item (o_heap o1) (o_cart o1) Padlock 1 in
  let o3 := remove_item (o_heap o2) (o_cart o2) 45 1 in
  (ret o1 = true /\ p_stock (o_heap o1 Padlock) = 4 /\
   low_stock_alerts (o_out o1) = [ELowStockAlert "Unmaster Lock Padlock" 4]) /\
  (ret o2 = true /\ p_stock (o_heap o2 Padlock) = 3 /\
   low_stock_alerts (o_out o2) = [ELowStockAlert "Unmaster Lock Padlock" 4;
                                  ELowStockAlert "Unmaster Lock Padlock" 3]) /\
  (ret o3 = true /\ p_stock (o_heap o3 Padlock) = 4 /\
   low_stock_alerts (o_out o3) = [ELowStockAlert "Unmaster Lock Padlock" 4;
                                  ELowStockAlert "Unmaster Lock Padlock" 4]).
Proof. vm_compute. repeat split; reflexivity. Qed.

(** The new-line branch of [add_item]: one check, on the stock after the
    decrement. *)
Lemma add_item_new_line_alert (h : heap) (c : Cart) (product : loc) (quantity : Z) :
  (p_id (h product) ∉ line_ids h (items c)) ->
  ret (add_item h c product quantity) = true ->
  o_out (add_item h c product quantity)
  = if p_stock (o_heap (add_item h c product quantity) product) <=? 5
    then [ELowStockAlert (p_name (h product))
            (p_stock (o_heap (add_item h c product quantity) product))]
    else [].
Proof.
  intros Hfresh. apply add_item_loop_None with (quantity := quantity) in Hfresh.
  unfold add_item. rewrite Hfresh.
  destruct (quantity <=? 0); [discriminate|].
  destruct (quantity >? p_stock (h product)); [discriminate|].
  intros _. simpl. unfold check_low_stock.
  rewrite set_stock_stock_same. unfold set_stock. now rewrite Nat.eqb_refl.
Qed.

(** The removal of [quantity] units from the one line of a product: two
    alerts when the stock after the increment is at most 5, none
    otherwise. *)
Lemma remove_item_alerts (h : heap) (product_id quantity : Z)
    (pre post : list CartItem) (item : CartItem) :
  (product_id ∉ line_ids h pre) ->
  p_id (h (ci_product item)) = product_id ->
  quantity <= ci_quantity item ->
  (product_id ∉ line_ids h post) ->
  let r := remove_item_loop h product_id quantity (pre ++ item :: post) in
  low_stock_alerts (rl_out r)
  = if p_stock (rl_heap r (ci_product item)) <=? 5
    then [ELowStockAlert (p_name (h (ci_product item))) (p_stock (rl_heap r (ci_product item)));
          ELowStockAlert (p_name (h (ci_product item))) (p_stock (rl_heap r (ci_product item)))]
    else [].
Proof.
  intros Hpre Hid Hq Hpost. cbv zeta.
  rewrite remove_item_loop_at by assumption. cbn [rl_out rl_heap].
  unfold check_low_stock. rewrite set_stock_stock_same.
  assert (Hname : p_name (set_stock h (ci_product item)
                            (p_stock (h (ci_product item)) + quantity) (ci_product item))
                  = p_name (h (ci_product item))).
  { unfold set_stock. now rewrite Nat.eqb_refl. }
  rewrite Hname.
  destruct (p_stock (h (ci_product item)) + quantity <=? 5); reflexivity.
Qed.

(** ** Cancelling a sale *)

Lemma restock_stock (h : heap) (its : list CartItem) (l : loc) :
  p_stock (restock h its l) = p_stock (h l) + held its l.
Proof.
  revert h. induction its as [|item rest IH]; simpl; intros h; [lia|].
  rewrite IH, set_stock_stock.
  destruct (Nat.eqb_spec l (ci_product item)) as [->|Hne].
  - rewrite Nat.eqb_refl. lia.
  - rewrite (proj2 (Nat.eqb_neq (ci_product item) l)) by auto. lia.
Qed.

(** C8. Checkout cancel: [cancel_sale] adds the quantity of every cart line
    back onto the stock of its product and empties the cart; when the cart
    was built from the empty cart by [add_item] and [remove_item] calls over
    a catalogue with one product per id, every stock is then what it was
    when the cart was opened. *)
Theorem C8_cancel_sale_restores_stock (w : world) :
  exists w',
    cancel_sale w = Done tt w' /\
    items (cart (pos w')) = [] /\
    (forall l, p_stock (pos_heap (pos w') l)
               = p_stock (pos_heap (pos w) l) + held (items (cart (pos w))) l) /\
    (forall h0 ops,
        ids_unique h0 ->
        run_ops h0 Cart_init ops = (pos_heap (pos w), cart (pos w)) ->
        forall l, p_stock (pos_heap (pos w') l) = p_stock (h0 l)).
Proof.
  eexists. split; [reflexivity|]. simpl.
  split; [reflexivity|]. split.
  - intros l. apply restock_stock.
  - intros h0 ops Hu Hrun l. rewrite restock_stock.
    pose proof (run_ops_conserves h0 Cart_init ops l Hu) as Hc.
    rewrite Hrun in Hc. simpl in Hc. lia.
Qed.

(** A cart with Rice and Notebooks is cancelled: the start-up stocks are
    back. *)
Lemma C8_cancel_sale_restores_stock_witness :
  let st := run_ops initial_heap Cart_init [OpAdd Rice 20; OpAdd Notebook 3; OpRemove 101 5] in
  let w := mkWorld (set_heap_cart (fst st) (snd st)
                      (initial_POS (mkUser "dburton" "chiching" "cashier"))) [] [] in
  exists w',
    cancel_sale w = Done tt w' /\
    items (cart (pos w')) = [] /\
    forall l, p_stock (pos_heap (pos w') l) = p_stock (initial_heap l).
Proof.
  cbv zeta.
  destruct (C8_cancel_sale_restores_stock
              (mkWorld (set_heap_cart
                          (fst (run_ops initial_heap Cart_init
                                  [OpAdd Rice 20; OpAdd Notebook 3; OpRemove 101 5]))
                          (snd (run_ops initial_heap Cart_init
                                  [OpAdd Rice 20; OpAdd Notebook 3; OpRemove 101 5]))
                          (initial_POS (mkUser "dburton" "chiching" "cashier"))) [] []))
    as (w' & Hrun & Hempty & _ & Hstock).
  exists w'. split; [exact Hrun|]. split; [exact Hempty|].
  apply (Hstock initial_heap [OpAdd Rice 20; OpAdd Notebook 3; OpRemove 101 5]).
  - exact initial_heap_ids_unique.
  - reflexivity.
Defined.

(** Both confirmations lead to [cancel_sale]: option 5 and "yes" in the
    transaction menu, option 3 and "y" after a shortfall at checkout. *)
Example confirmed_cancellation :
  let st := run_ops initial_heap Cart_init [OpAdd Rice 20; OpAdd Notebook 3] in
  let s := set_heap_cart (fst st) (snd st) (initial_POS dburton) in
  match @new_sale_loop ascii_builtins 1 (mkWorld s ["5"; "yes"]%string []) with
  | Done _ w' =>
      items (cart (pos w')) = [] /\
      p_stock (pos_heap (pos w') Rice) = 25 /\
      p_stock (pos_heap (pos w') Notebook) = 8 /\
      stdout w' = [ETransactionCancelled]
  | _ => False
  end /\
  match @checkout ascii_builtins 3 (mkWorld s ["0"; "3"; "y"]%string []) with
  | Done r w' =>
      r = true /\
      items (cart (pos w')) = [] /\
      p_stock (pos_heap (pos w') Rice) = 25 /\
      p_stock (pos_heap (pos w') Notebook) = 8
  | _ => False
  end.
Proof. vm_compute. repeat split; reflexivity. Qed.

(** ** Binary64 comparisons *)

Lemma SFcompare_antisym (x y : spec_float) :
  SFcompare y x = option_map CompOpp (SFcompare x y).
Proof.
  destruct x as [sx|sx| |sx mx ex], y as [sy|sy| |sy my ey]; simpl;
    try reflexivity;
    try (destruct sx; reflexivity); try (destruct sy; reflexivity);
    try (destruct sx, sy; reflexivity).
  change (Pos.compare_cont Eq mx my) with (Pos.compare mx my).
  change (Pos.compare_cont Eq my mx) with (Pos.compare my mx).
  rewrite (Z.compare_antisym ex ey), (Pos.compare_antisym mx my).
  destruct sx, sy; simpl; try reflexivity;
    destruct (ex ?= ey); simpl; try reflexivity;
    destruct (Pos.compare mx my); reflexivity.
Qed.

(** [x <= y] excludes [y < x]. *)
Lemma float_leb_not_ltb (x y : float) :
  (x <=? y)%float = true -> (y <? x)%float = false.
Proof.
  rewrite leb_spec, ltb_spec. unfold SFleb, SFltb.
  rewrite (SFcompare_antisym (Prim2SF x) (Prim2SF y)).
  destruct (SFcompare (Prim2SF x) (Prim2SF y)) as [[]|]; simpl; congruence.
Qed.

(** [x < y] excludes [y <= x]. *)
Lemma float_ltb_not_leb (x y : float) :
  (x <? y)%float = true -> (y <=? x)%float = false.
Proof.
  rewrite leb_spec, ltb_spec. unfold SFleb, SFltb.
  rewrite (SFcompare_antisym (Prim2SF x) (Prim2SF y)).
  destruct (SFcompare (Prim2SF x) (Prim2SF y)) as [[]|]; simpl; congruence.
Qed.

Lemma lt_5000_not_ge_5000 (n : num) : lt_5000 n = true -> ge_5000 n = false.
Proof.
  destruct n as [z|f]; simpl.
  - intros Hlt. apply Z.ltb_lt in Hlt. unfold Z.geb.
    destruct (z ?= 5000) eqn:E; try reflexivity.
    + apply Z.compare_eq in E. lia.
    + apply Z.compare_gt_iff in E. lia.
  - apply float_ltb_not_leb.
Qed.

(** ** Pricing *)

(** C4. Pricing determinism: for a cart whose subtotal [S] is strictly
    below 5000 the discount is the [bool] [False], which is 0, and the total
    is [(S + S * tax_rate) - 0]; for [S] at or above 5000 the discount is
    the binary64 product [S * 0.05] and the total is
    [(S + S * tax_rate) - S * 0.05]. The comparisons with 5000 are those of
    the integers for an [int] subtotal and of binary64 for a [float] one.
    [s] is [S] as a [float]: [S] itself when it is one, its conversion when
    it is an [int] that has one. *)
Theorem C4_pricing `{PyBuiltins} (h : heap) (c : Cart) (rate : float)
    (subtotal : num) (s : float) :
  calculate_subtotal h c = Some subtotal ->
  to_float subtotal = Some s ->
  (match subtotal with
   | NInt z => z < 5000
   | NFloat f => (f <? 5000)%float = true
   end ->
   discount_amount c subtotal = Some (DBool false) /\
   recalculate_total_pure rate h c
   = Some (subtotal, (s * rate)%float, DBool false,
           ((s + s * rate) - 0)%float)) /\
  (match subtotal with
   | NInt z => 5000 <= z
   | NFloat f => (5000 <=? f)%float = true
   end ->
   discount_amount c subtotal = Some (DFloat (s * 0.05)%float) /\
   recalculate_total_pure rate h c
   = Some (subtotal, (s * rate)%float, DFloat (s * 0.05)%float,
           ((s + s * rate) - s * 0.05)%float)).
Proof.
  intros Hsub Hs. unfold recalculate_total_pure. rewrite Hsub.
  unfold totals_of, discount_amount, Discount_apply_discount,
    num_mul_float, num_add_float. rewrite Hs.
  split; intros Hcmp.
  - assert (Hge : ge_5000 subtotal = false).
    { apply lt_5000_not_ge_5000.
      destruct subtotal as [z|f]; simpl; [now apply Z.ltb_lt | exact Hcmp]. }
    rewrite Hge. split; reflexivity.
  - assert (Hge : ge_5000 subtotal = true).
    { destruct subtotal as [z|f]; simpl; [apply Z.geb_le; lia | exact Hcmp]. }
    rewrite Hge. split; reflexivity.
Qed.

(** One Desk Fan at 8500.00, above the threshold: discount 425.00; one
    Notebook at 500.00, below it: no discount. *)
Lemma C4_pricing_witness :
  let fan := add_item initial_heap Cart_init DeskFan 1 in
  let notebook := add_item initial_heap Cart_init Notebook 1 in
  (discount_amount (o_cart fan) (NFloat 8500) = Some (DFloat (8500 * 0.05)%float) /\
   @recalculate_total_pure ascii_builtins 0.10%float (o_heap fan) (o_cart fan)
   = Some (NFloat 8500, (8500 * 0.10)%float, DFloat (8500 * 0.05)%float,
           ((8500 + 8500 * 0.10) - 8500 * 0.05)%float)) /\
  (discount_amount (o_cart notebook) (NFloat 500) = Some (DBool false) /\
   @recalculate_total_pure ascii_builtins 0.10%float (o_heap notebook) (o_cart notebook)
   = Some (NFloat 500, (500 * 0.10)%float, DBool false,
           ((500 + 500 * 0.10) - 0)%float)).
Proof.
  intros fan notebook. split.
  - destruct (@C4_pricing ascii_builtins (o_heap fan) (o_cart fan) 0.10%float
                (NFloat 8500) 8500%float eq_refl eq_refl) as [_ Habove].
    apply Habove. reflexivity.
  - destruct (@C4_pricing ascii_builtins (o_heap notebook) (o_cart notebook) 0.10%float
                (NFloat 500) 500%float eq_refl eq_refl) as [Hbelow _].
    apply Hbelow. reflexivity.
Defined.

(** At the threshold itself the discount applies, for an [int] subtotal as
    for a [float] one; a tax rate of 0.10 on 5000 gives 5250. *)
Example pricing_at_the_threshold :
  totals_of 0.10%float Cart_init (NInt 5000)
  = Some (NInt 5000, 500%float, DFloat 250, 5250%float) /\
  totals_of 0.10%float Cart_init (NFloat 5000)
  = Some (NFloat 5000, 500%float, DFloat 250, 5250%float).
Proof. vm_compute. split; reflexivity. Qed.

(** The pricing scenario of the specification: subtotal 6000.00 at a tax
    rate of 0.10 gives tax 600.00, discount 300.00 and total 6300.00; and
    just below the threshold the discount is [False]. *)
Example pricing_scenario :
  totals_of 0.10%float Cart_init (NFloat 6000)
  = Some (NFloat 6000, 600%float, DFloat 300, 6300%float) /\
  totals_of 0.10%float Cart_init (NInt 4999)
  = Some (NInt 4999, 499.90000000000003%float, DBool false, 5498.9%float).
Proof. vm_compute. split; reflexivity. Qed.

(** ** Checkout *)

(** With a user logged in and a cart that is not empty, a tendered amount
    that is at least the computed total, at the first payment prompt of
    [checkout] as at any later one ([checkout_loop]), makes [checkout]
    return [True] after printing the receipt with
    [change = payment - total]; the cart is then empty and the heap of
    products, so every stock, is what it was. *)
Lemma checkout_commits_with_a_user `{PyBuiltins} (fuel : nat) (w : world)
    (line : string) (rest : list string) (cashier : User)
    (payment : float) (subtotal : num) (tax : float) (discount : dval) (total : float) :
  is_empty (cart (pos w)) = false ->
  current_user (pos w) = Some cashier ->
  recalculate_total_pure (tax_rate (pos w)) (pos_heap (pos w)) (cart (pos w))
    = Some (subtotal, tax, discount, total) ->
  stdin w = line :: rest ->
  py_float line = Some payment ->
  (total <=? payment)%float = true ->
  exists w',
    checkout (S (S fuel)) w = Done true w' /\
    checkout_loop (S fuel) w = Done true w' /\
    items (cart (pos w')) = [] /\
    pos_heap (pos w') = pos_heap (pos w) /\
    current_user (pos w') = current_user (pos w) /\
    stdin w' = rest /\
    stdout w'
    = stdout w
        ++ [ECartReceipt (get_all_items (cart (pos w))) subtotal tax discount total;
            EPaymentSummary subtotal tax discount total;
            EReceipt (username cashier) (get_all_items (cart (pos w)))
              subtotal tax discount total payment (payment - total)%float].
Proof.
  intros Hne Huser Htot Hin Hpay Hge.
  apply float_leb_not_ltb in Hge.
  destruct w as [s inp out]. simpl in *. subst inp.
  assert (Hloop : exists w',
    checkout_loop (S fuel) (mkWorld s (line :: rest) out) = Done true w' /\
    items (cart (pos w')) = [] /\
    pos_heap (pos w') = pos_heap s /\
    current_user (pos w') = current_user s /\
    stdin w' = rest /\
    stdout w'
    = out ++ [ECartReceipt (get_all_items (cart s)) subtotal tax discount total;
              EPaymentSummary subtotal tax discount total;
              EReceipt (username cashier) (get_all_items (cart s))
                subtotal tax discount total payment (payment - total)%float]).
  { eexists. split.
    - unfold checkout_loop, view_cart, display_receipt, recalculate_total,
        print_receipt, the_current_user, try_except_ValueError, bind, get_pos,
        print, modify_pos, lift_option, input, mret. simpl.
      do 6 (cbn [pos stdin stdout]; rewrite ?Hne, ?Htot, ?Hpay, ?Hge, ?Huser).
      reflexivity.
    - simpl. repeat split; try reflexivity.
      rewrite <- !app_assoc. reflexivity. }
  destruct Hloop as (w' & Hrun & Hrest).
  exists w'. split; [|split; assumption].
  rewrite <- Hrun.
  change (checkout (S (S fuel)))
    with (let! s := get_pos in
          if is_empty (cart s) then print ECheckoutCartEmpty ;; mret false
          else checkout_loop (S fuel)).
  unfold bind, get_pos. cbn [pos]. now rewrite Hne.
Qed.

(** One Notebook in the cart, 600 tendered for a total of 550. *)
Example checkout_commits_with_a_user_example :
  exists w',
    @checkout ascii_builtins 2 (one_notebook ["600"%string]) = Done true w' /\
    items (cart (pos w')) = [] /\
    pos_heap (pos w') = pos_heap (pos (one_notebook ["600"%string])) /\
    stdout w'
    = [ECartReceipt [(Notebook, 1)] (NFloat 500) 50 (DBool false) 550;
       EPaymentSummary (NFloat 500) 50 (DBool false) 550;
       EReceipt "dburton" [(Notebook, 1)] (NFloat 500) 50 (DBool false) 550 600 50].
Proof.
  destruct (@checkout_commits_with_a_user ascii_builtins 0
              (one_notebook ["600"%string])
              "600" [] dburton 600 (NFloat 500) 50 (DBool false) 550)
    as (w' & Hrun & _ & Hcart & Hheap & _ & _ & Hout);
    try reflexivity.
  exists w'. repeat split; assumption.
Qed.

(** With nobody logged in the same payment is not committed:
    [print_receipt] raises [AttributeError] at [self.current_user.username],
    before the receipt is printed and before [self.cart.clear()]; the cart
    keeps its lines. *)
Lemma checkout_raises_with_nobody_logged_in `{PyBuiltins} (fuel : nat) (w : world)
    (line : string) (rest : list string)
    (payment : float) (subtotal : num) (tax : float) (discount : dval) (total : float) :
  is_empty (cart (pos w)) = false ->
  current_user (pos w) = None ->
  recalculate_total_pure (tax_rate (pos w)) (pos_heap (pos w)) (cart (pos w))
    = Some (subtotal, tax, discount, total) ->
  stdin w = line :: rest ->
  py_float line = Some payment ->
  (total <=? payment)%float = true ->
  checkout (S (S fuel)) w
  = Raised AttributeError
      (mkWorld (pos w) rest
         (stdout w
          ++ [ECartReceipt (get_all_items (cart (pos w))) subtotal tax discount total;
              EPaymentSummary subtotal tax discount total])).
Proof.
  intros Hne Huser Htot Hin Hpay Hge.
  apply float_leb_not_ltb in Hge.
  destruct w as [s inp out]. simpl in *. subst inp.
  change (checkout (S (S fuel)))
    with (let! s := get_pos in
          if is_empty (cart s) then print ECheckoutCartEmpty ;; mret false
          else checkout_loop (S fuel)).
  unfold checkout_loop, view_cart, display_receipt, recalculate_total,
    print_receipt, the_current_user, try_except_ValueError, bind, get_pos,
    print, modify_pos, lift_option, input, mret, raise. simpl.
  do 6 (cbn [pos stdin stdout]; rewrite ?Hne, ?Htot, ?Hpay, ?Hge, ?Huser).
  rewrite <- !app_assoc. reflexivity.
Qed.

(** C7. Checkout commit, where the code departs from it: the cashier
    [dburton] logs in and logs out again (option 5), and three attempts to
    log in are rejected. [login] announces that the application has to be
    launched again, but [run] only leaves its inner loop and serves the main
    menu to nobody. A sale is opened, one Notebook is added (stock 8 to 7),
    and 600 is tendered for a total of 550: instead of committing, the
    program ends with [AttributeError], no receipt, the Notebook still in
    the cart and its stock still 7. *)
Example C7_checkout_crashes_with_nobody_logged_in :
  exists ses,
    @run ascii_builtins 12 (fresh_session relogin_script) = Crashed AttributeError ses /\
    current_user (pos (ses_world ses)) = None /\
    items (cart (pos (ses_world ses))) = [mkCartItem Notebook 1] /\
    p_stock (pos_heap (pos (ses_world ses)) Notebook) = 7 /\
    stdin (ses_world ses) = [] /\
    stdout (ses_world ses)
    = [EShowInventory; EAdded 1 "Notebook";
       ECartReceipt [(Notebook, 1)] (NFloat 500) 50 (DBool false) 550;
       EPaymentSummary (NFloat 500) 50 (DBool false) 550].
Proof.
  eexists. split; [vm_compute; reflexivity|].
  vm_compute. repeat split; reflexivity.
Qed.

(** ** The principal across the menus *)

Section Principal.
Context `{PyBuiltins}.

Lemma keeps_user_mret {A} (a : A) : keeps_user (mret a).
Proof. intros w. reflexivity. Qed.

Lemma keeps_user_raise {A} (e : exn) : keeps_user (@raise A e).
Proof. intros w. unfold keeps_user_at, raise. now destruct e. Qed.

Lemma keeps_user_out_of_fuel {A} : keeps_user (fun _ => @OutOfFuel A).
Proof. intros w. exact I. Qed.

Lemma keeps_user_print (e : event) : keeps_user (print e).
Proof. intros w. reflexivity. Qed.

Lemma keeps_user_print_all (es : list event) : keeps_user (print_all es).
Proof. intros w. reflexivity. Qed.

Lemma keeps_user_input : keeps_user input.
Proof. intros w. unfold keeps_user_at, input. now destruct (stdin w). Qed.

Lemma keeps_user_lift_option {A} (e : exn) (o : option A) : keeps_user (lift_option e o).
Proof. destruct o; [apply keeps_user_mret | apply keeps_user_raise]. Qed.

Lemma keeps_user_modify (f : POS -> POS) :
  (forall s, current_user (f s) = current_user s) -> keeps_user (modify_pos f).
Proof. intros Hf w. apply Hf. Qed.

Lemma keeps_user_bind {A B} (m : M A) (k : A -> M B) :
  keeps_user m -> (forall a, keeps_user (k a)) -> keeps_user (bind m k).
Proof.
  intros Hm Hk w. specialize (Hm w). unfold keeps_user_at, bind in *.
  destruct (m w) as [a w1|e w1|]; [|assumption|exact I].
  specialize (Hk a w1). unfold keeps_user_at in Hk.
  destruct (k a w1) as [b w2|[] w2|]; congruence.
Qed.

(** [get_pos] hands the continuation the state it runs in. *)
Lemma keeps_user_get_pos {B} (k : POS -> M B) :
  (forall w, keeps_user_at (k (pos w)) w) -> keeps_user (bind get_pos k).
Proof. intros Hk w. exact (Hk w). Qed.

Lemma keeps_user_try {A} (body handler : M A) :
  keeps_user body -> keeps_user handler ->
  keeps_user (try_except_ValueError body handler).
Proof.
  intros Hb Hh w. specialize (Hb w). unfold keeps_user_at, try_except_ValueError in *.
  destruct (body w) as [a w1|[] w1|]; try assumption; try exact I.
  specialize (Hh w1). unfold keeps_user_at in Hh.
  destruct (handler w1) as [b w2|[] w2|]; congruence.
Qed.

Lemma never_ValueError_try {A} (body handler : M A) :
  never_ValueError handler -> never_ValueError (try_except_ValueError body handler).
Proof.
  intros Hh w. unfold try_except_ValueError.
  destruct (body w) as [a w1|[] w1|]; try exact I. apply Hh.
Qed.

Lemma remove_item_search_never_ValueError : never_ValueError remove_item_search.
Proof.
  intros [s inp out]. unfold remove_item_search, bind, get_pos, print, input, mret. simpl.
  destruct (is_empty (cart s)); [exact I|].
  destruct inp as [|line rest]; simpl; [exact I|].
  destruct (String.eqb (py_strip line) ""); [exact I|].
  destruct (List.filter _ _); exact I.
Qed.

Lemma remove_item_fr_cart_never_ValueError (fuel : nat) :
  never_ValueError (remove_item_fr_cart fuel).
Proof.
  destruct fuel as [|fuel]; intros w; simpl; [exact I|].
  unfold bind at 1.
  pose proof (remove_item_search_never_ValueError w) as Hs.
  destruct (remove_item_search w) as [[r|] w1|[] w1|]; try exact I; try contradiction.
  apply never_ValueError_try. intros w2. exact I.
Qed.

Lemma admin_login_cases (w : world) :
  match admin_login w with
  | Done false w1 => current_user (pos w1) = current_user (pos w)
  | Raised ValueError _ => False
  | _ => True
  end.
Proof.
  destruct w as [s inp out].
  unfold admin_login, bind, input, get_pos, modify_pos, print, mret. simpl.
  destruct inp as [|l1 [|l2 rest]]; simpl; try exact I.
  destruct (users s !! py_strip l1) as [u|]; simpl; [|reflexivity].
  destruct (_ && _); simpl; [exact I | reflexivity].
Qed.

Lemma keeps_user_get : keeps_user get_pos.
Proof. intros w. reflexivity. Qed.

Ltac keeps_user_step :=
  match goal with
  | |- keeps_user _ => assumption
  | |- keeps_user (mret _) => apply keeps_user_mret
  | |- keeps_user (raise _) => apply keeps_user_raise
  | |- keeps_user (fun _ => OutOfFuel) => apply keeps_user_out_of_fuel
  | |- keeps_user (print _) => apply keeps_user_print
  | |- keeps_user (print_all _) => apply keeps_user_print_all
  | |- keeps_user input => apply keeps_user_input
  | |- keeps_user get_pos => apply keeps_user_get
  | |- keeps_user (lift_option _ _) => apply keeps_user_lift_option
  | Hpr : forall _, _ |- keeps_user (print_receipt _ _ _ _ _ _) => apply Hpr
  | |- keeps_user (modify_pos _) => apply keeps_user_modify; intros; reflexivity
  | |- keeps_user (bind _ _) => apply keeps_user_bind; [| intros ?]
  | |- keeps_user (try_except_ValueError _ _) => apply keeps_user_try
  | |- keeps_user (if ?b then _ else _) => destruct b
  | |- keeps_user (match ?x with _ => _ end) => destruct x
  end.

Ltac keeps_user_auto := repeat keeps_user_step.

Lemma keeps_user_the_current_user : keeps_user the_current_user.
Proof. unfold the_current_user. keeps_user_auto. Qed.

Lemma keeps_user_recalculate_total : keeps_user recalculate_total.
Proof. unfold recalculate_total. keeps_user_auto. Qed.

Lemma keeps_user_view_cart : keeps_user view_cart.
Proof.
  pose proof keeps_user_recalculate_total.
  unfold view_cart, display_receipt. keeps_user_auto.
Qed.

Lemma keeps_user_cancel_sale : keeps_user cancel_sale.
Proof. unfold cancel_sale. keeps_user_auto. Qed.

Lemma keeps_user_print_receipt subtotal tax discount total payment change :
  keeps_user (print_receipt subtotal tax discount total payment change).
Proof.
  pose proof keeps_user_the_current_user.
  unfold print_receipt. keeps_user_auto.
Qed.

Lemma keeps_user_add_item_to_cart : keeps_user add_item_to_cart.
Proof. unfold add_item_to_cart. keeps_user_auto. Qed.

Lemma keeps_user_remove_item_search : keeps_user remove_item_search.
Proof. unfold remove_item_search. keeps_user_auto. Qed.

Lemma override_keeps_user (fuel : nat) :
  keeps_user (remove_item_fr_cart fuel) ->
  keeps_user (checkout_options fuel) ->
  keeps_user (let! s := get_pos in
              let original_user := current_user s in
              let! logged := admin_login in
              if logged then
                let! removed := remove_item_fr_cart fuel in
                modify_pos (set_current_user original_user) ;;
                match removed with
                | Some true => mret None
                | _ => checkout_options fuel
                end
              else checkout_options fuel).
Proof.
  intros Hrm Hop w. unfold keeps_user_at.
  unfold bind at 1. unfold get_pos. cbv zeta. unfold bind at 1.
  pose proof (admin_login_cases w) as Hlog.
  destruct (admin_login w) as [[|] w1|[] w1|]; try exact I; try contradiction.
  - unfold bind at 1.
    pose proof (remove_item_fr_cart_never_ValueError fuel w1) as Hnv.
    destruct (remove_item_fr_cart fuel w1) as [removed w2|[] w2|];
      try exact I; try contradiction.
    unfold bind at 1. unfold modify_pos.
    set (w3 := mkWorld (set_current_user (current_user (pos w)) (pos w2))
                       (stdin w2) (stdout w2)).
    assert (Hw3 : current_user (pos w3) = current_user (pos w)) by reflexivity.
    assert (Hrest : keeps_user_at (checkout_options fuel) w3) by apply Hop.
    unfold keeps_user_at in Hrest.
    destruct removed as [[|]|]; [exact Hw3| | ];
      (destruct (checkout_options fuel w3) as [r w4|[] w4|]; congruence).
  - assert (Hrest : keeps_user_at (checkout_options fuel) w1) by apply Hop.
    unfold keeps_user_at in Hrest.
    destruct (checkout_options fuel w1) as [r w4|[] w4|]; congruence.
Qed.

Lemma menus_keep_user (fuel : nat) :
  keeps_user (new_sale fuel) /\ keeps_user (new_sale_loop fuel) /\
  keeps_user (checkout fuel) /\ keeps_user (checkout_loop fuel) /\
  keeps_user (checkout_options fuel) /\ keeps_user (remove_item_fr_cart fuel).
Proof.
  pose proof keeps_user_the_current_user.
  pose proof keeps_user_recalculate_total.
  pose proof keeps_user_view_cart.
  pose proof keeps_user_cancel_sale.
  pose proof keeps_user_print_receipt.
  pose proof keeps_user_add_item_to_cart.
  pose proof keeps_user_remove_item_search.
  induction fuel as [|fuel (IHns & IHnl & IHco & IHcl & IHop & IHrm)].
  - repeat split; apply keeps_user_out_of_fuel.
  - pose proof (override_keeps_user fuel IHrm IHop) as Hover.
    repeat split; simpl; keeps_user_auto.
Qed.

(** Whenever [checkout] returns, the current user is who it was on entry,
    the admin override included. *)
Lemma checkout_restores_principal (fuel : nat) (w w' : world) (r : bool) :
  checkout fuel w = Done r w' -> current_user (pos w') = current_user (pos w).
Proof.
  intros Hrun. destruct (menus_keep_user fuel) as (_ & _ & Hco & _).
  specialize (Hco w). unfold keeps_user_at in Hco. now rewrite Hrun in Hco.
Qed.
End Principal.

(** ** The admin override during a shortfall *)

(** C9 (the code departs from the claim). The claim confines the elevated
    privilege to one removal. [checkout] restores the cashier right after
    the one call of [remove_item_fr_cart], but that call runs a whole nested
    [new_sale] when the removal empties the cart, and the supervisor is the
    current user throughout it. With [override_script] three removals are
    made between the admin login and the return to the cashier, who alone
    is refused the same removal ([cashier_script]). *)
Example C9_override_outlasts_one_removal :
  match @checkout ascii_builtins 40 (one_notebook override_script) with
  | Done r w' =>
      r = true /\
      current_user (pos w') = Some dburton /\
      stdin w' = [] /\
      List.filter is_removal_message (stdout w')
      = [EAdminLoggedIn "admin";
         ERemoved 1 "Notebook" 0; ERemoved 1 "Notebook" 1; ERemoved 1 "Notebook" 0]
  | _ => False
  end /\
  match @new_sale ascii_builtins 40 (mkWorld (initial_POS dburton) cashier_script []) with
  | Done _ w' =>
      current_user (pos w') = Some dburton /\
      List.filter is_removal_message (stdout w') = [EAccessDenied]
  | _ => False
  end.
Proof. vm_compute. repeat split; reflexivity. Qed.

(** * Further properties of the cart engine *)

(** X1. No line of quantity zero or less: every line of every cart built
    from the empty cart by [add_item] and [remove_item] calls, whatever their
    arguments and results, holds a positive quantity. *)
Theorem X1_lines_hold_positive_quantities (h0 : heap) (ops : list cart_op) :
  Forall (fun item => 0 < ci_quantity item) (items (snd (run_ops h0 Cart_init ops))).
Proof. apply run_ops_lines_positive, Cart_init_lines_positive. Qed.

Lemma remove_item_loop_stock_nonneg (h : heap) (product_id quantity : Z)
    (its : list CartItem) :
  0 <= quantity ->
  (forall l, 0 <= p_stock (h l)) ->
  forall l, 0 <= p_stock (rl_heap (remove_item_loop h product_id quantity its) l).
Proof.
  intros Hq. revert h. induction its as [|item rest IH]; simpl; intros h Hh l.
  - apply Hh.
  - destruct (p_id (h (ci_product item)) =? product_id).
    + destruct (quantity >? ci_quantity item); simpl; [apply Hh|].
      apply IH. intros l'. rewrite set_stock_stock.
      destruct (Nat.eqb l' (ci_product item)); [|apply Hh].
      specialize (Hh (ci_product item)). lia.
    + simpl. now apply IH.
Qed.

Lemma apply_op_stock_nonneg (h : heap) (c : Cart) (op : cart_op) :
  lines_positive c ->
  (forall l, 0 <= p_stock (h l)) ->
  match op with OpRemove _ quantity => 0 <= quantity | OpAdd _ _ => True end ->
  forall l, 0 <= p_stock (o_heap (apply_op h c op) l).
Proof.
  unfold lines_positive. intros Hpos Hh Hop l.
  destruct op as [product quantity | product_id quantity]; simpl.
  - destruct (ret (add_item h c product quantity)) eqn:Hr.
    + apply add_item_true in Hr as (Hq & -> & _ & Hcase).
      rewrite set_stock_stock. destruct (Nat.eqb l product); [|apply Hh].
      destruct Hcase as [(pre & item & post & Hits & _ & _ & Hle & _) | (_ & Hle & _)];
        [|lia].
      rewrite Hits in Hpos. apply Forall_app in Hpos as [_ Hpos].
      apply Forall_cons in Hpos as [Hi _]. lia.
    + apply add_item_false in Hr as [-> _]. apply Hh.
  - destruct (remove_item_items h c product_id quantity) as [-> _].
    now apply remove_item_loop_stock_nonneg.
Qed.

Lemma run_ops_stock_nonneg (h : heap) (c : Cart) (ops : list cart_op) :
  lines_positive c ->
  (forall l, 0 <= p_stock (h l)) ->
  nonneg_removals ops ->
  forall l, 0 <= p_stock (fst (run_ops h c ops) l).
Proof.
  unfold nonneg_removals.
  revert h c. induction ops as [|op ops IH]; simpl; intros h c Hpos Hh Hops l.
  - apply Hh.
  - apply Forall_cons in Hops as [Hop Hops].
    apply IH; [now apply apply_op_lines_positive | | assumption].
    now apply apply_op_stock_nonneg.
Qed.

Lemma held_nonneg (its : list CartItem) (l : loc) :
  Forall (fun item => 0 < ci_quantity item) its -> 0 <= held its l.
Proof.
  induction 1 as [|item rest Hi _ IH]; simpl; [lia|].
  destruct (Nat.eqb (ci_product item) l); lia.
Qed.

(** X2. Stock never goes below zero: when no stock is negative at the
    start and no removal is asked for a negative quantity, no sequence of
    [add_item] and [remove_item] calls from the empty cart makes a stock
    negative. *)
Theorem X2_stock_stays_nonnegative (h0 : heap) (ops : list cart_op) :
  (forall l, 0 <= p_stock (h0 l)) ->
  nonneg_removals ops ->
  forall l, 0 <= p_stock (fst (run_ops h0 Cart_init ops) l).
Proof.
  intros Hh Hops. now apply run_ops_stock_nonneg; [apply Cart_init_lines_positive | |].
Qed.

Lemma initial_heap_stock_nonneg (l : loc) : 0 <= p_stock (initial_heap l).
Proof.
  unfold initial_heap.
  destruct (Nat.lt_ge_cases l (length initial_products)) as [Hl|Hl].
  - assert (Hall : Forall (fun p => 0 <= p_stock p) initial_products).
    { refine (bool_decide_eq_true_1 _ _). vm_compute. reflexivity. }
    rewrite List.Forall_forall in Hall. apply Hall, nth_In, Hl.
  - rewrite nth_overflow by assumption. simpl. lia.
Qed.

(** The start-up inventory; Rice and a Notebook go in, some Rice comes
    out. *)
Lemma X2_stock_stays_nonnegative_witness :
  0 <= p_stock (fst (run_ops initial_heap Cart_init
                       [OpAdd Rice 20; OpAdd Notebook 8; OpRemove 101 5]) Rice).
Proof.
  apply (fun Hstock Hops =>
           X2_stock_stays_nonnegative initial_heap
             [OpAdd Rice 20; OpAdd Notebook 8; OpRemove 101 5] Hstock Hops Rice).
  - exact initial_heap_stock_nonneg.
  - repeat constructor; lia.
Defined.

(** X3. No overselling: over a catalogue with one product per id and no
    negative stock, as long as no removal is asked for a negative quantity,
    the cart never holds more units of a product than were in stock when the
    cart was opened, and the stock of a product never exceeds that amount. *)
Theorem X3_cart_never_holds_more_than_stock (h0 : heap) (ops : list cart_op) (l : loc) :
  ids_unique h0 ->
  (forall l, 0 <= p_stock (h0 l)) ->
  nonneg_removals ops ->
  0 <= held (items (snd (run_ops h0 Cart_init ops))) l <= p_stock (h0 l) /\
  0 <= p_stock (fst (run_ops h0 Cart_init ops) l) <= p_stock (h0 l).
Proof.
  intros Hu Hh Hops.
  pose proof (run_ops_conserves h0 Cart_init ops l Hu) as Hc. simpl in Hc.
  pose proof (run_ops_stock_nonneg h0 Cart_init ops Cart_init_lines_positive Hh Hops l).
  pose proof (held_nonneg _ l (run_ops_lines_positive h0 Cart_init ops
                                 Cart_init_lines_positive)).
  lia.
Qed.

Lemma X3_cart_never_holds_more_than_stock_witness :
  0 <= held (items (snd (run_ops initial_heap Cart_init
                           [OpAdd Rice 20; OpAdd Notebook 8; OpRemove 101 5]))) Rice
    <= p_stock (initial_heap Rice) /\
  0 <= p_stock (fst (run_ops initial_heap Cart_init
                       [OpAdd Rice 20; OpAdd Notebook 8; OpRemove 101 5]) Rice)
    <= p_stock (initial_heap Rice).
Proof.
  apply (X3_cart_never_holds_more_than_stock initial_heap
           [OpAdd Rice 20; OpAdd Notebook 8; OpRemove 101 5] Rice).
  - exact initial_heap_ids_unique.
  - exact initial_heap_stock_nonneg.
  - repeat constructor; lia.
Defined.

Lemma reachable_line_split (h0 : heap) (ops : list cart_op) (h : heap) (c : Cart)
    (item : CartItem) :
  run_ops h0 Cart_init ops = (h, c) ->
  item ∈ items c ->
  exists pre post,
    items c = pre ++ item :: post /\
    (p_id (h (ci_product item)) ∉ line_ids h pre) /\
    (p_id (h (ci_product item)) ∉ line_ids h post) /\
    0 < ci_quantity item.
Proof.
  intros Hrun Hin.
  pose proof (run_ops_lines_unique h0 Cart_init ops (Cart_init_lines_unique h0)) as Hnd.
  pose proof (run_ops_lines_positive h0 Cart_init ops Cart_init_lines_positive) as Hpos.
  rewrite Hrun in Hnd, Hpos. unfold lines_unique, lines_positive in *. simpl in *.
  apply list_elem_of_split in Hin as (pre & post & Hits).
  exists pre, post. rewrite Hits in Hnd, Hpos.
  rewrite line_ids_app in Hnd. simpl in Hnd.
  apply NoDup_app in Hnd as (_ & Hpre & Hnd). apply NoDup_cons in Hnd as [Hpost _].
  apply Forall_app in Hpos as [_ Hpos]. apply Forall_cons in Hpos as [Hi _].
  repeat split; try assumption.
  intros Hx. apply (Hpre _ Hx), list_elem_of_here.
Qed.

(** X4. A negative quantity turns [remove_item] into an addition that no
    stock check guards: on a cart built from the empty cart, removing a
    negative quantity [q] from a product that has a line always succeeds,
    puts [-q] more units on the line and takes them from the stock, whatever
    the stock is. *)
Theorem X4_negative_removal_is_an_unchecked_addition (h0 : heap) (ops : list cart_op)
    (h : heap) (c : Cart) (item : CartItem) (quantity : Z) :
  run_ops h0 Cart_init ops = (h, c) ->
  item ∈ items c ->
  quantity < 0 ->
  let o := remove_item h c (p_id (h (ci_product item))) quantity in
  ret o = true /\
  p_stock (o_heap o (ci_product item)) = p_stock (h (ci_product item)) + quantity /\
  held (items (o_cart o)) (ci_product item)
  = held (items c) (ci_product item) - quantity.
Proof.
  intros Hrun Hin Hq.
  destruct (reachable_line_split _ _ _ _ _ Hrun Hin) as (pre & post & Hits & Hpre & Hpost & Hi).
  cbv zeta. unfold remove_item. rewrite Hits.
  rewrite remove_item_loop_at by (try assumption; try reflexivity; lia).
  cbn [rl_returned rl_removed negb ret o_heap o_cart rl_heap rl_items items with_items].
  split; [reflexivity|]. split; [apply set_stock_stock_same|].
  destruct (Z.eqb_spec (ci_quantity item - quantity) 0); [lia|].
  rewrite !held_app. simpl. rewrite Nat.eqb_refl. lia.
Qed.

(** The Padlock (5 in stock): one in the cart, then "minus ten" removed. *)
Lemma X4_negative_removal_is_an_unchecked_addition_witness :
  let st := run_ops initial_heap Cart_init [OpAdd Padlock 1] in
  let o := remove_item (fst st) (snd st) 45 (-10) in
  ret o = true /\
  p_stock (o_heap o Padlock) = 4 + -10 /\
  held (items (o_cart o)) Padlock = 1 - -10.
Proof.
  apply (X4_negative_removal_is_an_unchecked_addition initial_heap [OpAdd Padlock 1]
           (fst (run_ops initial_heap Cart_init [OpAdd Padlock 1]))
           (snd (run_ops initial_heap Cart_init [OpAdd Padlock 1]))
           (mkCartItem Padlock 1) (-10)).
  - reflexivity.
  - apply list_elem_of_here.
  - lia.
Defined.

Lemma held_unique_line (h : heap) (pre post : list CartItem) (item : CartItem) :
  ids_unique h ->
  (p_id (h (ci_product item)) ∉ line_ids h pre) ->
  (p_id (h (ci_product item)) ∉ line_ids h post) ->
  held (pre ++ item :: post) (ci_product item) = ci_quantity item.
Proof.
  intros Hu Hpre Hpost.
  assert (Hz : forall its, p_id (h (ci_product item)) ∉ line_ids h its ->
                           held its (ci_product item) = 0).
  { induction its as [|x its IH]; simpl; intros Hn; [reflexivity|].
    apply not_elem_of_cons in Hn as [Hne Hn].
    destruct (Nat.eqb_spec (ci_product x) (ci_product item)) as [Heq|_].
    - rewrite Heq in Hne. contradiction.
    - rewrite IH by assumption. lia. }
  rewrite held_app. simpl. rewrite Nat.eqb_refl, !Hz by assumption. lia.
Qed.

Lemma held_no_line (h : heap) (its : list CartItem) (product : loc) :
  (p_id (h product) ∉ line_ids h its) -> held its product = 0.
Proof.
  induction its as [|x its IH]; simpl; intros Hn; [reflexivity|].
  apply not_elem_of_cons in Hn as [Hne Hn].
  destruct (Nat.eqb_spec (ci_product x) product) as [Heq|_].
  - rewrite Heq in Hne. contradiction.
  - rewrite IH by assumption. lia.
Qed.

(** X5. When [add_item] succeeds: on a cart built from the empty cart, over
    a catalogue with one product per id, [add_item(p, q)] returns [True]
    exactly when [q] is positive and [q] plus the quantity of [p] already in
    the cart does not exceed the current value of [p.stock]. *)
Theorem X5_add_item_succeeds_iff (h0 : heap) (ops : list cart_op)
    (h : heap) (c : Cart) (product : loc) (quantity : Z) :
  ids_unique h0 ->
  run_ops h0 Cart_init ops = (h, c) ->
  ret (add_item h c product quantity) = true <->
  0 < quantity /\ held (items c) product + quantity <= p_stock (h product).
Proof.
  intros Hu Hrun.
  pose proof (run_ops_ids_unique h0 Cart_init ops Hu) as Hu'.
  rewrite Hrun in Hu'. simpl in Hu'.
  destruct (Z.leb_spec quantity 0) as [Hq0|Hq].
  { split; [|lia]. intros Hret. apply add_item_true in Hret as (Hq & _). lia. }
  destruct (decide (p_id (h product) ∈ line_ids h (items c))) as [Hin|Hnin].
  - unfold line_ids in Hin. apply list_elem_of_fmap in Hin as (item & Hid & Hin).
    symmetry in Hid. pose proof (Hu' _ _ Hid) as Hp.
    destruct (reachable_line_split _ _ _ _ _ Hrun Hin)
      as (pre & post & Hits & Hpre & Hpost & Hi).
    rewrite (add_item_existing_line h c product quantity pre post item);
      try assumption; try (now rewrite <- Hid).
    rewrite Hits, <- Hp, (held_unique_line h) by assumption. rewrite Hp.
    destruct (Z.gtb_spec (ci_quantity item + quantity) (p_stock (h product))); simpl.
    + split; [discriminate | lia].
    + split; [intros _; lia | reflexivity].
  - rewrite (held_no_line h) by assumption.
    pose proof Hnin as Hloop. apply add_item_loop_None with (quantity := quantity) in Hloop.
    unfold add_item. rewrite Hloop.
    destruct (Z.leb_spec quantity 0); [lia|].
    destruct (Z.gtb_spec quantity (p_stock (h product))); simpl.
    + split; [discriminate | lia].
    + split; [intros _; lia | reflexivity].
Qed.

(** Ten Rice in the cart, fifteen left: five more pass, six more do not. *)
Lemma X5_add_item_succeeds_iff_witness :
  let st := run_ops initial_heap Cart_init [OpAdd Rice 10] in
  (ret (add_item (fst st) (snd st) Rice 5) = true <->
   0 < 5 /\ held (items (snd st)) Rice + 5 <= p_stock (fst st Rice)) /\
  ret (add_item (fst st) (snd st) Rice 5) = true /\
  ret (add_item (fst st) (snd st) Rice 6) = false.
Proof.
  split; [|split; reflexivity].
  apply (X5_add_item_succeeds_iff initial_heap [OpAdd Rice 10]).
  - exact initial_heap_ids_unique.
  - reflexivity.
Defined.

Lemma add_item_loop_false_out (h h' : heap) (product : loc) (quantity : Z)
    (its its' : list CartItem) (out : list event) :
  add_item_loop h product quantity its = Some (false, h', its', out) ->
  exists item,
    item ∈ its /\
    p_id (h (ci_product item)) = p_id (h product) /\
    p_stock (h product) < ci_quantity item + quantity /\
    out = [EInsufficientStockAdditional (p_name (h product))
             (p_stock (h product) - ci_quantity item)].
Proof.
  revert its' out. induction its as [|item rest IH]; simpl; intros its' out Hl.
  - discriminate.
  - destruct (Z.eqb_spec (p_id (h (ci_product item))) (p_id (h product))) as [Heq|Hne].
    + destruct (Z.gtb_spec (ci_quantity item + quantity) (p_stock (h product)));
        [|discriminate].
      inversion Hl; subst. exists item. repeat split; auto. apply list_elem_of_here.
    + destruct (add_item_loop h product quantity rest) as [[[[r h1] rest1] out1]|];
        [|discriminate].
      inversion Hl; subst.
      destruct (IH _ _ eq_refl) as (it & Hin & Hid & Hlt & ->).
      exists it. repeat split; auto. now apply list_elem_of_further.
Qed.

(** X6. The three refusals of [add_item]: a call that returns [False]
    leaves the heap of products and the cart as they were and printed
    exactly one message, which tells why. Either the quantity is not
    positive; or a line of the cart has the id of the product and its
    quantity plus the requested one exceeds [product.stock], and the message
    names [product.stock] minus the quantity of that line; or no line has
    that id and the requested quantity exceeds [product.stock], which the
    message names. *)
Theorem X6_add_item_refusals (h : heap) (c : Cart) (product : loc) (quantity : Z) :
  ret (add_item h c product quantity) = false ->
  (o_heap (add_item h c product quantity) = h /\
   o_cart (add_item h c product quantity) = c) /\
  ((quantity <= 0 /\
    o_out (add_item h c product quantity) = [EQuantityMustBePositive]) \/
   (0 < quantity /\
    exists item,
      item ∈ items c /\
      p_id (h (ci_product item)) = p_id (h product) /\
      p_stock (h product) < ci_quantity item + quantity /\
      o_out (add_item h c product quantity)
      = [EInsufficientStockAdditional (p_name (h product))
           (p_stock (h product) - ci_quantity item)]) \/
   (0 < quantity /\
    (p_id (h product) ∉ line_ids h (items c)) /\
    p_stock (h product) < quantity /\
    o_out (add_item h c product quantity)
    = [EInsufficientStockAvailable (p_name (h product)) (p_stock (h product))])).
Proof.
  intros Hret. split; [now apply add_item_false|].
  revert Hret. unfold add_item.
  destruct (Z.leb_spec quantity 0) as [Hq|Hq]; [intros _; left; auto|].
  destruct (add_item_loop h product quantity (items c))
    as [[[[r h'] its'] out]|] eqn:Hl.
  - simpl. intros ->. right. left. split; [assumption|].
    now apply add_item_loop_false_out in Hl.
  - apply add_item_loop_None in Hl.
    destruct (Z.gtb_spec quantity (p_stock (h product))); [|discriminate].
    intros _. right. right. simpl. repeat split; auto.
Qed.

(** Twenty Rice in the cart, five left: ten more are refused, stock and
    cart stay, and the message names the five minus twenty that the test
    works with. *)
Lemma X6_add_item_refusals_witness :
  let st := run_ops initial_heap Cart_init [OpAdd Rice 20] in
  ret (add_item (fst st) (snd st) Rice 10) = false /\
  o_heap (add_item (fst st) (snd st) Rice 10) = fst st /\
  o_cart (add_item (fst st) (snd st) Rice 10) = snd st /\
  o_out (add_item (fst st) (snd st) Rice 10)
  = [EInsufficientStockAdditional "Rice (5lb)" (-15)].
Proof.
  intros st. split; [reflexivity|].
  destruct (X6_add_item_refusals (fst st) (snd st) Rice 10 eq_refl)
    as [[Hheap Hcart] Hcause].
  split; [exact Hheap|]. split; [exact Hcart|].
  destruct Hcause as [[Hq _] | [(_ & item & _ & _ & _ & _) | (_ & Hno & _)]].
  - lia.
  - reflexivity.
  - reflexivity.
Defined.

(** X7. When [remove_item] succeeds, and what it prints when it does not:
    on a cart built from the empty cart, [remove_item(id, q)] returns [True]
    exactly when a line has that id and holds at least [q]. When no line has
    the id it prints "item not found"; when the line holds less than [q] it
    prints that [q] units cannot be removed and that no changes were made. *)
Theorem X7_remove_item_succeeds_iff (h0 : heap) (ops : list cart_op)
    (h : heap) (c : Cart) (product_id quantity : Z) :
  run_ops h0 Cart_init ops = (h, c) ->
  (ret (remove_item h c product_id quantity) = true <->
   exists item, item ∈ items c /\
                p_id (h (ci_product item)) = product_id /\
                quantity <= ci_quantity item) /\
  ((product_id ∉ line_ids h (items c)) ->
   o_out (remove_item h c product_id quantity) = [EItemNotFound]) /\
  (forall item,
      item ∈ items c ->
      p_id (h (ci_product item)) = product_id ->
      ci_quantity item < quantity ->
      o_out (remove_item h c product_id quantity)
      = [ECannotRemove quantity (ci_quantity item) (p_name (h (ci_product item)));
         ENoChangesMade]).
Proof.
  intros Hrun.
  assert (Hone : forall item,
             item ∈ items c -> p_id (h (ci_product item)) = product_id ->
             remove_item h c product_id quantity
             = if quantity >? ci_quantity item
               then mkOutcome false h c
                      [ECannotRemove quantity (ci_quantity item)
                         (p_name (h (ci_product item))); ENoChangesMade]
               else mkOutcome true
                      (o_heap (remove_item h c product_id quantity))
                      (o_cart (remove_item h c product_id quantity))
                      (o_out (remove_item h c product_id quantity))).
  { intros item Hin Hid.
    destruct (reachable_line_split _ _ _ _ _ Hrun Hin)
      as (pre & post & Hits & Hpre & Hpost & Hi).
    rewrite Hid in Hpre, Hpost.
    destruct (Z.gtb_spec quantity (ci_quantity item)) as [Hgt|Hle].
    - unfold remove_item. rewrite Hits, remove_item_loop_app by assumption.
      simpl. rewrite (proj2 (Z.eqb_eq _ _) Hid).
      destruct (Z.gtb_spec quantity (ci_quantity item)); [|lia].
      simpl. rewrite <- Hits. now destruct c.
    - unfold remove_item. rewrite Hits.
      rewrite remove_item_loop_at by assumption. reflexivity. }
  split; [split|split].
  - intros Hret.
    destruct (decide (product_id ∈ line_ids h (items c))) as [Hin|Hnin].
    + unfold line_ids in Hin. apply list_elem_of_fmap in Hin as (item & Hid & Hin).
      symmetry in Hid. exists item. split; [assumption|]. split; [assumption|].
      rewrite (Hone item Hin Hid) in Hret.
      destruct (Z.gtb_spec quantity (ci_quantity item)); [discriminate | assumption].
    + unfold remove_item in Hret.
      rewrite remove_item_loop_no_match in Hret by assumption. discriminate.
  - intros (item & Hin & Hid & Hle).
    rewrite (Hone item Hin Hid).
    destruct (Z.gtb_spec quantity (ci_quantity item)); [lia | reflexivity].
  - intros Hnin. unfold remove_item.
    now rewrite remove_item_loop_no_match by assumption.
  - intros item Hin Hid Hlt. rewrite (Hone item Hin Hid).
    destruct (Z.gtb_spec quantity (ci_quantity item)); [reflexivity | lia].
Qed.

(** Twenty Rice in the cart: twenty-one cannot be removed, and Bread (103)
    is not found. *)
Lemma X7_remove_item_succeeds_iff_witness :
  let st := run_ops initial_heap Cart_init [OpAdd Rice 20] in
  ret (remove_item (fst st) (snd st) 101 21) = false /\
  o_out (remove_item (fst st) (snd st) 101 21)
  = [ECannotRemove 21 20 "Rice (5lb)"; ENoChangesMade] /\
  o_out (remove_item (fst st) (snd st) 103 1) = [EItemNotFound].
Proof.
  destruct (X7_remove_item_succeeds_iff initial_heap [OpAdd Rice 20]
              (fst (run_ops initial_heap Cart_init [OpAdd Rice 20]))
              (snd (run_ops initial_heap Cart_init [OpAdd Rice 20])) 101 21 eq_refl)
    as (_ & _ & Hless).
  destruct (X7_remove_item_succeeds_iff initial_heap [OpAdd Rice 20]
              (fst (run_ops initial_heap Cart_init [OpAdd Rice 20]))
              (snd (run_ops initial_heap Cart_init [OpAdd Rice 20])) 103 1 eq_refl)
    as (_ & Hnone & _).
  split; [reflexivity|]. split.
  - apply (Hless (mkCartItem Rice 20)); [apply list_elem_of_here | reflexivity | simpl; lia].
  - apply Hnone. refine (bool_decide_eq_true_1 _ _). vm_compute. reflexivity.
Defined.

Lemma remove_item_loop_products_sublist (h : heap) (product_id quantity : Z)
    (its : list CartItem) :
  map ci_product (rl_items (remove_item_loop h product_id quantity its))
  `sublist_of` map ci_product its.
Proof.
  revert h. induction its as [|item rest IH]; simpl; intros h.
  - constructor.
  - destruct (p_id (h (ci_product item)) =? product_id).
    + destruct (quantity >? ci_quantity item); simpl; [reflexivity|].
      rewrite map_app.
      destruct (ci_quantity item - quantity =? 0); simpl.
      * apply sublist_cons, IH.
      * apply sublist_skip, IH.
    + simpl. apply sublist_skip, IH.
Qed.

(** X8. The cart keeps insertion order: [add_item] leaves the sequence of
    products of the lines as it is or puts the added product at its end, and
    [remove_item] only drops lines from it; no call reorders lines or puts a
    line anywhere but last. *)
Theorem X8_lines_keep_insertion_order (h : heap) (c : Cart) (op : cart_op) :
  match op with
  | OpAdd product _ =>
      line_products (o_cart (apply_op h c op)) = line_products c \/
      line_products (o_cart (apply_op h c op)) = line_products c ++ [product]
  | OpRemove _ _ =>
      line_products (o_cart (apply_op h c op)) `sublist_of` line_products c
  end.
Proof.
  unfold line_products.
  destruct op as [product quantity | product_id quantity]; simpl.
  - destruct (ret (add_item h c product quantity)) eqn:Hr.
    + apply add_item_true in Hr as (_ & _ & _ & Hcase).
      destruct Hcase as [(pre & item & post & -> & _ & _ & _ & ->) | (_ & _ & ->)].
      * left. rewrite !map_app. reflexivity.
      * right. rewrite map_app. reflexivity.
    + apply add_item_false in Hr as [_ ->]. now left.
  - destruct (remove_item_items h c product_id quantity) as [_ ->].
    apply remove_item_loop_products_sublist.
Qed.

(** * Reasoning about the menus *)

Section HoareRules.
Context {A B : Type}.

Lemma hoare_weaken (P P' : world -> Prop) (m : M A)
    (Q Q' : A -> world -> Prop) (E E' : world -> Prop) :
  hoare P m Q E ->
  (forall w, P' w -> P w) ->
  (forall a w, Q a w -> Q' a w) ->
  (forall w, E w -> E' w) ->
  hoare P' m Q' E'.
Proof.
  intros Hm HP HQ HE w Hw. specialize (Hm w (HP w Hw)).
  destruct (m w); auto.
Qed.

Lemma hoare_bind (P : world -> Prop) (m : M A) (R : A -> world -> Prop)
    (k : A -> M B) (Q : B -> world -> Prop) (E : world -> Prop) :
  hoare P m R E ->
  (forall a, hoare (R a) (k a) Q E) ->
  hoare P (bind m k) Q E.
Proof.
  intros Hm Hk w Hw. specialize (Hm w Hw). unfold bind.
  destruct (m w) as [a w1|e w1|]; [|assumption|exact I].
  exact (Hk a w1 Hm).
Qed.

Lemma hoare_try (P : world -> Prop) (body handler : M A)
    (Q : A -> world -> Prop) (E : world -> Prop) :
  hoare P body Q E ->
  hoare E handler Q E ->
  hoare P (try_except_ValueError body handler) Q E.
Proof.
  intros Hb Hh w Hw. specialize (Hb w Hw). unfold try_except_ValueError.
  destruct (body w) as [a w1|[] w1|]; try assumption.
  exact (Hh w1 Hb).
Qed.

(** After a step that reads only, a condition on the POS object still
    holds. *)
Lemma hoare_bind_read_only (P : world -> Prop) (m : M A) (k : A -> M B)
    (Q : B -> world -> Prop) (E : world -> Prop) :
  read_only m ->
  pos_determined P ->
  (forall w, P w -> E w) ->
  (forall a, hoare P (k a) Q E) ->
  hoare P (bind m k) Q E.
Proof.
  intros Hm HP HE Hk w Hw. specialize (Hm w). unfold bind.
  destruct (m w) as [a w1|e w1|]; [|apply HE; now apply (HP w)|exact I].
  apply Hk. now apply (HP w).
Qed.

Lemma hoare_read_only (P : world -> Prop) (m : M A)
    (Q : world -> Prop) :
  read_only m ->
  pos_determined Q ->
  (forall w, P w -> Q w) ->
  hoare P m (fun _ => Q) Q.
Proof.
  intros Hm HQ HP w Hw. specialize (Hm w).
  destruct (m w) as [a w1|e w1|]; try exact I; apply (HQ w); auto.
Qed.
End HoareRules.

Lemma hoare_bind_get_pos {B} (P : world -> Prop) (k : POS -> M B)
    (Q : B -> world -> Prop) (E : world -> Prop) :
  (forall s, hoare (fun w => P w /\ pos w = s) (k s) Q E) ->
  hoare P (bind get_pos k) Q E.
Proof. intros Hk w Hw. exact (Hk (pos w) w (conj Hw eq_refl)). Qed.

Lemma hoare_modify_pos (P : world -> Prop) (f : POS -> POS)
    (Q : unit -> world -> Prop) (E : world -> Prop) :
  (forall w, P w -> Q tt (mkWorld (f (pos w)) (stdin w) (stdout w))) ->
  hoare P (modify_pos f) Q E.
Proof. intros Hf w Hw. exact (Hf w Hw). Qed.

Lemma hoare_mret {A} (P : world -> Prop) (a : A)
    (Q : A -> world -> Prop) (E : world -> Prop) :
  (forall w, P w -> Q a w) -> hoare P (mret a) Q E.
Proof. intros Ha w Hw. exact (Ha w Hw). Qed.

Lemma hoare_out_of_fuel {A} (P : world -> Prop)
    (Q : A -> world -> Prop) (E : world -> Prop) :
  hoare P (fun _ => OutOfFuel) Q E.
Proof. intros w _. exact I. Qed.

(** ** What only reads the POS object *)

Lemma read_only_mret {A} (a : A) : read_only (mret a).
Proof. intros w. reflexivity. Qed.

Lemma read_only_raise {A} (e : exn) : read_only (@raise A e).
Proof. intros w. reflexivity. Qed.

Lemma read_only_print (e : event) : read_only (print e).
Proof. intros w. reflexivity. Qed.

Lemma read_only_print_all (es : list event) : read_only (print_all es).
Proof. intros w. reflexivity. Qed.

Lemma read_only_input : read_only input.
Proof. intros w. unfold input. now destruct (stdin w). Qed.

Lemma read_only_get_pos : read_only get_pos.
Proof. intros w. reflexivity. Qed.

Lemma read_only_lift_option {A} (e : exn) (o : option A) : read_only (lift_option e o).
Proof. intros w. now destruct o. Qed.

Lemma read_only_bind {A B} (m : M A) (k : A -> M B) :
  read_only m -> (forall a, read_only (k a)) -> read_only (bind m k).
Proof.
  intros Hm Hk w. specialize (Hm w). unfold bind.
  destruct (m w) as [a w1|e w1|]; try assumption.
  specialize (Hk a w1). destruct (k a w1); congruence.
Qed.

Ltac read_only_step :=
  match goal with
  | |- read_only (mret _) => apply read_only_mret
  | |- read_only (raise _) => apply read_only_raise
  | |- read_only (print _) => apply read_only_print
  | |- read_only (print_all _) => apply read_only_print_all
  | |- read_only input => apply read_only_input
  | |- read_only get_pos => apply read_only_get_pos
  | |- read_only (lift_option _ _) => apply read_only_lift_option
  | |- read_only (bind _ _) => apply read_only_bind; [| intros ?]
  | |- read_only (if ?b then _ else _) => destruct b
  | |- read_only (match ?x with _ => _ end) => destruct x
  | |- read_only _ => assumption
  end.

Section ReadOnly.
Context `{PyBuiltins}.

Lemma read_only_the_current_user : read_only the_current_user.
Proof. unfold the_current_user. repeat read_only_step. Qed.

Lemma read_only_recalculate_total : read_only recalculate_total.
Proof. unfold recalculate_total. repeat read_only_step. Qed.

Lemma read_only_display_receipt : read_only display_receipt.
Proof.
  pose proof read_only_recalculate_total.
  unfold display_receipt. repeat read_only_step.
Qed.

Lemma read_only_view_cart : read_only view_cart.
Proof.
  pose proof read_only_display_receipt.
  unfold view_cart. repeat read_only_step.
Qed.

Lemma read_only_remove_item_search : read_only remove_item_search.
Proof. unfold remove_item_search. repeat read_only_step. Qed.
End ReadOnly.

(** ** Conditions on the POS object that the menus keep *)

Ltac pos_determined_tac :=
  let w := fresh "w" in let w' := fresh "w'" in
  let Heq := fresh "Heq" in let HP := fresh "HP" in
  intros w w' Heq HP; cbv beta in *; rewrite Heq; exact HP.

Ltac to_invariant_tac :=
  let w := fresh "w" in let HP := fresh "HP" in
  intros w HP; cbv beta in *; decompose [and] HP; assumption.

Section MenuInvariant.
Context `{PyBuiltins}.
Variable Inv : POS -> Prop.
Hypothesis Inv_user : forall s u, Inv s -> Inv (set_current_user u s).
Hypothesis Inv_new_cart : forall s, Inv s -> Inv (set_cart Cart_init s).
Hypothesis Inv_clear : forall s, Inv s -> Inv (set_cart (clear (cart s)) s).
Hypothesis Inv_add : forall s product quantity,
  Inv s ->
  Inv (set_heap_cart (o_heap (add_item (pos_heap s) (cart s) product quantity))
                     (o_cart (add_item (pos_heap s) (cart s) product quantity)) s).
Hypothesis Inv_remove : forall s product_id quantity,
  Inv s ->
  Inv (set_heap_cart (o_heap (remove_item (pos_heap s) (cart s) product_id quantity))
                     (o_cart (remove_item (pos_heap s) (cart s) product_id quantity)) s).
Hypothesis Inv_cancel : forall s,
  Inv s -> Inv (set_heap_cart (restock (pos_heap s) (items (cart s))) (clear (cart s)) s).

Local Abbreviation holds := (fun w : world => Inv (pos w)).
Local Abbreviation keeps m := (hoare holds m (fun _ => holds) holds).

Ltac inv_modify :=
  apply hoare_modify_pos;
  let w := fresh "w" in let HP := fresh "HP" in
  intros w HP; cbv beta in *; cbn [pos]; decompose [and] HP; subst;
  first [ apply Inv_user | apply Inv_new_cart | apply Inv_clear
        | apply Inv_add | apply Inv_remove | apply Inv_cancel ];
  assumption.

Ltac inv_known :=
  eapply hoare_weaken;
  [ first [ eassumption
          | match goal with Hx : forall _, _ |- _ => apply Hx end ]
  | to_invariant_tac
  | intros ? ? HQ; exact HQ
  | intros ? HE; exact HE ].

Ltac inv_leaf :=
  first [ apply hoare_out_of_fuel
        | apply hoare_read_only;
          [ solve [repeat read_only_step] | pos_determined_tac | to_invariant_tac ]
        | inv_modify
        | inv_known ].

Ltac inv_step :=
  lazymatch goal with
  | |- hoare _ (bind get_pos _) _ _ => apply hoare_bind_get_pos; intros ?
  | |- hoare _ (bind _ _) _ _ =>
      first [ apply hoare_bind_read_only;
              [ solve [repeat read_only_step] | pos_determined_tac
              | to_invariant_tac | intros ? ]
            | apply (hoare_bind _ _ (fun _ w => Inv (pos w))); [ | intros ? ] ]
  | |- hoare _ (try_except_ValueError _ _) _ _ => apply hoare_try
  | |- hoare _ (if ?b then _ else _) _ _ => destruct b
  | |- hoare _ (match ?x with _ => _ end) _ _ => destruct x
  | |- hoare _ _ _ _ => inv_leaf
  end.

Lemma admin_login_keeps : keeps admin_login.
Proof. unfold admin_login. repeat inv_step. Qed.

Lemma cancel_sale_keeps : keeps cancel_sale.
Proof. unfold cancel_sale. repeat inv_step. Qed.

Lemma print_receipt_keeps subtotal tax discount total payment change :
  keeps (print_receipt subtotal tax discount total payment change).
Proof.
  pose proof read_only_the_current_user.
  unfold print_receipt. repeat inv_step.
Qed.

Lemma add_item_to_cart_keeps : keeps add_item_to_cart.
Proof. unfold add_item_to_cart. repeat inv_step. Qed.

(** Whatever the menus do, and however they end, a condition that every
    assignment of the program keeps still holds. *)
Lemma menus_keep (fuel : nat) :
  keeps (new_sale fuel) /\ keeps (new_sale_loop fuel) /\
  keeps (checkout fuel) /\ keeps (checkout_loop fuel) /\
  keeps (checkout_options fuel) /\ keeps (remove_item_fr_cart fuel).
Proof.
  pose proof read_only_the_current_user.
  pose proof read_only_recalculate_total.
  pose proof read_only_view_cart.
  pose proof read_only_remove_item_search.
  pose proof admin_login_keeps.
  pose proof cancel_sale_keeps.
  pose proof print_receipt_keeps.
  pose proof add_item_to_cart_keeps.
  induction fuel as [|fuel (IHns & IHnl & IHco & IHcl & IHop & IHrm)].
  - repeat split; apply hoare_out_of_fuel.
  - repeat split; simpl; repeat inv_step.
Qed.
End MenuInvariant.

(** ** Nothing but stocks, the cart and the current user is assigned *)

Lemma same_product_data_refl (h : heap) : same_product_data h h.
Proof. intros l. auto. Qed.

Lemma same_product_data_trans (h1 h2 h3 : heap) :
  same_product_data h1 h2 -> same_product_data h2 h3 -> same_product_data h1 h3.
Proof.
  intros H12 H23 l. destruct (H12 l) as (? & ? & ? & ?), (H23 l) as (? & ? & ? & ?).
  repeat split; congruence.
Qed.

Lemma same_product_data_set_stock (h : heap) (l : loc) (v : Z) :
  same_product_data h (set_stock h l v).
Proof.
  intros l'. unfold set_stock. destruct (Nat.eqb_spec l' l) as [->|_]; simpl; auto.
Qed.

Lemma same_product_data_remove_item_loop (h : heap) (product_id quantity : Z)
    (its : list CartItem) :
  same_product_data h (rl_heap (remove_item_loop h product_id quantity its)).
Proof.
  revert h. induction its as [|item rest IH]; simpl; intros h.
  - apply same_product_data_refl.
  - destruct (p_id (h (ci_product item)) =? product_id).
    + destruct (quantity >? ci_quantity item); simpl; [apply same_product_data_refl|].
      eapply same_product_data_trans; [apply same_product_data_set_stock | apply IH].
    + simpl. apply IH.
Qed.

Lemma same_product_data_apply_op (h : heap) (c : Cart) (op : cart_op) :
  same_product_data h (o_heap (apply_op h c op)).
Proof.
  destruct op as [product quantity | product_id quantity]; simpl.
  - destruct (ret (add_item h c product quantity)) eqn:Hr.
    + apply add_item_true in Hr as (_ & -> & _). apply same_product_data_set_stock.
    + apply add_item_false in Hr as [-> _]. apply same_product_data_refl.
  - destruct (remove_item_items h c product_id quantity) as [-> _].
    apply same_product_data_remove_item_loop.
Qed.

Lemma same_product_data_restock (h : heap) (its : list CartItem) :
  same_product_data h (restock h its).
Proof.
  revert h. induction its as [|item rest IH]; simpl; intros h.
  - apply same_product_data_refl.
  - eapply same_product_data_trans; [apply same_product_data_set_stock | apply IH].
Qed.

(** X9. The transaction menus and the checkout assign nothing but stocks,
    the cart and the current user: however [new_sale] or [checkout] ends,
    by a return or by an exception, the users, the inventory dict, the tax
    rate, and the id, name, price and category of every product are what
    they were. *)
Theorem X9_menus_keep_catalogue `{PyBuiltins} (fuel : nat) (w : world) :
  match new_sale fuel w with
  | Done _ w' | Raised _ w' => same_catalogue (pos w) (pos w')
  | OutOfFuel => True
  end /\
  match checkout fuel w with
  | Done _ w' | Raised _ w' => same_catalogue (pos w) (pos w')
  | OutOfFuel => True
  end.
Proof.
  assert (Hrefl : same_catalogue (pos w) (pos w)).
  { repeat split; auto. }
  assert (Hstep : forall s h c, same_catalogue (pos w) s ->
                                same_product_data (pos_heap s) h ->
                                same_catalogue (pos w) (set_heap_cart h c s)).
  { intros s h c (Hu & Hi & Ht & Hd) Hh. repeat split; try assumption;
      destruct (Hd l) as (? & ? & ? & ?), (Hh l) as (? & ? & ? & ?); simpl; congruence. }
  destruct (menus_keep (same_catalogue (pos w))) with (fuel := fuel)
    as (Hns & _ & Hco & _).
  - intros s u Hs. exact Hs.
  - intros s Hs. exact Hs.
  - intros s Hs. exact Hs.
  - intros s product quantity Hs. apply Hstep; [assumption|].
    apply (same_product_data_apply_op _ _ (OpAdd product quantity)).
  - intros s product_id quantity Hs. apply Hstep; [assumption|].
    apply (same_product_data_apply_op _ _ (OpRemove product_id quantity)).
  - intros s Hs. apply Hstep; [assumption|]. apply same_product_data_restock.
  - specialize (Hns w Hrefl). specialize (Hco w Hrefl).
    split; [destruct (new_sale fuel w) | destruct (checkout fuel w)]; assumption.
Qed.

(** ** The menus create no stock *)

Lemma ids_unique_same_product_data (h h' : heap) :
  same_product_data h h' -> ids_unique h -> ids_unique h'.
Proof.
  intros Hd Hu l1 l2. destruct (Hd l1) as (-> & _), (Hd l2) as (-> & _). apply Hu.
Qed.

(** X10. The menus create no stock: over a catalogue with one product per
    id and a cart of positive lines, however [new_sale] or [checkout] ends,
    by a return or by an exception, no product has more units in stock and
    in the cart together than it had before. *)
Theorem X10_menus_create_no_stock `{PyBuiltins} (fuel : nat) (w : world) :
  ids_unique (pos_heap (pos w)) ->
  lines_positive (cart (pos w)) ->
  match new_sale fuel w with
  | Done _ w' | Raised _ w' => forall l, units (pos w') l <= units (pos w) l
  | OutOfFuel => True
  end /\
  match checkout fuel w with
  | Done _ w' | Raised _ w' => forall l, units (pos w') l <= units (pos w) l
  | OutOfFuel => True
  end.
Proof.
  intros Hu Hpos.
  set (Inv := fun s : POS =>
                ids_unique (pos_heap s) /\ lines_positive (cart s) /\
                forall l, units s l <= units (pos w) l).
  assert (Hop : forall s op, Inv s ->
            Inv (set_heap_cart (o_heap (apply_op (pos_heap s) (cart s) op))
                               (o_cart (apply_op (pos_heap s) (cart s) op)) s)).
  { intros s op (Hus & Hps & Hle). split; [|split]; simpl.
    - now apply apply_op_ids_unique.
    - now apply apply_op_lines_positive.
    - intros l. unfold units in *. simpl.
      rewrite (apply_op_conserves _ _ _ _ Hus). apply Hle. }
  assert (Hdrop : forall s, Inv s -> forall c, items c = [] ->
                            Inv (set_cart c s)).
  { intros s (Hus & Hps & Hle) c Hc. split; [|split]; simpl.
    - assumption.
    - unfold lines_positive. rewrite Hc. constructor.
    - intros l. specialize (Hle l). unfold units in *. simpl. rewrite Hc. simpl.
      pose proof (held_nonneg _ l Hps). lia. }
  destruct (menus_keep Inv) with (fuel := fuel) as (Hns & _ & Hco & _).
  - intros s u Hs. exact Hs.
  - intros s Hs. now apply Hdrop.
  - intros s Hs. now apply Hdrop.
  - intros s product quantity Hs. apply (Hop s (OpAdd product quantity) Hs).
  - intros s product_id quantity Hs. apply (Hop s (OpRemove product_id quantity) Hs).
  - intros s (Hus & Hps & Hle). split; [|split]; simpl.
    + eapply ids_unique_same_product_data; [apply same_product_data_restock | assumption].
    + constructor.
    + intros l. specialize (Hle l). unfold units in *. simpl.
      rewrite restock_stock. lia.
  - assert (Hstart : Inv (pos w)).
    { split; [assumption|]. split; [assumption|]. intros l. lia. }
    specialize (Hns w Hstart). specialize (Hco w Hstart).
    split; [destruct (new_sale fuel w) | destruct (checkout fuel w)];
      try exact I; apply Hns || apply Hco.
Qed.

(** The transaction menus, the start-up heap, one Notebook in the cart and
    the lines of the admin override. *)
Lemma X10_menus_create_no_stock_witness :
  match @new_sale ascii_builtins 40 (one_notebook override_script) with
  | Done _ w' | Raised _ w' =>
      forall l, units (pos w') l <= units (pos (one_notebook override_script)) l
  | OutOfFuel => True
  end /\
  match @checkout ascii_builtins 40 (one_notebook override_script) with
  | Done _ w' | Raised _ w' =>
      forall l, units (pos w') l <= units (pos (one_notebook override_script)) l
  | OutOfFuel => True
  end.
Proof.
  apply (@X10_menus_create_no_stock ascii_builtins 40 (one_notebook override_script)).
  - apply (apply_op_ids_unique initial_heap Cart_init (OpAdd Notebook 1)).
    exact initial_heap_ids_unique.
  - apply (apply_op_lines_positive initial_heap Cart_init (OpAdd Notebook 1)).
    exact Cart_init_lines_positive.
Defined.

(** ** A sale ends with an empty cart *)

Lemma hoare_trivial {A} (P : world -> Prop) (m : M A) :
  hoare P m (fun _ _ => True) (fun _ => True).
Proof. intros w _. now destruct (m w). Qed.

Lemma hoare_bind_any {A B} (P : world -> Prop) (m : M A) (k : A -> M B)
    (Q : B -> world -> Prop) :
  (forall a, hoare (fun _ => True) (k a) Q (fun _ => True)) ->
  hoare P (bind m k) Q (fun _ => True).
Proof.
  intros Hk. apply (hoare_bind _ _ (fun _ _ => True)); [apply hoare_trivial | exact Hk].
Qed.

Section EmptyCart.
Context `{PyBuiltins}.

Local Abbreviation empty := (fun w : world => items (cart (pos w)) = []).
Local Abbreviation no_exn := (fun _ : world => True).

Lemma cancel_sale_empties (P : world -> Prop) :
  hoare P cancel_sale (fun _ => empty) no_exn.
Proof. intros w _. reflexivity. Qed.

Lemma print_receipt_empties (P : world -> Prop) subtotal tax discount total payment change :
  hoare P (print_receipt subtotal tax discount total payment change)
        (fun _ => empty) no_exn.
Proof.
  intros w _. unfold print_receipt, the_current_user, bind, get_pos, lift_option.
  destruct (current_user (pos w)); simpl; [reflexivity | exact I].
Qed.

Ltac known_post :=
  eapply hoare_weaken;
  [ eassumption
  | intros ? _; exact I
  | intros ? ? HQ; exact HQ
  | intros ? _; exact I ].

Ltac post_step :=
  lazymatch goal with
  | |- hoare _ _ (fun _ _ => True) _ => apply hoare_trivial
  | |- hoare _ (bind cancel_sale _) _ _ =>
      apply (hoare_bind _ _ (fun _ => empty)); [apply cancel_sale_empties | intros ?]
  | |- hoare _ (bind (print_receipt _ _ _ _ _ _) _) _ _ =>
      apply (hoare_bind _ _ (fun _ => empty)); [apply print_receipt_empties | intros ?]
  | |- hoare _ (bind (checkout _) _) _ _ =>
      apply (hoare_bind _ _ (fun (b : bool) w => b = true -> empty w));
      [known_post | intros ?]
  | |- hoare _ (bind (try_except_ValueError _ _) _) _ _ =>
      apply (hoare_bind _ _ (fun (r : option bool) w => r = Some true -> empty w));
      [| intros ?]
  | |- hoare _ (bind _ _) _ _ => apply hoare_bind_any; intros ?
  | |- hoare _ (try_except_ValueError _ _) _ _ => apply hoare_try
  | |- hoare _ (if ?b then _ else _) _ _ => destruct b
  | |- hoare _ (match ?x with _ => _ end) _ _ => destruct x
  | |- hoare _ (mret _) _ _ =>
      apply hoare_mret; intros ? ?; cbv beta in *;
      solve [ auto | discriminate | intros [= <-]; auto | intros; subst; auto ]
  | |- hoare _ cancel_sale _ _ => apply cancel_sale_empties
  | |- hoare _ (fun _ => OutOfFuel) _ _ => apply hoare_out_of_fuel
  | |- hoare _ _ _ _ => known_post
  end.

Lemma menus_end_with_empty_cart (fuel : nat) :
  hoare no_exn (new_sale fuel) (fun _ => empty) no_exn /\
  hoare no_exn (new_sale_loop fuel) (fun _ => empty) no_exn /\
  hoare no_exn (checkout fuel) (fun b w => b = true -> empty w) no_exn /\
  hoare no_exn (checkout_loop fuel) (fun b w => b = true -> empty w) no_exn /\
  hoare no_exn (checkout_options fuel) (fun r w => r = Some true -> empty w) no_exn.
Proof.
  induction fuel as [|fuel (IHns & IHnl & IHco & IHcl & IHop)].
  - repeat split; apply hoare_out_of_fuel.
  - repeat split; simpl; repeat post_step.
Qed.

(** X11. A sale ends with an empty cart: [new_sale] returns only once the
    cart is empty (after a receipt or a cancellation), and [checkout] returns
    [True] only then; so the caller's menu never sees a cart left over from a
    finished sale. *)
Theorem X11_sale_ends_with_empty_cart (fuel : nat) (w : world) :
  (forall w', new_sale fuel w = Done tt w' -> items (cart (pos w')) = []) /\
  (forall w', checkout fuel w = Done true w' -> items (cart (pos w')) = []).
Proof.
  destruct (menus_end_with_empty_cart fuel) as (Hns & _ & Hco & _).
  specialize (Hns w I). specialize (Hco w I). split; intros w' Hrun.
  - now rewrite Hrun in Hns.
  - rewrite Hrun in Hco. now apply Hco.
Qed.
End EmptyCart.

(** A cashier adds two Notebooks, is refused a removal and cancels. *)
Lemma X11_sale_ends_with_empty_cart_witness :
  exists w',
    @new_sale ascii_builtins 40 (mkWorld (initial_POS dburton) cashier_script [])
    = Done tt w' /\
    items (cart (pos w')) = [].
Proof.
  destruct (@X11_sale_ends_with_empty_cart ascii_builtins 40
              (mkWorld (initial_POS dburton) cashier_script [])) as [Hns _].
  destruct (@new_sale ascii_builtins 40
              (mkWorld (initial_POS dburton) cashier_script []))
    as [[] w'|e w'|] eqn:Hrun.
  - exists w'. split; [reflexivity | now apply Hns].
  - vm_compute in Hrun. discriminate.
  - vm_compute in Hrun. discriminate.
Defined.

(** ** The output only grows *)

Lemma appends_mret {A} (a : A) : appends (mret a).
Proof. intros w. exists []. now rewrite app_nil_r. Qed.

Lemma appends_raise {A} (e : exn) : appends (@raise A e).
Proof. intros w. exists []. now rewrite app_nil_r. Qed.

Lemma appends_out_of_fuel {A} : appends (fun _ => @OutOfFuel A).
Proof. intros w. exact I. Qed.

Lemma appends_print (e : event) : appends (print e).
Proof. intros w. now exists [e]. Qed.

Lemma appends_print_all (es : list event) : appends (print_all es).
Proof. intros w. now exists es. Qed.

Lemma appends_input : appends input.
Proof.
  intros w. unfold input. destruct (stdin w); exists []; simpl; now rewrite app_nil_r.
Qed.

Lemma appends_get_pos : appends get_pos.
Proof. intros w. exists []. now rewrite app_nil_r. Qed.

Lemma appends_lift_option {A} (e : exn) (o : option A) : appends (lift_option e o).
Proof. destruct o; [apply appends_mret | apply appends_raise]. Qed.

Lemma appends_modify_pos (f : POS -> POS) : appends (modify_pos f).
Proof. intros w. exists []. simpl. now rewrite app_nil_r. Qed.

Lemma appends_bind {A B} (m : M A) (k : A -> M B) :
  appends m -> (forall a, appends (k a)) -> appends (bind m k).
Proof.
  intros Hm Hk w. specialize (Hm w). unfold bind.
  destruct (m w) as [a w1|e w1|]; try assumption.
  destruct Hm as [p1 H1]. specialize (Hk a w1).
  destruct (k a w1) as [b w2|e w2|]; try exact I;
    destruct Hk as [p2 H2]; exists (p1 ++ p2); rewrite H2, H1;
    symmetry; apply app_assoc.
Qed.

Lemma appends_try {A} (body handler : M A) :
  appends body -> appends handler -> appends (try_except_ValueError body handler).
Proof.
  intros Hb Hh w. specialize (Hb w). unfold try_except_ValueError.
  destruct (body w) as [a w1|[] w1|]; try assumption.
  destruct Hb as [p1 H1]. specialize (Hh w1).
  destruct (handler w1) as [b w2|e w2|]; try exact I;
    destruct Hh as [p2 H2]; exists (p1 ++ p2); rewrite H2, H1;
    symmetry; apply app_assoc.
Qed.

Ltac appends_step :=
  match goal with
  | |- appends _ => assumption
  | |- appends (mret _) => apply appends_mret
  | |- appends (raise _) => apply appends_raise
  | |- appends (fun _ => OutOfFuel) => apply appends_out_of_fuel
  | |- appends (print _) => apply appends_print
  | |- appends (print_all _) => apply appends_print_all
  | |- appends input => apply appends_input
  | |- appends get_pos => apply appends_get_pos
  | |- appends (lift_option _ _) => apply appends_lift_option
  | |- appends (modify_pos _) => apply appends_modify_pos
  | Hpr : forall _, _ |- appends (print_receipt _ _ _ _ _ _) => apply Hpr
  | |- appends (bind _ _) => apply appends_bind; [| intros ?]
  | |- appends (try_except_ValueError _ _) => apply appends_try
  | |- appends (if ?b then _ else _) => destruct b
  | |- appends (match ?x with _ => _ end) => destruct x
  end.

Section Appends.
Context `{PyBuiltins}.

Lemma appends_the_current_user : appends the_current_user.
Proof. unfold the_current_user. repeat appends_step. Qed.

Lemma appends_recalculate_total : appends recalculate_total.
Proof. unfold recalculate_total. repeat appends_step. Qed.

Lemma appends_view_cart : appends view_cart.
Proof.
  pose proof appends_recalculate_total.
  unfold view_cart, display_receipt. repeat appends_step.
Qed.

Lemma appends_cancel_sale : appends cancel_sale.
Proof. unfold cancel_sale. repeat appends_step. Qed.

Lemma appends_print_receipt subtotal tax discount total payment change :
  appends (print_receipt subtotal tax discount total payment change).
Proof.
  pose proof appends_the_current_user.
  unfold print_receipt. repeat appends_step.
Qed.

Lemma appends_admin_login : appends admin_login.
Proof. unfold admin_login. repeat appends_step. Qed.

Lemma appends_add_item_to_cart : appends add_item_to_cart.
Proof. unfold add_item_to_cart. repeat appends_step. Qed.

Lemma appends_remove_item_search : appends remove_item_search.
Proof. unfold remove_item_search. repeat appends_step. Qed.

Lemma menus_append (fuel : nat) :
  appends (new_sale fuel) /\ appends (new_sale_loop fuel) /\
  appends (checkout fuel) /\ appends (checkout_loop fuel) /\
  appends (checkout_options fuel) /\ appends (remove_item_fr_cart fuel).
Proof.
  pose proof appends_the_current_user.
  pose proof appends_recalculate_total.
  pose proof appends_view_cart.
  pose proof appends_cancel_sale.
  pose proof appends_print_receipt.
  pose proof appends_admin_login.
  pose proof appends_add_item_to_cart.
  pose proof appends_remove_item_search.
  induction fuel as [|fuel (IHns & IHnl & IHco & IHcl & IHop & IHrm)].
  - repeat split; apply appends_out_of_fuel.
  - repeat split; simpl; repeat appends_step.
Qed.
End Appends.

(** ** Removals need an admin *)

Lemma silent_step_refl (w : world) : silent_step w w.
Proof. split; [reflexivity|]. exists []. now rewrite app_nil_r. Qed.

Lemma silent_step_trans (w1 w2 w3 : world) :
  silent_step w1 w2 -> silent_step w2 w3 -> silent_step w1 w3.
Proof.
  intros [Hp1 (p1 & Ho1 & Hn1)] [Hp2 (p2 & Ho2 & Hn2)]. split; [congruence|].
  exists (p1 ++ p2). split.
  - rewrite Ho2, Ho1. symmetry. apply app_assoc.
  - rewrite existsb_app, Hn1, Hn2. reflexivity.
Qed.

Lemma silent_mret {A} (a : A) : silent (mret a).
Proof. intros w. apply silent_step_refl. Qed.

Lemma silent_raise {A} (e : exn) : silent (@raise A e).
Proof. intros w. apply silent_step_refl. Qed.

Lemma silent_get_pos : silent get_pos.
Proof. intros w. apply silent_step_refl. Qed.

Lemma silent_input : silent input.
Proof.
  intros w. unfold input. destruct (stdin w); (split; [reflexivity|]);
    exists []; simpl; now rewrite app_nil_r.
Qed.

Lemma silent_lift_option {A} (e : exn) (o : option A) : silent (lift_option e o).
Proof. destruct o; [apply silent_mret | apply silent_raise]. Qed.

Lemma silent_print_all (es : list event) :
  existsb is_removal es = false -> silent (print_all es).
Proof. intros Hes w. split; [reflexivity|]. now exists es. Qed.

Lemma silent_print (e : event) : is_removal e = false -> silent (print e).
Proof. intros He w. split; [reflexivity|]. exists [e]. simpl. now rewrite He. Qed.

Lemma silent_bind {A B} (m : M A) (k : A -> M B) :
  silent m -> (forall a, silent (k a)) -> silent (bind m k).
Proof.
  intros Hm Hk w. specialize (Hm w). unfold bind.
  destruct (m w) as [a w1|e w1|]; try assumption.
  specialize (Hk a w1).
  destruct (k a w1) as [b w2|e w2|]; try exact I; now apply (silent_step_trans w w1).
Qed.

Ltac silent_step_tac :=
  match goal with
  | |- silent _ => assumption
  | |- silent (mret _) => apply silent_mret
  | |- silent (raise _) => apply silent_raise
  | |- silent (print _) => apply silent_print; reflexivity
  | |- silent (print_all _) => apply silent_print_all; assumption
  | |- silent input => apply silent_input
  | |- silent get_pos => apply silent_get_pos
  | |- silent (lift_option _ _) => apply silent_lift_option
  | |- silent (bind _ _) => apply silent_bind; [| intros ?]
  | |- silent (if ?b then _ else _) => destruct b
  | |- silent (match ?x with _ => _ end) => destruct x
  end.

Lemma check_low_stock_no_removal (h : heap) (product : loc) :
  existsb is_removal (check_low_stock h product) = false.
Proof. unfold check_low_stock. now destruct (_ <=? _). Qed.

Lemma add_item_prints_no_removal (h : heap) (c : Cart) (product : loc) (quantity : Z) :
  existsb is_removal (o_out (add_item h c product quantity)) = false.
Proof.
  unfold add_item. destruct (quantity <=? 0); [reflexivity|].
  destruct (add_item_loop h product quantity (items c))
    as [[[[r h'] its'] out]|] eqn:Hl.
  - simpl. destruct r.
    + apply add_item_loop_true in Hl as (pre & item & post & _ & _ & _ & _ & _ & _ & ->).
      now rewrite existsb_app, !check_low_stock_no_removal.
    + now apply add_item_loop_false_out in Hl as (item & _ & _ & _ & ->).
  - destruct (quantity >? p_stock (h product)); simpl; [reflexivity|].
    apply check_low_stock_no_removal.
Qed.

Lemma hoare_bind_silent {A B} (P : world -> Prop) (m : M A) (k : A -> M B)
    (Q : B -> world -> Prop) (E : world -> Prop) :
  silent m ->
  silent_stable P ->
  (forall w, P w -> E w) ->
  (forall a, hoare P (k a) Q E) ->
  hoare P (bind m k) Q E.
Proof.
  intros Hm HP HE Hk w Hw. specialize (Hm w). unfold bind.
  destruct (m w) as [a w1|e w1|]; [|apply HE; now apply (HP w)|exact I].
  apply Hk. now apply (HP w).
Qed.

Lemma hoare_silent (P Q : world -> Prop) {A} (m : M A) :
  silent m ->
  silent_stable Q ->
  (forall w, P w -> Q w) ->
  hoare P m (fun _ => Q) Q.
Proof.
  intros Hm HQ HP w Hw. specialize (Hm w).
  destruct (m w) as [a w1|e w1|]; try exact I; apply (HQ w); auto.
Qed.

Lemma authorised_stable : silent_stable authorised.
Proof.
  intros w w' [Hpos (printed & Hout & Hno)] Hw. unfold authorised, admin_seen, removal_seen in *.
  rewrite Hpos, Hout, !existsb_app, Hno, orb_false_r.
  intros Hor. rewrite (Hw Hor). reflexivity.
Qed.

Lemma admin_seen_authorised (w : world) : admin_seen w -> authorised w.
Proof. intros Hw _. exact Hw. Qed.

Lemma admin_seen_appends {A} (m : M A) :
  appends m -> hoare admin_seen m (fun _ => admin_seen) admin_seen.
Proof.
  intros Hm w Hw. specialize (Hm w). unfold admin_seen in *.
  destruct (m w) as [a w1|e w1|]; try exact I;
    destruct Hm as [printed ->]; rewrite existsb_app, Hw; reflexivity.
Qed.

Lemma hoare_bind_current_user {B} (P : world -> Prop) (k : User -> M B)
    (Q : B -> world -> Prop) (E : world -> Prop) :
  (forall w, P w -> E w) ->
  (forall u, hoare (fun w => P w /\ current_user (pos w) = Some u) (k u) Q E) ->
  hoare P (bind the_current_user k) Q E.
Proof.
  intros HE Hk w Hw.
  assert (Hcur : the_current_user w
                 = match current_user (pos w) with
                   | Some u => Done u w
                   | None => Raised AttributeError w
                   end).
  { unfold the_current_user, bind, get_pos, lift_option.
    now destruct (current_user (pos w)). }
  unfold bind at 1. rewrite Hcur.
  destruct (current_user (pos w)) as [u|] eqn:Hu.
  - exact (Hk u w (conj Hw Hu)).
  - now apply HE.
Qed.

Ltac silent_stable_tac :=
  let w := fresh "w" in let w' := fresh "w'" in
  let Hs := fresh "Hs" in let HP := fresh "HP" in
  intros w w' Hs HP; cbv beta in *; decompose [and] HP;
  repeat split;
  first [ apply (authorised_stable w); assumption
        | destruct Hs as [Hs _]; rewrite Hs; assumption ].

Ltac to_authorised_tac :=
  let w := fresh "w" in let HP := fresh "HP" in
  intros w HP; cbv beta in *; decompose [and] HP; assumption.

Section Authorisation.
Context `{PyBuiltins}.

Local Abbreviation guarded m := (hoare authorised m (fun _ => authorised) authorised).

Lemma silent_the_current_user : silent the_current_user.
Proof. unfold the_current_user. repeat silent_step_tac. Qed.

Lemma silent_recalculate_total : silent recalculate_total.
Proof. unfold recalculate_total. repeat silent_step_tac. Qed.

Lemma silent_view_cart : silent view_cart.
Proof.
  pose proof silent_recalculate_total.
  unfold view_cart, display_receipt. repeat silent_step_tac.
Qed.

Lemma silent_remove_item_search : silent remove_item_search.
Proof. unfold remove_item_search. repeat silent_step_tac. Qed.

Ltac auth_modify :=
  apply hoare_modify_pos;
  let w := fresh "w" in let HP := fresh "HP" in
  intros w HP; cbv beta in *; decompose [and] HP;
  unfold authorised, admin_seen, removal_seen in *; cbn [pos stdout]; simpl;
  assumption.

Ltac auth_known :=
  eapply hoare_weaken;
  [ first [ eassumption
          | match goal with Hx : forall _, _ |- _ => apply Hx end ]
  | to_authorised_tac
  | intros ? ? HQ; exact HQ
  | intros ? HE; exact HE ].

(** A call of [remove_item_fr_cart] where the current user is known to be
    an admin. *)
Ltac auth_remove :=
  eapply hoare_weaken;
  [ apply admin_seen_appends; eassumption
  | let w := fresh "w" in let HP := fresh "HP" in
    intros w HP; cbv beta in *; decompose [and] HP;
    match goal with
    | Ha : authorised w, Hu : current_user (pos w) = Some ?u |- _ =>
        apply Ha; left; rewrite Hu; simpl; assumption
    end
  | intros ? ?; apply admin_seen_authorised
  | intros ?; apply admin_seen_authorised ].

Ltac auth_leaf :=
  first [ apply hoare_out_of_fuel
        | apply hoare_silent;
          [ solve [repeat silent_step_tac] | apply authorised_stable | to_authorised_tac ]
        | auth_modify
        | auth_known ].

Ltac auth_step :=
  lazymatch goal with
  | |- hoare _ (bind get_pos _) _ _ =>
      first [ solve [auth_known] | apply hoare_bind_get_pos; intros ? ]
  | |- hoare _ (bind the_current_user _) _ _ =>
      apply hoare_bind_current_user; [to_authorised_tac | intros ?]
  | |- hoare _ (bind (remove_item_fr_cart _) _) _ _ =>
      apply (hoare_bind _ _ (fun _ => authorised)); [auth_remove | intros ?]
  | |- hoare _ (bind (print_all (o_out (add_item _ _ _ _))) _) _ _ =>
      apply hoare_bind_silent;
      [ apply silent_print_all, add_item_prints_no_removal
      | silent_stable_tac | to_authorised_tac | intros ? ]
  | |- hoare _ (bind _ _) _ _ =>
      first [ apply hoare_bind_silent;
              [ solve [repeat silent_step_tac] | silent_stable_tac
              | to_authorised_tac | intros ? ]
            | apply (hoare_bind _ _ (fun _ => authorised)); [ | intros ? ] ]
  | |- hoare _ (try_except_ValueError _ _) _ _ => apply hoare_try
  | |- hoare _ (if negb ?b then _ else _) _ _ => destruct b eqn:?; cbn [negb]
  | |- hoare _ (if ?b then _ else _) _ _ => destruct b eqn:?
  | |- hoare _ (match ?x with _ => _ end) _ _ => destruct x
  | |- hoare _ _ _ _ => auth_leaf
  end.

Lemma cancel_sale_guarded : guarded cancel_sale.
Proof. unfold cancel_sale. repeat auth_step. Qed.

Lemma print_receipt_guarded subtotal tax discount total payment change :
  guarded (print_receipt subtotal tax discount total payment change).
Proof. unfold print_receipt. repeat auth_step. Qed.

Lemma add_item_to_cart_guarded : guarded add_item_to_cart.
Proof. unfold add_item_to_cart. repeat auth_step. Qed.

(** A successful [admin_login] prints its message; a failed one leaves the
    current user alone. *)
Lemma admin_login_authorised (w : world) :
  authorised w ->
  match admin_login w with
  | Done true w1 => admin_seen w1
  | Done false w1 | Raised _ w1 => authorised w1
  | OutOfFuel => True
  end.
Proof.
  intros Hw. destruct w as [s inp out].
  assert (Hmore : forall inp' e, is_removal e = false ->
                                 authorised (mkWorld s inp' (out ++ [e]))).
  { intros inp' e He. apply (authorised_stable (mkWorld s inp out)); [|assumption].
    split; [reflexivity|]. exists [e]. simpl. now rewrite He. }
  assert (Hsame : forall inp', authorised (mkWorld s inp' out)).
  { intros inp'. apply (authorised_stable (mkWorld s inp out)); [|assumption].
    split; [reflexivity|]. exists []. simpl. now rewrite app_nil_r. }
  unfold admin_login, bind, input, get_pos, modify_pos, print, mret. simpl.
  destruct inp as [|l1 [|l2 rest]]; simpl; try apply Hsame.
  destruct (users s !! py_strip l1) as [u|]; simpl; [|now apply Hmore].
  destruct (_ && _); simpl; [|now apply Hmore].
  unfold admin_seen. simpl. rewrite existsb_app. simpl. apply orb_true_r.
Qed.

Lemma override_guarded (fuel : nat) :
  appends (remove_item_fr_cart fuel) ->
  guarded (checkout_options fuel) ->
  guarded (let! s := get_pos in
           let original_user := current_user s in
           let! logged := admin_login in
           if logged then
             let! removed := remove_item_fr_cart fuel in
             modify_pos (set_current_user original_user) ;;
             match removed with
             | Some true => mret None
             | _ => checkout_options fuel
             end
           else checkout_options fuel).
Proof.
  intros Hrm Hop w Hw.
  unfold bind at 1. unfold get_pos. cbv zeta. unfold bind at 1.
  pose proof (admin_login_authorised w Hw) as Hlog.
  destruct (admin_login w) as [[|] w1|e w1|]; try exact I; try assumption.
  - unfold bind at 1.
    pose proof (admin_seen_appends _ Hrm w1 Hlog) as Hseen.
    destruct (remove_item_fr_cart fuel w1) as [removed w2|e w2|];
      try exact I; [|now apply admin_seen_authorised].
    unfold bind at 1. unfold modify_pos.
    set (w3 := mkWorld (set_current_user (current_user (pos w)) (pos w2))
                       (stdin w2) (stdout w2)).
    assert (Hw3 : authorised w3) by (apply admin_seen_authorised; exact Hseen).
    destruct removed as [[|]|]; [exact Hw3| | ]; exact (Hop w3 Hw3).
  - exact (Hop w1 Hlog).
Qed.

(** Started where every admin at the till and every removal in the output
    is backed by an admin login in the output, the menus end there. *)
Lemma menus_guarded (fuel : nat) :
  guarded (new_sale fuel) /\ guarded (new_sale_loop fuel) /\
  guarded (checkout fuel) /\ guarded (checkout_loop fuel) /\
  guarded (checkout_options fuel).
Proof.
  pose proof cancel_sale_guarded.
  pose proof print_receipt_guarded.
  pose proof add_item_to_cart_guarded.
  pose proof silent_the_current_user.
  pose proof silent_recalculate_total.
  pose proof silent_view_cart.
  induction fuel as [|fuel (IHns & IHnl & IHco & IHcl & IHop)].
  - repeat split; apply hoare_out_of_fuel.
  - destruct (menus_append fuel) as (_ & _ & _ & _ & _ & Hrm).
    pose proof (override_guarded fuel Hrm IHop) as Hover.
    repeat split; simpl; repeat auth_step.
Qed.
End Authorisation.

(** X12. Removals need an admin login: when [new_sale] or [checkout] starts
    with no admin at the till (a cashier, or nobody) and no removal in the
    output, then however it ends, by a return or by an exception, a removal
    message in the output comes with the message of a successful admin
    login. No sequence of typed lines lets a cashier remove items without
    admin credentials. *)
Theorem X12_removals_need_an_admin_login `{PyBuiltins} (fuel : nat) (w : world) :
  is_admin (current_user (pos w)) = false ->
  existsb is_removal (stdout w) = false ->
  match new_sale fuel w with
  | Done _ w' | Raised _ w' =>
      existsb is_removal (stdout w') = true ->
      existsb is_admin_login (stdout w') = true
  | OutOfFuel => True
  end /\
  match checkout fuel w with
  | Done _ w' | Raised _ w' =>
      existsb is_removal (stdout w') = true ->
      existsb is_admin_login (stdout w') = true
  | OutOfFuel => True
  end.
Proof.
  intros Hadmin Hnone.
  assert (Hw : authorised w).
  { intros [Ha|Hr]; [congruence | unfold removal_seen in Hr; congruence]. }
  destruct (menus_guarded fuel) as (Hns & _ & Hco & _).
  specialize (Hns w Hw). specialize (Hco w Hw).
  split; [destruct (new_sale fuel w) | destruct (checkout fuel w)];
    try exact I; intros Hr; (apply Hns || apply Hco); now right.
Qed.

(** The cashier [dburton] at the till, one Notebook in the cart, and the
    lines of the admin override: the three removals of that run come after
    the login of [admin]. *)
Lemma X12_removals_need_an_admin_login_witness :
  match @new_sale ascii_builtins 40 (one_notebook override_script) with
  | Done _ w' | Raised _ w' =>
      existsb is_removal (stdout w') = true ->
      existsb is_admin_login (stdout w') = true
  | OutOfFuel => True
  end /\
  match @checkout ascii_builtins 40 (one_notebook override_script) with
  | Done _ w' | Raised _ w' =>
      existsb is_removal (stdout w') = true ->
      existsb is_admin_login (stdout w') = true
  | OutOfFuel => True
  end.
Proof.
  apply (@X12_removals_need_an_admin_login ascii_builtins 40
           (one_notebook override_script)); reflexivity.
Defined.

(** ** Logging in as admin *)

(** X13. [admin_login] lets in admins only: it returns [True] exactly after
    reading a user name and a password such that the stripped name is a key
    of [users], the stripped password is that user's and the user's role is
    admin; that user is then the current user. When it returns [False] the
    two lines are consumed and the POS object is untouched. It raises only
    [EOFError], when fewer than two lines are left. *)
Theorem X13_admin_login_lets_in_admins_only `{PyBuiltins} (w : world) :
  match admin_login w with
  | Done true w' =>
      exists name pw u,
        stdin w = name :: pw :: stdin w' /\
        users (pos w) !! py_strip name = Some u /\
        password u = py_strip pw /\
        role u = "admin"%string /\
        pos w' = set_current_user (Some u) (pos w) /\
        stdout w' = stdout w ++ [EAdminLoggedIn (username u)]
  | Done false w' =>
      exists name pw,
        stdin w = name :: pw :: stdin w' /\
        pos w' = pos w /\
        stdout w' = stdout w ++ [EAdminLoginFailed] /\
        (forall u, users (pos w) !! py_strip name = Some u ->
                   password u = py_strip pw -> role u <> "admin"%string)
  | Raised e w' =>
      e = EOFError /\ (length (stdin w) < 2)%nat /\ pos w' = pos w
  | OutOfFuel => False
  end.
Proof.
  destruct w as [s inp out].
  unfold admin_login, bind, input, get_pos, modify_pos, print, mret. simpl.
  destruct inp as [|l1 [|l2 rest]]; simpl; try (repeat split; auto; lia).
  destruct (users s !! py_strip l1) as [u|] eqn:Hu; simpl.
  - unfold has_permission.
    destruct (String.eqb_spec (password u) (py_strip l2)) as [Hpw|Hpw]; simpl.
    + destruct (String.eqb_spec (role u) "admin") as [Hrole|Hrole]; simpl.
      * exists l1, l2, u. split_and!; auto.
      * exists l1, l2. split_and!; auto. simpl. rewrite Hu.
        intros u' [= <-] _. exact Hrole.
    + exists l1, l2. split_and!; auto. simpl. rewrite Hu.
      intros u' [= <-] Hp. contradiction.
  - exists l1, l2. split_and!; auto. simpl. rewrite Hu. intros u' [=].
Qed.

(** ** Looking at the cart *)

(** X14. Looking changes nothing: [view_cart] and [recalculate_total] never
    assign to the POS object and read no input, whether they return or raise
    (an overflowing total); [recalculate_total] prints nothing. *)
Theorem X14_viewing_changes_nothing `{PyBuiltins} (w : world) :
  match view_cart w with
  | Done _ w' | Raised _ w' => pos w' = pos w /\ stdin w' = stdin w
  | OutOfFuel => False
  end /\
  match recalculate_total w with
  | Done _ w' | Raised _ w' => w' = w
  | OutOfFuel => False
  end.
Proof.
  assert (Hre : forall w0, recalculate_total w0
            = match recalculate_total_pure (tax_rate (pos w0)) (pos_heap (pos w0))
                      (cart (pos w0)) with
              | Some t => Done t w0
              | None => Raised OverflowError w0
              end).
  { intros w0. unfold recalculate_total, bind, get_pos, lift_option.
    now destruct (recalculate_total_pure _ _ _). }
  split.
  - unfold view_cart, display_receipt, bind, get_pos.
    destruct (is_empty (cart (pos w))); [simpl; auto|].
    rewrite Hre.
    destruct (recalculate_total_pure _ _ _) as [[[[subtotal tax] discount] total]|];
      simpl; auto.
  - rewrite Hre. now destruct (recalculate_total_pure _ _ _).
Qed.

(** ** Receipts *)

Section Emits.
Variable ok : event -> Prop.

Lemma emits_nothing (w w' : world) :
  stdout w' = stdout w ->
  exists printed, stdout w' = stdout w ++ printed /\ Forall ok printed.
Proof. intros ->. exists []. split; [now rewrite app_nil_r | constructor]. Qed.

Lemma emits_mret {A} (a : A) : emits ok (mret a).
Proof. intros w. now apply emits_nothing. Qed.

Lemma emits_raise {A} (e : exn) : emits ok (@raise A e).
Proof. intros w. now apply emits_nothing. Qed.

Lemma emits_out_of_fuel {A} : emits ok (fun _ => @OutOfFuel A).
Proof. intros w. exact I. Qed.

Lemma emits_print (e : event) : ok e -> emits ok (print e).
Proof. intros He w. exists [e]. split; [reflexivity | now constructor]. Qed.

Lemma emits_print_all (es : list event) : Forall ok es -> emits ok (print_all es).
Proof. intros Hes w. now exists es. Qed.

Lemma emits_input : emits ok input.
Proof. intros w. unfold input. destruct (stdin w); now apply emits_nothing. Qed.

Lemma emits_get_pos : emits ok get_pos.
Proof. intros w. now apply emits_nothing. Qed.

Lemma emits_lift_option {A} (e : exn) (o : option A) : emits ok (lift_option e o).
Proof. destruct o; [apply emits_mret | apply emits_raise]. Qed.

Lemma emits_modify_pos (f : POS -> POS) : emits ok (modify_pos f).
Proof. intros w. now apply emits_nothing. Qed.

Lemma emits_trans (w1 w2 w3 : world) :
  (exists p, stdout w2 = stdout w1 ++ p /\ Forall ok p) ->
  (exists p, stdout w3 = stdout w2 ++ p /\ Forall ok p) ->
  exists p, stdout w3 = stdout w1 ++ p /\ Forall ok p.
Proof.
  intros (p1 & H1 & Hp1) (p2 & H2 & Hp2). exists (p1 ++ p2). split.
  - rewrite H2, H1. symmetry. apply app_assoc.
  - apply Forall_app. now split.
Qed.

Lemma emits_bind {A B} (m : M A) (k : A -> M B) :
  emits ok m -> (forall a, emits ok (k a)) -> emits ok (bind m k).
Proof.
  intros Hm Hk w. specialize (Hm w). unfold bind.
  destruct (m w) as [a w1|e w1|]; try assumption.
  specialize (Hk a w1).
  destruct (k a w1) as [b w2|e w2|]; try exact I; now apply (emits_trans w w1).
Qed.

Lemma emits_try {A} (body handler : M A) :
  emits ok body -> emits ok handler -> emits ok (try_except_ValueError body handler).
Proof.
  intros Hb Hh w. specialize (Hb w). unfold try_except_ValueError.
  destruct (body w) as [a w1|[] w1|]; try assumption.
  specialize (Hh w1).
  destruct (handler w1) as [b w2|e w2|]; try exact I; now apply (emits_trans w w1).
Qed.
End Emits.

Lemma check_low_stock_paid (h : heap) (product : loc) :
  Forall receipt_paid (check_low_stock h product).
Proof. unfold check_low_stock. destruct (_ <=? _); repeat constructor. Qed.

Lemma add_item_paid (h : heap) (c : Cart) (product : loc) (quantity : Z) :
  Forall receipt_paid (o_out (add_item h c product quantity)).
Proof.
  unfold add_item. destruct (quantity <=? 0); [repeat constructor|].
  destruct (add_item_loop h product quantity (items c))
    as [[[[r h'] its'] out]|] eqn:Hl.
  - simpl. destruct r.
    + apply add_item_loop_true in Hl as (pre & item & post & _ & _ & _ & _ & _ & _ & ->).
      apply Forall_app; split; apply check_low_stock_paid.
    + apply add_item_loop_false_out in Hl as (item & _ & _ & _ & ->).
      repeat constructor.
  - destruct (quantity >? p_stock (h product)); simpl; [repeat constructor|].
    apply check_low_stock_paid.
Qed.

Lemma remove_item_loop_paid (product_id quantity : Z) (snapshot : list CartItem) :
  forall h, Forall receipt_paid (rl_out (remove_item_loop h product_id quantity snapshot)).
Proof.
  induction snapshot as [|item rest IH]; intros h; simpl; [constructor|].
  destruct (_ =? product_id); [|apply IH].
  destruct (quantity >? _); simpl; [repeat constructor|].
  repeat (rewrite ?Forall_app, ?Forall_cons; split_and?);
    try apply check_low_stock_paid; try apply IH; exact I.
Qed.

Lemma remove_item_paid (h : heap) (c : Cart) (product_id quantity : Z) :
  Forall receipt_paid (o_out (remove_item h c product_id quantity)).
Proof.
  unfold remove_item.
  pose proof (remove_item_loop_paid product_id quantity (items c) h) as Hl.
  destruct (rl_returned _); simpl; [exact Hl|].
  destruct (negb _); simpl; [|exact Hl].
  apply Forall_app; split; [exact Hl | repeat constructor].
Qed.

Ltac emits_step :=
  lazymatch goal with
  | Hx : emits _ ?m |- emits _ ?m => exact Hx
  | |- emits _ (mret _) => apply emits_mret
  | |- emits _ (raise _) => apply emits_raise
  | |- emits _ (fun _ => OutOfFuel) => apply emits_out_of_fuel
  | |- emits _ (print _) => apply emits_print; exact I
  | |- emits _ (print_all (o_out (add_item _ _ _ _))) =>
      apply emits_print_all, add_item_paid
  | |- emits _ (print_all (o_out (remove_item _ _ _ _))) =>
      apply emits_print_all, remove_item_paid
  | |- emits _ input => apply emits_input
  | |- emits _ get_pos => apply emits_get_pos
  | |- emits _ (lift_option _ _) => apply emits_lift_option
  | |- emits _ (modify_pos _) => apply emits_modify_pos
  | Hpr : forall _, _ |- emits _ (print_receipt _ _ _ _ _ _) =>
      apply Hpr; assumption
  | |- emits _ (bind _ _) => apply emits_bind; [| intros ?]
  | |- emits _ (try_except_ValueError _ _) => apply emits_try
  | |- emits _ (if ?b then _ else _) => destruct b eqn:?
  | |- emits _ (match ?x with _ => _ end) => destruct x
  end.

Section Receipts.
Context `{PyBuiltins}.

Local Abbreviation paid m := (emits receipt_paid m).

Lemma the_current_user_paid : paid the_current_user.
Proof. unfold the_current_user. repeat emits_step. Qed.

Lemma recalculate_total_paid : paid recalculate_total.
Proof. unfold recalculate_total. repeat emits_step. Qed.

Lemma view_cart_paid : paid view_cart.
Proof.
  pose proof recalculate_total_paid.
  unfold view_cart, display_receipt. repeat emits_step.
Qed.

Lemma cancel_sale_paid : paid cancel_sale.
Proof. unfold cancel_sale. repeat emits_step. Qed.

Lemma print_receipt_paid subtotal tax discount total payment :
  (payment <? total)%float = false ->
  paid (print_receipt subtotal tax discount total payment (payment - total)%float).
Proof.
  intros Hpay. pose proof the_current_user_paid.
  unfold print_receipt. repeat emits_step.
  apply emits_print. split; [exact Hpay | reflexivity].
Qed.

Lemma admin_login_paid : paid admin_login.
Proof. unfold admin_login. repeat emits_step. Qed.

Lemma add_item_to_cart_paid : paid add_item_to_cart.
Proof. unfold add_item_to_cart. repeat emits_step. Qed.

Lemma remove_item_search_paid : paid remove_item_search.
Proof. unfold remove_item_search. repeat emits_step. Qed.

Lemma menus_paid (fuel : nat) :
  paid (new_sale fuel) /\ paid (new_sale_loop fuel) /\
  paid (checkout fuel) /\ paid (checkout_loop fuel) /\
  paid (checkout_options fuel) /\ paid (remove_item_fr_cart fuel).
Proof.
  pose proof the_current_user_paid.
  pose proof recalculate_total_paid.
  pose proof view_cart_paid.
  pose proof cancel_sale_paid.
  pose proof print_receipt_paid.
  pose proof admin_login_paid.
  pose proof add_item_to_cart_paid.
  pose proof remove_item_search_paid.
  induction fuel as [|fuel (IHns & IHnl & IHco & IHcl & IHop & IHrm)].
  - repeat split; apply emits_out_of_fuel.
  - repeat split; simpl; repeat emits_step.
Qed.
End Receipts.

(** X15. No receipt without payment: every final receipt that [new_sale]
    or [checkout] prints, however the call ends, is for a payment that the
    test [payment < total] does not reject, and shows the change
    [payment - total]. *)
Theorem X15_receipts_are_paid `{PyBuiltins} (fuel : nat) (w : world) :
  match new_sale fuel w with
  | Done _ w' | Raised _ w' =>
      exists printed, stdout w' = stdout w ++ printed /\ Forall receipt_paid printed
  | OutOfFuel => True
  end /\
  match checkout fuel w with
  | Done _ w' | Raised _ w' =>
      exists printed, stdout w' = stdout w ++ printed /\ Forall receipt_paid printed
  | OutOfFuel => True
  end.
Proof.
  destruct (menus_paid fuel) as (Hns & _ & Hco & _).
  split; [apply Hns | apply Hco].
Qed.

(** ** A payment that is not a number *)

Lemma SFeqb_irrefl_nan (f : spec_float) : SFeqb f f = false -> f = S754_nan.
Proof.
  unfold SFeqb, SFcompare. destruct f as [[]|[]| |[] m e]; try discriminate; auto;
    rewrite Z.compare_refl, BinPos.Pos.compare_cont_refl; discriminate.
Qed.

Lemma nan_not_less (x y : float) :
  PrimFloat.is_nan x = true -> (x <? y)%float = false.
Proof.
  unfold PrimFloat.is_nan. rewrite FloatAxioms.eqb_spec, FloatAxioms.ltb_spec. intros Hx.
  apply negb_true_iff in Hx. apply SFeqb_irrefl_nan in Hx. now rewrite Hx.
Qed.

(** X16. A payment that is not a number buys the cart: with a user logged
    in and a cart that is not empty, when the line typed at the payment
    prompt is read by [float] as a NaN, which Python does for the text
    [nan], the test [payment < total] is false, so [checkout] prints the
    final receipt, with that payment and a change computed from it, empties
    the cart without restocking and returns [True]. *)
Theorem X16_nan_payment_completes_the_sale `{PyBuiltins} (fuel : nat) (w : world)
    (line : string) (rest : list string) (cashier : User)
    (payment : float) (subtotal : num) (tax : float) (discount : dval) (total : float) :
  is_empty (cart (pos w)) = false ->
  current_user (pos w) = Some cashier ->
  recalculate_total_pure (tax_rate (pos w)) (pos_heap (pos w)) (cart (pos w))
    = Some (subtotal, tax, discount, total) ->
  stdin w = line :: rest ->
  py_float line = Some payment ->
  PrimFloat.is_nan payment = true ->
  exists w',
    checkout (S (S fuel)) w = Done true w' /\
    items (cart (pos w')) = [] /\
    pos_heap (pos w') = pos_heap (pos w) /\
    stdin w' = rest /\
    stdout w'
    = stdout w
        ++ [ECartReceipt (get_all_items (cart (pos w))) subtotal tax discount total;
            EPaymentSummary subtotal tax discount total;
            EReceipt (username cashier) (get_all_items (cart (pos w)))
              subtotal tax discount total payment (payment - total)%float].
Proof.
  intros Hne Huser Htot Hin Hpay Hnan.
  pose proof (nan_not_less payment total Hnan) as Hge.
  destruct w as [s inp out]. simpl in *. subst inp.
  eexists. split.
  - change (checkout (S (S fuel)))
      with (let! s := get_pos in
            if is_empty (cart s) then print ECheckoutCartEmpty ;; mret false
            else checkout_loop (S fuel)).
    unfold checkout_loop, view_cart, display_receipt, recalculate_total,
      print_receipt, the_current_user, try_except_ValueError, bind, get_pos,
      print, modify_pos, lift_option, input, mret. simpl.
    do 6 (cbn [pos stdin stdout]; rewrite ?Hne, ?Htot, ?Hpay, ?Hge, ?Huser).
    reflexivity.
  - simpl. split_and!; try reflexivity.
    rewrite <- !app_assoc. reflexivity.
Qed.

(** One Notebook in the cart, total 550, and [nan] typed as the amount. *)
Lemma X16_nan_payment_completes_the_sale_witness :
  exists w',
    @checkout nan_builtins 2 (one_notebook ["nan"%string]) = Done true w' /\
    items (cart (pos w')) = [] /\
    pos_heap (pos w') = pos_heap (pos (one_notebook ["nan"%string])) /\
    stdin w' = [] /\
    stdout w'
    = [ECartReceipt [(Notebook, 1)] (NFloat 500) 50 (DBool false) 550;
       EPaymentSummary (NFloat 500) 50 (DBool false) 550;
       EReceipt "dburton" [(Notebook, 1)] (NFloat 500) 50 (DBool false) 550
         nan (nan - 550)%float].
Proof.
  apply (@X16_nan_payment_completes_the_sale nan_builtins 0
           (one_notebook ["nan"%string]) "nan" [] dburton nan
           (NFloat 500) 50 (DBool false) 550); reflexivity.
Defined.

(** ** A checkout that is given up *)

Lemma untouched_stable (s0 : POS) : silent_stable (untouched s0).
Proof.
  intros w w' [Hpos (printed & Hout & _)] [Hseen|Hsame].
  - left. unfold admin_seen in *. now rewrite Hout, existsb_app, Hseen.
  - right. congruence.
Qed.

Lemma admin_login_silent_or_seen `{PyBuiltins} (w : world) :
  match admin_login w with
  | Done true w1 => admin_seen w1
  | Done false w1 | Raised _ w1 => silent_step w w1
  | OutOfFuel => True
  end.
Proof.
  destruct w as [s inp out].
  assert (Hmore : forall inp' e, is_removal e = false ->
            silent_step (mkWorld s inp out) (mkWorld s inp' (out ++ [e]))).
  { intros inp' e He. split; [reflexivity|]. exists [e]. simpl. now rewrite He. }
  assert (Hsame : forall inp', silent_step (mkWorld s inp out) (mkWorld s inp' out)).
  { intros inp'. split; [reflexivity|]. exists []. simpl. now rewrite app_nil_r. }
  unfold admin_login, bind, input, get_pos, modify_pos, print, mret. simpl.
  destruct inp as [|l1 [|l2 rest]]; simpl; try apply Hsame.
  destruct (users s !! py_strip l1) as [u|]; simpl; [|now apply Hmore].
  destruct (_ && _); simpl; [|now apply Hmore].
  unfold admin_seen. simpl. rewrite existsb_app. simpl. apply orb_true_r.
Qed.

Section Abandoned.
Context `{PyBuiltins}.
Variable s0 : POS.
Hypothesis no_admin : is_admin (current_user s0) = false.

Local Abbreviation same := (untouched s0).

Lemma print_receipt_returns_true subtotal tax discount total payment change :
  hoare same (print_receipt subtotal tax discount total payment change)
    (fun b _ => b = true) same.
Proof.
  intros w Hw.
  unfold print_receipt, the_current_user, bind, get_pos, lift_option, print,
    modify_pos, mret.
  destruct (current_user (pos w)); simpl; [reflexivity | exact Hw].
Qed.

Lemma cancel_sale_returns (P : world -> Prop) :
  hoare P cancel_sale (fun _ _ => True) same.
Proof. intros w _. exact I. Qed.

(** With an admin at the till, an admin has logged in. *)
Lemma admin_at_till_seen (w : world) (u : User) :
  same w -> current_user (pos w) = Some u -> has_permission u "admin" = true ->
  admin_seen w.
Proof.
  intros [Hseen|Hsame] Hu Hperm; [exact Hseen|].
  rewrite Hsame in Hu. rewrite Hu in no_admin. simpl in no_admin. congruence.
Qed.

Lemma override_abandoned (fuel : nat) :
  appends (remove_item_fr_cart fuel) ->
  hoare same (checkout_options fuel) (fun r w => r = Some true \/ same w) same ->
  hoare same
    (let! s := get_pos in
     let original_user := current_user s in
     let! logged := admin_login in
     if logged then
       let! removed := remove_item_fr_cart fuel in
       modify_pos (set_current_user original_user) ;;
       match removed with
       | Some true => mret None
       | _ => checkout_options fuel
       end
     else checkout_options fuel)
    (fun r w => r = Some true \/ same w) same.
Proof.
  intros Hrm Hop w Hw.
  unfold bind at 1. unfold get_pos. cbv zeta. unfold bind at 1.
  pose proof (admin_login_silent_or_seen w) as Hlog.
  destruct (admin_login w) as [[|] w1|e w1|]; try exact I.
  - unfold bind at 1.
    pose proof (admin_seen_appends _ Hrm w1 Hlog) as Hseen.
    destruct (remove_item_fr_cart fuel w1) as [removed w2|e w2|];
      try exact I; [|now left].
    unfold bind at 1. unfold modify_pos.
    set (w3 := mkWorld (set_current_user (current_user (pos w)) (pos w2))
                       (stdin w2) (stdout w2)).
    assert (Hw3 : same w3) by (left; exact Hseen).
    destruct removed as [[|]|]; [right; exact Hw3| | ]; exact (Hop w3 Hw3).
  - apply Hop. now apply (untouched_stable s0 w).
  - now apply (untouched_stable s0 w).
Qed.

Ltac same_stable_tac :=
  let w := fresh "w" in let w' := fresh "w'" in
  let Hs := fresh "Hs" in let HP := fresh "HP" in
  intros w w' Hs HP; cbv beta in *; decompose [and] HP;
  repeat split;
  first [ apply (untouched_stable s0 w); assumption
        | destruct Hs as [Hs _]; rewrite Hs; assumption ].

Ltac to_same_tac :=
  let w := fresh "w" in let HP := fresh "HP" in
  intros w HP; cbv beta in *;
  first [ decompose [and] HP; first [ assumption | right; assumption ]
        | destruct HP as [HP|HP]; [discriminate | exact HP] ].

Ltac same_known :=
  eapply hoare_weaken;
  [ first [ eassumption
          | match goal with Hx : forall _, _ |- _ => apply Hx end ]
  | to_same_tac
  | intros ? ? HQ; exact HQ
  | intros ? HE; exact HE ].

(** A call of [remove_item_fr_cart] where the current user is known to be
    an admin. *)
Ltac same_remove :=
  eapply hoare_weaken;
  [ apply admin_seen_appends; eassumption
  | let w := fresh "w" in let HP := fresh "HP" in
    intros w HP; cbv beta in *; decompose [and] HP;
    eapply admin_at_till_seen; eassumption
  | intros ? ? Hseen; left; exact Hseen
  | intros ? Hseen; left; exact Hseen ].

Ltac same_leaf :=
  first [ apply hoare_out_of_fuel
        | apply hoare_mret; intros ? ?; solve [ left; reflexivity ]
        | apply hoare_mret; intros ? [?|?];
          solve [ left; congruence | right; assumption ]
        | eapply hoare_weaken;
          [ apply (hoare_silent same same);
            [ solve [repeat silent_step_tac] | apply untouched_stable
            | intros ? HP; exact HP ]
          | to_same_tac
          | intros ? ? HQ; right; exact HQ
          | intros ? HE; exact HE ]
        | same_known ].

Ltac same_step :=
  lazymatch goal with
  | |- hoare _ (bind get_pos _) _ _ =>
      first [ solve [same_known] | apply hoare_bind_get_pos; intros ? ]
  | |- hoare _ (bind the_current_user _) _ _ =>
      apply hoare_bind_current_user; [to_same_tac | intros ?]
  | |- hoare _ (bind (remove_item_fr_cart _) _) _ _ =>
      apply (hoare_bind _ _ (fun _ => same)); [same_remove | intros ?]
  | |- hoare _ (bind cancel_sale _) _ _ =>
      apply (hoare_bind _ _ (fun _ _ => True)); [apply cancel_sale_returns | intros ?]
  | |- hoare _ (bind (print_receipt _ _ _ _ _ _) _) _ _ =>
      apply (hoare_bind _ _ (fun b _ => b = true));
      [ eapply hoare_weaken;
        [ apply print_receipt_returns_true | to_same_tac
        | intros ? ? HQ; exact HQ | intros ? HE; exact HE ]
      | intros ?; apply hoare_mret; intros ? ->; left; reflexivity ]
  | |- hoare _ (bind (try_except_ValueError _ _) _) _ _ =>
      apply (hoare_bind _ _ (fun r w => r = Some true \/ same w)); [ | intros ? ]
  | |- hoare _ (bind _ _) _ _ =>
      apply hoare_bind_silent;
      [ solve [repeat silent_step_tac] | same_stable_tac | to_same_tac | intros ? ]
  | |- hoare _ (try_except_ValueError _ _) _ _ => apply hoare_try
  | |- hoare _ (if negb ?b then _ else _) _ _ => destruct b eqn:?; cbn [negb]
  | |- hoare _ (if ?b then _ else _) _ _ => destruct b eqn:?
  | |- hoare _ (match ?x with _ => _ end) _ _ => destruct x
  | |- hoare _ _ _ _ => same_leaf
  end.

Lemma checkout_abandoned (fuel : nat) :
  hoare same (checkout fuel) (fun b w => b = true \/ same w) same /\
  hoare same (checkout_loop fuel) (fun b w => b = true \/ same w) same /\
  hoare same (checkout_options fuel) (fun r w => r = Some true \/ same w) same.
Proof.
  pose proof silent_the_current_user.
  pose proof silent_recalculate_total.
  pose proof silent_view_cart.
  induction fuel as [|fuel (IHco & IHcl & IHop)].
  - repeat split; apply hoare_out_of_fuel.
  - destruct (menus_append fuel) as (_ & _ & _ & _ & _ & Hrm).
    pose proof (override_abandoned fuel Hrm IHop) as Hover.
    repeat split; simpl; repeat same_step.
Qed.
End Abandoned.

(** X17. A checkout that is given up changes nothing: when the current user
    is not an admin and [checkout] returns [False] or raises, then, unless
    an admin has logged in on the way, the POS object (stocks, cart and
    current user) is what it was before the call. Paying too little, typing
    an amount that is no number, a wrong menu choice or a refused
    cancellation cost the customer nothing of the cart. *)
Theorem X17_abandoned_checkout_changes_nothing `{PyBuiltins} (fuel : nat) (w : world) :
  is_admin (current_user (pos w)) = false ->
  match checkout fuel w with
  | Done true _ => True
  | Done false w' | Raised _ w' =>
      existsb is_admin_login (stdout w') = false -> pos w' = pos w
  | OutOfFuel => True
  end.
Proof.
  intros Hadmin.
  destruct (checkout_abandoned (pos w) Hadmin fuel) as (Hco & _).
  specialize (Hco w (or_intror eq_refl)).
  destruct (checkout fuel w) as [[|] w'|e w'|]; try exact I; intros Hno.
  - destruct Hco as [Hco|[Hco|Hco]]; [discriminate| |exact Hco].
    unfold admin_seen in Hco. congruence.
  - destruct Hco as [Hco|Hco]; [|exact Hco].
    unfold admin_seen in Hco. congruence.
Qed.

(** The cashier tenders nothing, asks to enter the amount again, types
    letters, tenders 100 and then picks an option that does not exist. *)
Lemma X17_abandoned_checkout_changes_nothing_witness :
  match @checkout ascii_builtins 10
          (one_notebook ["0"; "1"; "abc"; "100"; "4"]%string) with
  | Done true _ => True
  | Done false w' | Raised _ w' =>
      existsb is_admin_login (stdout w') = false ->
      pos w' = pos (one_notebook ["0"; "1"; "abc"; "100"; "4"]%string)
  | OutOfFuel => True
  end.
Proof.
  apply (@X17_abandoned_checkout_changes_nothing ascii_builtins 10
           (one_notebook ["0"; "1"; "abc"; "100"; "4"]%string)).
  reflexivity.
Defined.

(** ** The menus come to an end *)

Lemma finishes_mret {A} (k : nat) (a : A) : finishes k (mret a).
Proof. intros w _. simpl. lia. Qed.

Lemma finishes_raise {A} (k : nat) (e : exn) : finishes k (@raise A e).
Proof. intros w _. simpl. lia. Qed.

Lemma finishes_print (k : nat) (e : event) : finishes k (print e).
Proof. intros w _. simpl. lia. Qed.

Lemma finishes_print_all (k : nat) (es : list event) : finishes k (print_all es).
Proof. intros w _. simpl. lia. Qed.

Lemma finishes_get_pos (k : nat) : finishes k get_pos.
Proof. intros w _. simpl. lia. Qed.

Lemma finishes_modify_pos (k : nat) (f : POS -> POS) : finishes k (modify_pos f).
Proof. intros w _. simpl. lia. Qed.

Lemma finishes_input (k : nat) : finishes k input.
Proof.
  intros w _. unfold input.
  destruct (stdin w) eqn:Hin; simpl; rewrite ?Hin; simpl; lia.
Qed.

Lemma finishes_lift_option {A} (k : nat) (e : exn) (o : option A) :
  finishes k (lift_option e o).
Proof. destruct o; [apply finishes_mret | apply finishes_raise]. Qed.

Lemma finishes_bind {A B} (k : nat) (m : M A) (f : A -> M B) :
  finishes k m -> (forall a, finishes k (f a)) -> finishes k (bind m f).
Proof.
  intros Hm Hf w Hw. specialize (Hm w Hw). unfold bind.
  destruct (m w) as [a w1|e w1|]; try assumption.
  specialize (Hf a w1 ltac:(lia)).
  destruct (f a w1) as [b w2|e w2|]; try assumption; lia.
Qed.

(** Reading a line leaves one line less for what follows. *)
Lemma finishes_bind_input {B} (k : nat) (f : string -> M B) :
  (forall k', k = S k' -> forall line, finishes k' (f line)) ->
  finishes k (bind input f).
Proof.
  intros Hf w Hw. unfold bind, input.
  destruct (stdin w) as [|line rest] eqn:Hin; [simpl; rewrite Hin; simpl; lia|].
  destruct k as [|k']; [simpl in Hw; lia|].
  specialize (Hf k' eq_refl line (mkWorld (pos w) rest (stdout w))).
  simpl in Hf, Hw. specialize (Hf ltac:(lia)).
  destruct (f line _) as [b w2|e w2|]; try assumption; simpl; lia.
Qed.

Lemma finishes_try {A} (k : nat) (body handler : M A) :
  finishes k body -> finishes k handler ->
  finishes k (try_except_ValueError body handler).
Proof.
  intros Hb Hh w Hw. specialize (Hb w Hw). unfold try_except_ValueError.
  destruct (body w) as [a w1|[] w1|]; try assumption.
  specialize (Hh w1 ltac:(lia)).
  destruct (handler w1) as [b w2|e w2|]; try assumption; lia.
Qed.

(** A [try] that reads a line first: what follows it finds one line less,
    whether the block returned or its handler did. *)
Lemma finishes_try_input_then {A B} (k : nat) (body : string -> M A) (handler : M A)
    (f : A -> M B) :
  (forall k', k = S k' ->
     (forall line, finishes k' (body line)) /\ finishes k' handler /\
     (forall a, finishes k' (f a))) ->
  finishes k (bind (try_except_ValueError (bind input body) handler) f).
Proof.
  intros Hk w Hw. unfold bind, try_except_ValueError, input.
  destruct (stdin w) as [|line rest] eqn:Hin; [simpl; rewrite Hin; simpl; lia|].
  destruct k as [|k']; [simpl in Hw; lia|].
  destruct (Hk k' eq_refl) as (Hbody & Hhandler & Hf).
  set (w1 := mkWorld (pos w) rest (stdout w)).
  assert (Hw1 : (length (stdin w1) <= k')%nat) by (simpl in *; lia).
  specialize (Hbody line w1 Hw1). simpl in Hbody.
  assert (Hthen : forall a w2, (length (stdin w2) <= length rest)%nat ->
            match f a w2 with
            | Done _ w' | Raised _ w' => (length (stdin w') <= length (line :: rest))%nat
            | OutOfFuel => False
            end).
  { intros a w2 Hw2. specialize (Hf a w2 ltac:(simpl in *; lia)).
    destruct (f a w2); try assumption; simpl; lia. }
  assert (Hrest : stdin w1 = rest) by reflexivity.
  rewrite Hrest in Hw1. clearbody w1. simpl in Hw.
  destruct (body line w1) as [a w2|e w2|]; [now apply Hthen| |assumption].
  assert (Hcaught : match handler w2 with
                    | Done a w' => match f a w' with
                                   | Done _ w'' | Raised _ w'' =>
                                       (length (stdin w'') <= length (line :: rest))%nat
                                   | OutOfFuel => False
                                   end
                    | Raised _ w' => (length (stdin w') <= length (line :: rest))%nat
                    | OutOfFuel => False
                    end).
  { specialize (Hhandler w2 ltac:(lia)).
    destruct (handler w2) as [a w3|e' w3|]; try assumption.
    - apply Hthen. lia.
    - simpl. lia. }
  destruct e; simpl; try lia.
  destruct (handler w2) as [a w3|e' w3|]; [destruct (f a w3)| |]; simpl in *;
    first [lia | assumption].
Qed.

Ltac finishes_step :=
  lazymatch goal with
  | Hx : finishes ?k ?m |- finishes ?k ?m => exact Hx
  | Hx : forall k, finishes k ?m |- finishes _ ?m => apply Hx
  | |- finishes _ (mret _) => apply finishes_mret
  | |- finishes _ (raise _) => apply finishes_raise
  | |- finishes _ (print _) => apply finishes_print
  | |- finishes _ (print_all _) => apply finishes_print_all
  | |- finishes _ input => apply finishes_input
  | |- finishes _ get_pos => apply finishes_get_pos
  | |- finishes _ (lift_option _ _) => apply finishes_lift_option
  | |- finishes _ (modify_pos _) => apply finishes_modify_pos
  | Hpr : forall _ _ _ _ _ _ _, finishes _ (print_receipt _ _ _ _ _ _)
    |- finishes _ (print_receipt _ _ _ _ _ _) => apply Hpr
  | |- finishes _ (bind _ _) => apply finishes_bind; [| intros ?]
  | |- finishes _ (try_except_ValueError _ _) => apply finishes_try
  | |- finishes _ (if ?b then _ else _) => destruct b
  | |- finishes _ (match ?x with _ => _ end) => destruct x
  end.

Section Finishes.
Context `{PyBuiltins}.

Lemma finishes_the_current_user k : finishes k the_current_user.
Proof. unfold the_current_user. repeat finishes_step. Qed.

Lemma finishes_recalculate_total k : finishes k recalculate_total.
Proof. unfold recalculate_total. repeat finishes_step. Qed.

Lemma finishes_view_cart k : finishes k view_cart.
Proof.
  pose proof finishes_recalculate_total.
  unfold view_cart, display_receipt. repeat finishes_step.
Qed.

Lemma finishes_cancel_sale k : finishes k cancel_sale.
Proof. unfold cancel_sale. repeat finishes_step. Qed.

Lemma finishes_print_receipt k subtotal tax discount total payment change :
  finishes k (print_receipt subtotal tax discount total payment change).
Proof.
  pose proof finishes_the_current_user.
  unfold print_receipt. repeat finishes_step.
Qed.

Lemma finishes_admin_login k : finishes k admin_login.
Proof. unfold admin_login. repeat finishes_step. Qed.

Lemma finishes_add_item_to_cart k : finishes k add_item_to_cart.
Proof. unfold add_item_to_cart. repeat finishes_step. Qed.

Lemma finishes_remove_item_search k : finishes k remove_item_search.
Proof. unfold remove_item_search. repeat finishes_step. Qed.

(** Every turn of a menu loop reads a line before it calls a menu again, so
    two units of fuel for each pending line are enough. *)
Lemma menus_finish (fuel : nat) :
  forall k,
    ((2 * k + 2 <= fuel)%nat ->
     finishes k (new_sale fuel) /\ finishes k (checkout fuel)) /\
    ((2 * k + 1 <= fuel)%nat ->
     finishes k (new_sale_loop fuel) /\ finishes k (checkout_loop fuel) /\
     finishes k (checkout_options fuel) /\ finishes k (remove_item_fr_cart fuel)).
Proof.
  pose proof finishes_the_current_user.
  pose proof finishes_recalculate_total.
  pose proof finishes_view_cart.
  pose proof finishes_cancel_sale.
  pose proof finishes_print_receipt.
  pose proof finishes_admin_login.
  pose proof finishes_add_item_to_cart.
  pose proof finishes_remove_item_search.
  induction fuel as [|fuel IH]; intros k; [split; intros; lia|].
  assert (Hless : forall k', (2 * S k' + 1 <= S fuel)%nat ->
            finishes k' (new_sale fuel) /\ finishes k' (new_sale_loop fuel) /\
            finishes k' (checkout fuel) /\ finishes k' (checkout_loop fuel) /\
            finishes k' (checkout_options fuel) /\
            finishes k' (remove_item_fr_cart fuel)).
  { intros k' Hk'. destruct (IH k') as [IH2 IH1].
    destruct (IH2 ltac:(lia)) as (? & ?).
    destruct (IH1 ltac:(lia)) as (? & ? & ? & ?). now split_and!. }
  split; intros Hk.
  - destruct (IH k) as [_ IH1]. destruct (IH1 ltac:(lia)) as (? & ? & _).
    split; simpl; repeat finishes_step.
  - clear IH.
    assert (Hread : forall B (f : string -> M B),
              (forall k', finishes k' (new_sale fuel) ->
                          finishes k' (new_sale_loop fuel) ->
                          finishes k' (checkout fuel) ->
                          finishes k' (checkout_loop fuel) ->
                          finishes k' (checkout_options fuel) ->
                          finishes k' (remove_item_fr_cart fuel) ->
                          forall line, finishes k' (f line)) ->
              finishes k (bind input f)).
    { intros B f Hf. apply finishes_bind_input. intros k' -> line.
      destruct (Hless k' Hk) as (? & ? & ? & ? & ? & ?). now apply Hf. }
    assert (Htry : forall A B (body : string -> M A) handler (f : A -> M B),
              (forall k', finishes k' (new_sale fuel) ->
                          finishes k' (new_sale_loop fuel) ->
                          finishes k' (checkout fuel) ->
                          finishes k' (checkout_loop fuel) ->
                          finishes k' (checkout_options fuel) ->
                          finishes k' (remove_item_fr_cart fuel) ->
                          (forall line, finishes k' (body line)) /\
                          finishes k' handler /\
                          (forall a, finishes k' (f a))) ->
              finishes k (bind (try_except_ValueError (bind input body) handler) f)).
    { intros A B body handler f Hf. apply finishes_try_input_then. intros k' ->.
      destruct (Hless k' Hk) as (? & ? & ? & ? & ? & ?). now apply Hf. }
    clear Hless Hk.
    split_and!; simpl;
      repeat first
        [ lazymatch goal with
          | |- finishes _ (bind (try_except_ValueError (bind input _) _) _) =>
              apply Htry; clear Hread Htry; intros; split_and!; [intros ? | | intros ?]
          | |- finishes _ (bind input _) =>
              apply Hread; clear Hread Htry; intros
          end
        | finishes_step ].
Qed.
End Finishes.

(** X18. The menus come to an end: every turn of a menu loop reads a line
    before a menu is entered again, so on a finite script [new_sale] and
    [checkout] always end, by a return or by an exception ([EOFError] when
    the script runs out). In the model, twice the number of pending lines
    plus two units of fuel are always enough. *)
Theorem X18_menus_come_to_an_end `{PyBuiltins} (fuel : nat) (w : world) :
  (2 * length (stdin w) + 2 <= fuel)%nat ->
  new_sale fuel w <> OutOfFuel /\ checkout fuel w <> OutOfFuel.
Proof.
  intros Hfuel.
  destruct (menus_finish fuel (length (stdin w))) as [Hboth _].
  destruct (Hboth Hfuel) as [Hns Hco].
  specialize (Hns w (le_n _)). specialize (Hco w (le_n _)).
  split; intros Hout; [rewrite Hout in Hns | rewrite Hout in Hco]; assumption.
Qed.

(** The script of the admin override has 25 lines. *)
Lemma X18_menus_come_to_an_end_witness :
  @new_sale ascii_builtins 52 (one_notebook override_script) <> OutOfFuel /\
  @checkout ascii_builtins 52 (one_notebook override_script) <> OutOfFuel.
Proof.
  apply (@X18_menus_come_to_an_end ascii_builtins 52 (one_notebook override_script)).
  vm_compute. lia.
Defined.

(** ** Logging in *)

Section Login.
Context `{PyBuiltins}.

Lemma login_loop_outcome (attempts : nat) :
  forall ses,
    match login_loop attempts ses with
    | Returned (Some true) ses' =>
        exists consumed name pw u,
          stdin (ses_world ses) = consumed ++ name :: pw :: stdin (ses_world ses') /\
          (length consumed < 2 * attempts)%nat /\
          all_rejected (pos (ses_world ses)) consumed /\
          users (pos (ses_world ses)) !! py_strip name = Some u /\
          password u = py_strip pw /\
          pos (ses_world ses') = set_current_user (Some u) (pos (ses_world ses)) /\
          stdout (ses_world ses') = stdout (ses_world ses)
    | Returned (Some false) ses' =>
        exists consumed,
          stdin (ses_world ses) = consumed ++ stdin (ses_world ses') /\
          length consumed = (2 * attempts)%nat /\
          attempts <> O /\
          all_rejected (pos (ses_world ses)) consumed /\
          pos (ses_world ses') = pos (ses_world ses) /\
          stdout (ses_world ses') = stdout (ses_world ses)
    | Returned None ses' => attempts = O /\ ses' = ses
    | Crashed e ses' =>
        e = EOFError /\
        (length (stdin (ses_world ses)) < 2 * attempts)%nat /\
        pos (ses_world ses') = pos (ses_world ses) /\
        stdout (ses_world ses') = stdout (ses_world ses)
    | Starved => False
    end.
Proof.
  induction attempts as [|remaining IH]; intros [[s inp out] shown]; [now split|].
  cbn [login_loop]. unfold sm_bind, say, lift, input, get_pos, modify_pos, sm_ret.
  cbn [ses_world ses_shown pos stdin stdout].
  destruct inp as [|name [|pw rest]]; cbn [ses_world ses_shown pos stdin stdout];
    [split_and!; simpl; auto; lia..|].
  set (shown1 := shown ++ [(length out, RLoginBanner)]).
  assert (Hfailed :
    (forall u, users s !! py_strip name = Some u -> password u <> py_strip pw) ->
    match
      match remaining with
      | O => Returned (Some false)
               (mkSession (mkWorld s rest out)
                  ((shown1 ++ [(length out, RInvalidCredentials (Z.of_nat remaining))])
                   ++ [(length out, RAttemptsExceeded)]))
      | S _ => login_loop remaining
                 (mkSession (mkWorld s rest out)
                    (shown1 ++ [(length out, RInvalidCredentials (Z.of_nat remaining))]))
      end
    with
    | Returned (Some true) ses' =>
        exists consumed name0 pw0 u,
          name :: pw :: rest = consumed ++ name0 :: pw0 :: stdin (ses_world ses') /\
          (length consumed < 2 * S remaining)%nat /\
          all_rejected s consumed /\
          users s !! py_strip name0 = Some u /\
          password u = py_strip pw0 /\
          pos (ses_world ses') = set_current_user (Some u) s /\
          stdout (ses_world ses') = out
    | Returned (Some false) ses' =>
        exists consumed,
          name :: pw :: rest = consumed ++ stdin (ses_world ses') /\
          length consumed = (2 * S remaining)%nat /\
          S remaining <> O /\
          all_rejected s consumed /\
          pos (ses_world ses') = s /\
          stdout (ses_world ses') = out
    | Returned None ses' =>
        S remaining = O /\
        ses' = mkSession (mkWorld s (name :: pw :: rest) out) shown
    | Crashed e ses' =>
        e = EOFError /\
        (length (name :: pw :: rest) < 2 * S remaining)%nat /\
        pos (ses_world ses') = s /\
        stdout (ses_world ses') = out
    | Starved => False
    end).
  { intros Hrej. destruct remaining as [|remaining'].
    - exists [name; pw]. split_and!; simpl; auto.
    - specialize (IH (mkSession (mkWorld s rest out)
                        (shown1 ++ [(length out,
                                     RInvalidCredentials (Z.of_nat (S remaining')))]))).
      cbn [ses_world pos stdin stdout] in IH.
      destruct (login_loop (S remaining') _) as [[[|]|] ses'|e ses'|].
      + destruct IH as (consumed & name0 & pw0 & u & Hin & Hlen & Hrejs & Hu & Hpw & Hpos & Hout).
        exists (name :: pw :: consumed), name0, pw0, u.
        split_and!; simpl; auto; [now rewrite Hin | lia].
      + destruct IH as (consumed & Hin & Hlen & _ & Hrejs & Hpos & Hout).
        exists (name :: pw :: consumed).
        split_and!; simpl; auto; [now rewrite Hin | lia].
      + destruct IH as [[=] _].
      + destruct IH as (-> & Hlen & Hpos & Hout). split_and!; simpl in *; auto; lia.
      + exact IH. }
  destruct (users s !! py_strip name) as [user|] eqn:Huser.
  - destruct (String.eqb_spec (password user) (py_strip pw)) as [Hpw|Hpw].
    + cbn [ses_world ses_shown pos stdin stdout].
      exists [], name, pw, user. split_and!; simpl; auto; lia.
    + destruct remaining; refine (Hfailed _); intros u [= <-]; exact Hpw.
  - destruct remaining; refine (Hfailed _); intros u [=].
Qed.

(** On lines that are all rejected, the attempts are used up. *)
Lemma login_loop_rejects (attempts : nat) :
  forall ses lines rest,
    stdin (ses_world ses) = lines ++ rest ->
    length lines = (2 * S attempts)%nat ->
    all_rejected (pos (ses_world ses)) lines ->
    exists ses',
      login_loop (S attempts) ses = Returned (Some false) ses' /\
      pos (ses_world ses') = pos (ses_world ses) /\
      stdin (ses_world ses') = rest /\
      stdout (ses_world ses') = stdout (ses_world ses).
Proof.
  induction attempts as [|remaining IH];
    intros [[s inp out] shown0] lines rest Hin Hlen Hrej;
    cbn [ses_world ses_shown pos stdin stdout] in *;
    destruct lines as [|name [|pw lines]]; simpl in Hlen; try lia;
    destruct Hrej as [Hrej Hrejs]; subst inp.
  - destruct lines; [|simpl in Hlen; lia].
    cbn [login_loop]. unfold sm_bind, say, lift, input, get_pos, modify_pos, sm_ret.
    cbn [ses_world ses_shown pos stdin stdout app].
    destruct (users s !! py_strip name) as [user|] eqn:Huser.
    + destruct (String.eqb_spec (password user) (py_strip pw)) as [Hpw|Hpw];
        [now destruct (Hrej user)|].
      eexists. split; [reflexivity|]. now split_and!.
    + eexists. split; [reflexivity|]. now split_and!.
  - remember (S remaining) as n eqn:Hn.
    cbn [login_loop]. unfold sm_bind, say, lift, input, get_pos, modify_pos, sm_ret.
    cbn [ses_world ses_shown pos stdin stdout app].
    assert (Hgo : forall shown1, let ses1 := mkSession (mkWorld s (lines ++ rest) out) shown1 in
            exists ses',
              match n with
              | O => fun ses : session =>
                       Returned (Some false)
                         (mkSession (ses_world ses)
                            (ses_shown ses
                             ++ [(length (stdout (ses_world ses)), RAttemptsExceeded)]))
              | S _ => login_loop n
              end ses1 = Returned (Some false) ses' /\
              pos (ses_world ses') = s /\
              stdin (ses_world ses') = rest /\
              stdout (ses_world ses') = out).
    { intros shown1 ses1. rewrite Hn. rewrite <- Hn.
      apply (IH ses1 lines rest); [reflexivity | lia | exact Hrejs]. }
    destruct (users s !! py_strip name) as [user|] eqn:Huser; [|exact (Hgo _)].
    destruct (String.eqb_spec (password user) (py_strip pw)) as [Hpw|Hpw];
      [now destruct (Hrej user)|exact (Hgo _)].
Qed.
End Login.

(** X19. Three strikes: [login] makes the first user whose name and
    password are typed, both stripped, the current user and returns [True];
    the attempts before it were rejected and there were at most two of them.
    It returns [False] exactly after three rejected attempts, six lines,
    with the POS object untouched. It never ends without a [return], and it
    raises only [EOFError], when fewer than six lines are left. A user of
    any role may log in. *)
Theorem X19_login_three_strikes `{PyBuiltins} (ses : session) :
  match login ses with
  | Returned (Some true) ses' =>
      exists consumed name pw u,
        stdin (ses_world ses) = consumed ++ name :: pw :: stdin (ses_world ses') /\
        (length consumed < 6)%nat /\
        all_rejected (pos (ses_world ses)) consumed /\
        users (pos (ses_world ses)) !! py_strip name = Some u /\
        password u = py_strip pw /\
        pos (ses_world ses') = set_current_user (Some u) (pos (ses_world ses))
  | Returned (Some false) ses' =>
      exists consumed,
        stdin (ses_world ses) = consumed ++ stdin (ses_world ses') /\
        length consumed = 6%nat /\
        all_rejected (pos (ses_world ses)) consumed /\
        pos (ses_world ses') = pos (ses_world ses)
  | Returned None _ => False
  | Crashed e ses' =>
      e = EOFError /\
      (length (stdin (ses_world ses)) < 6)%nat /\
      pos (ses_world ses') = pos (ses_world ses)
  | Starved => False
  end.
Proof.
  pose proof (login_loop_outcome 3 ses) as Hout. unfold login.
  destruct (login_loop 3 ses) as [[[|]|] ses'|e ses'|].
  - destruct Hout as (consumed & name & pw & u & ? & ? & ? & ? & ? & ? & _).
    exists consumed, name, pw, u. now split_and!.
  - destruct Hout as (consumed & ? & ? & _ & ? & ? & _).
    exists consumed. now split_and!.
  - destruct Hout as [[=] _].
  - destruct Hout as (? & ? & ? & _). now split_and!.
  - exact Hout.
Qed.

(** ** The main loop *)

Section Run.
Context `{PyBuiltins}.

Lemma checkout_empty_cart (fuel : nat) (w : world) :
  items (cart (pos w)) = [] ->
  checkout (S fuel) w
  = Done false (mkWorld (pos w) (stdin w) (stdout w ++ [ECheckoutCartEmpty])).
Proof.
  intros Hempty.
  change (checkout (S fuel))
    with (let! s := get_pos in
          if is_empty (cart s) then print ECheckoutCartEmpty ;; mret false
          else checkout_loop fuel).
  unfold bind, get_pos, is_empty. now rewrite Hempty.
Qed.

Lemma view_cart_empty_cart (w : world) :
  items (cart (pos w)) = [] ->
  view_cart w = Done tt (mkWorld (pos w) (stdin w) (stdout w ++ [ECartIsEmpty])).
Proof.
  intros Hempty. unfold view_cart, bind, get_pos, is_empty. now rewrite Hempty.
Qed.

Lemma login_keeps_cart (ses ses' : session) (r : option bool) :
  login ses = Returned r ses' ->
  cart (pos (ses_world ses')) = cart (pos (ses_world ses)).
Proof.
  intros Hrun. pose proof (login_loop_outcome 3 ses) as Hout.
  unfold login in Hrun. rewrite Hrun in Hout. destruct r as [[|]|].
  - destruct Hout as (? & ? & ? & u & _ & _ & _ & _ & _ & -> & _). reflexivity.
  - destruct Hout as (? & _ & _ & _ & _ & -> & _). reflexivity.
  - destruct Hout as [[=] _].
Qed.

Lemma run_turn_keeps_empty (fuel : nat) (ses ses' : session) (sig : signal) :
  items (cart (pos (ses_world ses))) = [] ->
  run_turn fuel ses = Returned sig ses' ->
  items (cart (pos (ses_world ses'))) = [].
Proof.
  destruct ses as [[s inp out] shown]. cbn [ses_world pos]. intros Hempty.
  unfold run_turn. unfold sm_bind at 1. unfold say at 1. unfold sm_bind at 1.
  unfold lift at 1, input. cbn [ses_world ses_shown pos stdin stdout].
  destruct inp as [|line rest]; [discriminate|].
  set (w1 := mkWorld s rest out). set (shown1 := shown ++ _).
  destruct (String.eqb (py_strip line) "1").
  { unfold sm_bind, lift, sm_ret. cbn [ses_world ses_shown].
    destruct (menus_end_with_empty_cart fuel) as (Hns & _).
    specialize (Hns w1 I).
    destruct (new_sale fuel w1) as [[] w2|e w2|]; intros [= _ <-]. exact Hns. }
  destruct (String.eqb (py_strip line) "2").
  { unfold sm_bind, lift, sm_ret. cbn [ses_world ses_shown].
    rewrite view_cart_empty_cart by exact Hempty. intros [= _ <-]. exact Hempty. }
  destruct (String.eqb (py_strip line) "3").
  { unfold sm_bind, lift, sm_ret. cbn [ses_world ses_shown].
    destruct fuel as [|fuel]; [discriminate|].
    rewrite checkout_empty_cart by exact Hempty. intros [= _ <-]. exact Hempty. }
  destruct (String.eqb (py_strip line) "4").
  { unfold sm_bind, lift, sm_ret, print. cbn [ses_world ses_shown].
    intros [= _ <-]. exact Hempty. }
  destruct (String.eqb (py_strip line) "5").
  { unfold sm_bind at 1. unfold lift at 1, modify_pos.
    cbn [ses_world ses_shown pos stdin stdout].
    unfold sm_bind at 1.
    destruct (login _) as [r ses2|e ses2|] eqn:Hlogin; try discriminate.
    apply login_keeps_cart in Hlogin. cbn [ses_world pos] in Hlogin.
    destruct (falsy r); unfold sm_bind, say, sm_ret; intros [= _ <-];
      cbn [ses_world]; rewrite Hlogin; exact Hempty. }
  destruct (String.eqb (py_strip line) "6");
    unfold sm_bind, say, sm_ret; intros [= _ <-]; exact Hempty.
Qed.

Lemma turn_begins_empty (fuel : nat) (ses : session) (fuel' : nat) (ses' : session) :
  items (cart (pos (ses_world ses))) = [] ->
  turn_begins fuel ses fuel' ses' ->
  items (cart (pos (ses_world ses'))) = [].
Proof.
  intros Hempty Hturns. induction Hturns as [| ? ? ? ? ? Hturn _ IH | ? ? ? ? ? _ _ IH].
  - exact Hempty.
  - apply IH. exact (run_turn_keeps_empty _ _ _ _ Hempty Hturn).
  - apply IH. reflexivity.
Qed.
End Run.

(** X20. The main menu never sees a cart: when [run] has logged a user in,
    the cart is empty at the start of every turn of the main menu, since
    [new_sale] returns only with an empty cart. So option 2 of the main
    menu only ever answers that the cart is empty, and option 3 that there
    is nothing to check out. *)
Theorem X20_main_menu_sees_an_empty_cart `{PyBuiltins}
    (fuel : nat) (ses : session) (fuel' : nat) (ses' : session) :
  items (cart (pos (ses_world ses))) = [] ->
  turn_begins fuel ses fuel' ses' ->
  items (cart (pos (ses_world ses'))) = [] /\
  forall line rest,
    stdin (ses_world ses') = line :: rest ->
    (py_strip line = "2"%string ->
     run_turn fuel' ses'
     = Returned Continue
         (mkSession (mkWorld (pos (ses_world ses')) rest
                       (stdout (ses_world ses') ++ [ECartIsEmpty]))
            (ses_shown ses' ++ [(length (stdout (ses_world ses')), RMainMenu)]))) /\
    (py_strip line = "3"%string -> fuel' <> O ->
     run_turn fuel' ses'
     = Returned Continue
         (mkSession (mkWorld (pos (ses_world ses')) rest
                       (stdout (ses_world ses') ++ [ECheckoutCartEmpty]))
            (ses_shown ses' ++ [(length (stdout (ses_world ses')), RMainMenu)]))).
Proof.
  intros Hempty Hturns.
  pose proof (turn_begins_empty fuel ses fuel' ses' Hempty Hturns) as Hempty'.
  split; [exact Hempty'|].
  destruct ses' as [[s inp out] shown]. cbn [ses_world ses_shown pos stdin stdout] in *.
  intros line rest -> . split.
  - intros Hchoice.
    unfold run_turn, sm_bind, say, lift, input, sm_ret.
    cbn [ses_world ses_shown pos stdin stdout]. rewrite Hchoice.
    rewrite (eq_refl : String.eqb "2" "1" = false), (eq_refl : String.eqb "2" "2" = true).
    cbn [ses_world ses_shown]. now rewrite view_cart_empty_cart.
  - intros Hchoice Hfuel. destruct fuel' as [|fuel']; [contradiction|].
    unfold run_turn, sm_bind, say, lift, input, sm_ret.
    cbn [ses_world ses_shown pos stdin stdout]. rewrite Hchoice.
    rewrite (eq_refl : String.eqb "3" "1" = false), (eq_refl : String.eqb "3" "2" = false),
      (eq_refl : String.eqb "3" "3" = true).
    cbn [ses_world ses_shown]. now rewrite checkout_empty_cart.
Qed.

(** A user is logged in, asks for the inventory and then for the cart. *)
Lemma X20_main_menu_sees_an_empty_cart_witness :
  let ses1 := mkSession (mkWorld (initial_POS dburton) ["2"%string] [EShowInventory])
                [(0%nat, RMainMenu)] in
  items (cart (pos (ses_world ses1))) = [] /\
  @run_turn ascii_builtins 0 ses1
  = Returned Continue
      (mkSession (mkWorld (initial_POS dburton) [] [EShowInventory; ECartIsEmpty])
         [(0%nat, RMainMenu); (1%nat, RMainMenu)]).
Proof.
  intros ses1.
  destruct (@X20_main_menu_sees_an_empty_cart ascii_builtins 2
              (mkSession (mkWorld (initial_POS dburton) ["4"; "2"]%string []) [])
              0 ses1) as [Hempty Hoptions].
  - reflexivity.
  - apply turn_begins_continue with (ses1 := ses1); [reflexivity|].
    apply turn_begins_now.
  - split; [exact Hempty|].
    apply (Hoptions "2"%string []); reflexivity.
Defined.

Lemma all_rejected_users `{PyBuiltins} (s s' : POS) (lines : list string) :
  users s' = users s -> all_rejected s lines -> all_rejected s' lines.
Proof.
  intros Husers.
  assert (Hall : forall n lines, (length lines <= n)%nat ->
                   all_rejected s lines -> all_rejected s' lines).
  { clear lines. induction n as [|n IH]; intros [|name [|pw lines]] Hlen;
      simpl in *; auto; try lia.
    intros [Hrej Hrejs]. rewrite Husers. split; [exact Hrej|].
    apply IH; [lia | exact Hrejs]. }
  apply (Hall (length lines)). lia.
Qed.

(** X21. A failed new login leaves the till open: after option 5 of the
    main menu and three rejected attempts, [run] prints that the user is
    logged out and breaks the inner loop only; the outer loop makes a new
    cart and shows the main menu again, with nobody logged in. *)
Theorem X21_failed_relogin_leaves_the_till_open `{PyBuiltins}
    (fuel : nat) (ses : session) (line : string) (lines rest : list string) :
  stdin (ses_world ses) = line :: lines ++ rest ->
  py_strip line = "5"%string ->
  length lines = 6%nat ->
  all_rejected (pos (ses_world ses)) lines ->
  exists ses',
    run_turn fuel ses = Returned Break ses' /\
    run_loop (S fuel) ses = run_loop fuel (with_new_cart ses') /\
    current_user (pos (ses_world ses')) = None /\
    stdin (ses_world ses') = rest.
Proof.
  destruct ses as [[s inp out] shown]. cbn [ses_world pos stdin].
  intros -> Hchoice Hlen Hrej.
  set (ses1 := mkSession (mkWorld (set_current_user None s) (lines ++ rest) out)
                 (shown ++ [(length out, RMainMenu)])).
  destruct (login_loop_rejects 2 ses1 lines rest eq_refl Hlen
              (all_rejected_users s (set_current_user None s) lines eq_refl Hrej))
    as (ses2 & Hlogin & Hpos & Hin & _).
  assert (Hturn : run_turn fuel
                    (mkSession (mkWorld s (line :: lines ++ rest) out) shown)
                  = Returned Break
                      (mkSession (ses_world ses2)
                         (ses_shown ses2
                          ++ [(length (stdout (ses_world ses2)), RLoggedOut)]))).
  { unfold run_turn. unfold sm_bind at 1. unfold say at 1. unfold sm_bind at 1.
    unfold lift at 1, input. cbn [ses_world ses_shown pos stdin stdout].
    rewrite Hchoice.
    rewrite (eq_refl : String.eqb "5" "1" = false), (eq_refl : String.eqb "5" "2" = false),
      (eq_refl : String.eqb "5" "3" = false), (eq_refl : String.eqb "5" "4" = false),
      (eq_refl : String.eqb "5" "5" = true).
    unfold sm_bind at 1. unfold lift at 1, modify_pos.
    cbn [ses_world ses_shown pos stdin stdout].
    unfold sm_bind at 1. unfold login. fold ses1. rewrite Hlogin. reflexivity. }
  eexists. split; [exact Hturn|]. split_and!.
  - cbn [run_loop]. unfold sm_bind at 1. rewrite Hturn. reflexivity.
  - cbn [ses_world]. now rewrite Hpos.
  - exact Hin.
Qed.

(** The cashier logs out and three attempts fail: a wrong password, a name
    that does not exist, and an admin's name with a wrong password. *)
Lemma X21_failed_relogin_leaves_the_till_open_witness :
  exists ses',
    @run_turn ascii_builtins 3
      (mkSession (mkWorld (initial_POS dburton)
                    ["5"; "dburton"; "x"; "nobody"; "chiching"; "admin"; "admin"; "1"]%string
                    []) [])
    = Returned Break ses' /\
    @run_loop ascii_builtins 4
      (mkSession (mkWorld (initial_POS dburton)
                    ["5"; "dburton"; "x"; "nobody"; "chiching"; "admin"; "admin"; "1"]%string
                    []) [])
    = @run_loop ascii_builtins 3 (with_new_cart ses') /\
    current_user (pos (ses_world ses')) = None /\
    stdin (ses_world ses') = ["1"%string].
Proof.
  apply (@X21_failed_relogin_leaves_the_till_open ascii_builtins 3
           (mkSession (mkWorld (initial_POS dburton)
                    ["5"; "dburton"; "x"; "nobody"; "chiching"; "admin"; "admin"; "1"]%string
                    []) [])
           "5"%string
           ["dburton"; "x"; "nobody"; "chiching"; "admin"; "admin"]%string
           ["1"%string]).
  - reflexivity.
  - reflexivity.
  - reflexivity.
  - simpl. split_and!; try exact I; intros u Hu; vm_compute in Hu;
      first [ discriminate Hu | injection Hu as <-; discriminate ].
Defined.

Section RunEnds.
Context `{PyBuiltins}.

Lemma run_turn_return (fuel : nat) (ses ses' : session) :
  run_turn fuel ses = Returned Return ses' ->
  exists shown n, ses_shown ses' = shown ++ [(n, RGoodbye)].
Proof.
  destruct ses as [[s inp out] shown].
  unfold run_turn. unfold sm_bind at 1. unfold say at 1. unfold sm_bind at 1.
  unfold lift at 1, input. cbn [ses_world ses_shown pos stdin stdout].
  destruct inp as [|line rest]; [discriminate|].
  set (w1 := mkWorld s rest out). set (shown1 := shown ++ _).
  destruct (String.eqb (py_strip line) "1").
  { unfold sm_bind, lift, sm_ret. cbn [ses_world ses_shown].
    destruct (new_sale fuel w1) as [[] w2|e w2|]; discriminate. }
  destruct (String.eqb (py_strip line) "2").
  { unfold sm_bind, lift, sm_ret. cbn [ses_world ses_shown].
    destruct (view_cart w1) as [[] w2|e w2|]; discriminate. }
  destruct (String.eqb (py_strip line) "3").
  { unfold sm_bind, lift, sm_ret. cbn [ses_world ses_shown].
    destruct (checkout fuel w1) as [b w2|e w2|]; discriminate. }
  destruct (String.eqb (py_strip line) "4").
  { unfold sm_bind, lift, sm_ret, print. cbn [ses_world ses_shown]. discriminate. }
  destruct (String.eqb (py_strip line) "5").
  { unfold sm_bind at 1. unfold lift at 1, modify_pos.
    cbn [ses_world ses_shown pos stdin stdout].
    unfold sm_bind at 1.
    destruct (login _) as [r ses2|e ses2|]; try discriminate.
    destruct (falsy r); unfold sm_bind, say, sm_ret; discriminate. }
  destruct (String.eqb (py_strip line) "6");
    unfold sm_bind, say, sm_ret; [|discriminate].
  intros [= <-]. cbn [ses_shown]. eauto.
Qed.

Lemma run_loop_returns (fuel : nat) :
  forall ses ses',
    run_loop fuel ses = Returned tt ses' ->
    exists shown n, ses_shown ses' = shown ++ [(n, RGoodbye)].
Proof.
  induction fuel as [|fuel IH]; intros ses ses'; [discriminate|].
  cbn [run_loop]. unfold sm_bind at 1.
  destruct (run_turn fuel ses) as [[| |] ses1|e ses1|] eqn:Hturn; try discriminate.
  - apply IH.
  - unfold sm_bind, lift, modify_pos. apply IH.
  - intros [= <-]. exact (run_turn_return _ _ _ Hturn).
Qed.
End RunEnds.

(** X22. The ways out of [run]: when [run] returns, the last message of
    [run] on the screen is the goodbye of option 6 of the main menu, or the
    message that follows a failed first login. Nothing else ends the
    program, short of an exception. *)
Theorem X22_run_returns_only_by_exit `{PyBuiltins} (fuel : nat) (ses ses' : session) :
  run fuel ses = Returned tt ses' ->
  exists shown n,
    ses_shown ses' = shown ++ [(n, RGoodbye)] \/
    ses_shown ses' = shown ++ [(n, RExitingSystem)].
Proof.
  unfold run. unfold sm_bind at 1. unfold say at 1. unfold sm_bind at 1.
  destruct (login _) as [r ses1|e ses1|]; try discriminate.
  destruct (falsy r).
  - unfold say. intros [= <-]. cbn [ses_shown]. eauto.
  - unfold sm_bind, lift, modify_pos. intros Hrun.
    destruct (run_loop_returns _ _ _ Hrun) as (shown & n & Hshown). eauto.
Qed.

(** The cashier logs in, looks at the empty cart and leaves. *)
Lemma X22_run_returns_only_by_exit_witness :
  exists ses',
    @run ascii_builtins 3 (fresh_session ["dburton"; "chiching"; "2"; "6"]%string)
    = Returned tt ses' /\
    exists shown n,
      ses_shown ses' = shown ++ [(n, RGoodbye)] \/
      ses_shown ses' = shown ++ [(n, RExitingSystem)].
Proof.
  destruct (@run ascii_builtins 3 (fresh_session ["dburton"; "chiching"; "2"; "6"]%string))
    as [[] ses'|e ses'|] eqn:Hrun.
  - exists ses'. split; [reflexivity|].
    exact (@X22_run_returns_only_by_exit ascii_builtins 3 _ ses' Hrun).
  - vm_compute in Hrun. discriminate.
  - vm_compute in Hrun. discriminate.
Defined.

(** ** The inventory listing *)

Lemma group_append_concat (category : ascii) (product : loc)
    (categories : list (ascii * list loc)) :
  concat (map snd (group_append category product categories))
  ≡ₚ concat (map snd categories) ++ [product].
Proof.
  induction categories as [|[c products] rest IH]; simpl; [reflexivity|].
  destruct (Ascii.eqb c category); simpl.
  - rewrite <- !app_assoc. apply Permutation_app_head, Permutation_app_comm.
  - rewrite IH. now rewrite app_assoc.
Qed.

Lemma group_append_keys (category : ascii) (product : loc)
    (categories : list (ascii * list loc)) :
  map fst (group_append category product categories)
  = if bool_decide (category ∈ map fst categories) then map fst categories
    else map fst categories ++ [category].
Proof.
  induction categories as [|[c products] rest IH]; simpl; [reflexivity|].
  destruct (Ascii.eqb_spec c category) as [->|Hne]; simpl.
  - rewrite bool_decide_eq_true_2; [reflexivity | left].
  - rewrite IH. destruct (bool_decide (category ∈ map fst rest)) eqn:Hin.
    + apply bool_decide_eq_true_1 in Hin.
      rewrite bool_decide_eq_true_2; [reflexivity | now right].
    + apply bool_decide_eq_false_1 in Hin.
      rewrite bool_decide_eq_false_2; [reflexivity|].
      intros Hin'. apply elem_of_cons in Hin' as [->|Hin']; contradiction.
Qed.

(** The entries of the dict after [group_append]. *)
Lemma group_append_entries (category : ascii) (product : loc)
    (categories : list (ascii * list loc)) (c : ascii) (products : list loc) :
  NoDup (map fst categories) ->
  (c, products) ∈ group_append category product categories ->
  (c <> category /\ (c, products) ∈ categories) \/
  (c = category /\
   ((exists before, (c, before) ∈ categories /\ products = before ++ [product]) \/
    ((category ∉ map fst categories) /\ products = [product]))).
Proof.
  induction categories as [|[c0 products0] rest IH]; simpl; intros Hnodup Hin.
  - apply list_elem_of_singleton in Hin as [= -> ->].
    right. split; [reflexivity|]. right. split; [apply not_elem_of_nil | reflexivity].
  - apply NoDup_cons in Hnodup as [Hfresh Hnodup].
    destruct (Ascii.eqb_spec c0 category) as [->|Hne].
    + apply elem_of_cons in Hin as [[= -> ->]|Hin].
      * right. split; [reflexivity|]. left. exists products0. split; [left | reflexivity].
      * left. split; [|now right].
        intros ->. apply Hfresh. apply list_elem_of_fmap. now exists (category, products).
    + apply elem_of_cons in Hin as [[= -> ->]|Hin].
      * left. split; [exact Hne | left].
      * destruct (IH Hnodup Hin) as [[Hc Hin']|[-> [(before & Hin' & ->)|[Hnew ->]]]].
        -- left. split; [exact Hc | now right].
        -- right. split; [reflexivity|]. left. exists before. split; [now right | reflexivity].
        -- right. split; [reflexivity|]. right. split; [|reflexivity].
           intros Hin'. apply elem_of_cons in Hin' as [Heq|Hin']; [congruence | contradiction].
Qed.

(** What the first loop of [show_inventory] has built after the products
    [seen]. *)
Lemma groups_of_seen (key : loc -> ascii) (seen : list loc) :
  let categories :=
    fold_left (fun categories product => group_append (key product) product categories)
              seen [] in
  NoDup (map fst categories) /\
  (forall product, product ∈ seen -> key product ∈ map fst categories) /\
  (forall c products, (c, products) ∈ categories ->
     products <> [] /\
     products = List.filter (fun product => Ascii.eqb (key product) c) seen) /\
  concat (map snd categories) ≡ₚ seen.
Proof.
  induction seen as [|product seen IH] using rev_ind; simpl.
  - split_and!; [constructor | intros ? Hin; inversion Hin
                | intros ? ? Hin; inversion Hin | reflexivity].
  - rewrite fold_left_app. simpl.
    set (categories := fold_left _ seen []) in *.
    destruct IH as (Hnodup & Hkeys & Hentries & Hperm).
    assert (Hkeys' : forall c, c ∈ map fst categories ->
              c ∈ map fst (group_append (key product) product categories)).
    { intros c Hc. rewrite group_append_keys.
      destruct (bool_decide _); [exact Hc | apply elem_of_app; now left]. }
    split_and!.
    + rewrite group_append_keys. destruct (bool_decide _) eqn:Hin; [exact Hnodup|].
      apply bool_decide_eq_false_1 in Hin.
      apply NoDup_app. split_and!; [exact Hnodup | | apply NoDup_singleton].
      intros c Hc Hc'. apply list_elem_of_singleton in Hc' as ->. contradiction.
    + intros p Hp. apply elem_of_app in Hp as [Hp|Hp].
      * apply Hkeys', Hkeys, Hp.
      * apply list_elem_of_singleton in Hp as ->. rewrite group_append_keys.
        destruct (bool_decide _) eqn:Hin; [now apply bool_decide_eq_true_1 in Hin|].
        apply elem_of_app. right. apply list_elem_of_singleton. reflexivity.
    + intros c products Hin. rewrite List.filter_app. simpl.
      destruct (group_append_entries _ _ _ _ _ Hnodup Hin)
        as [[Hc Hin']|[-> [(before & Hin' & ->)|[Hnew ->]]]].
      * destruct (Hentries _ _ Hin') as [Hne ->]. split; [exact Hne|].
        destruct (Ascii.eqb_spec (key product) c) as [Heq|_]; [congruence|].
        now rewrite app_nil_r.
      * destruct (Hentries _ _ Hin') as [Hne ->]. rewrite Ascii.eqb_refl.
        split; [|reflexivity]. intros Happ. now apply app_eq_nil in Happ as [_ [=]].
      * rewrite Ascii.eqb_refl. split; [discriminate|].
        assert (Hnone : List.filter (fun p => Ascii.eqb (key p) (key product)) seen = []).
        { destruct (List.filter _ seen) as [|p rest] eqn:Hf; [reflexivity|].
          assert (Hp : List.In p (List.filter (fun p => Ascii.eqb (key p) (key product)) seen))
            by (rewrite Hf; now left).
          apply List.filter_In in Hp as [Hp Hk].
          apply Ascii.eqb_eq in Hk. destruct Hnew. rewrite <- Hk.
          apply Hkeys. now apply list_elem_of_In. }
        now rewrite Hnone.
    + rewrite group_append_concat. now rewrite Hperm.
Qed.

Lemma concat_Permutation_snd (xs ys : list (ascii * list loc)) :
  xs ≡ₚ ys -> concat (map snd xs) ≡ₚ concat (map snd ys).
Proof.
  induction 1 as [|x xs ys _ IH|x y xs|xs ys zs _ IH1 _ IH2]; simpl.
  - reflexivity.
  - now rewrite IH.
  - rewrite !app_assoc. apply Permutation_app_tail, Permutation_app_comm.
  - now rewrite IH1.
Qed.

Lemma key_le_transitive : Transitive key_le.
Proof. intros x y z. unfold key_le. lia. Qed.

Lemma key_le_total : Total key_le.
Proof. intros x y. unfold key_le. lia. Qed.

Lemma sorted_distinct_keys (xs : list (ascii * list loc)) :
  Sorted.StronglySorted key_le xs ->
  NoDup (map fst xs) ->
  Sorted.StronglySorted (fun x y => (N_of_ascii (fst x) < N_of_ascii (fst y))%N) xs.
Proof.
  induction 1 as [|x xs Hsorted IH Hall]; simpl; intros Hnodup; constructor.
  - apply IH. now apply NoDup_cons in Hnodup as [_ ?].
  - apply NoDup_cons in Hnodup as [Hfresh _].
    rewrite List.Forall_forall in *. intros y Hy.
    specialize (Hall y Hy). unfold key_le in Hall.
    assert (Hne : N_of_ascii (fst x) <> N_of_ascii (fst y)).
    { intros Heq. apply Hfresh.
      assert (Hxy : fst x = fst y).
      { rewrite <- (ascii_N_embedding (fst x)), <- (ascii_N_embedding (fst y)).
        now rewrite Heq. }
      rewrite Hxy. apply list_elem_of_fmap. exists y. split; [reflexivity|].
      now apply list_elem_of_In. }
    lia.
Qed.

(** [str(z)[0]] never fails. *)
Lemma py_str_int_nonempty (z : Z) : py_str_int z <> ""%string.
Proof.
  unfold py_str_int, DecimalString.NilZero.string_of_int,
    DecimalString.NilZero.string_of_uint.
  destruct (Z.to_int z) as [d|d]; [|discriminate].
  destruct d; discriminate.
Qed.

(** X23. What [show_inventory] lists: the groups come in strictly
    increasing order of their key, the first character of the product id;
    a group holds exactly the products of the inventory whose id starts
    with its key, in the order of the inventory, and is never empty; taken
    together the groups list every product of the inventory exactly once.
    The category field of a product plays no part in the grouping. *)
Theorem X23_show_inventory_lists_each_product_once (s : POS) :
  Sorted.StronglySorted (fun x y => (N_of_ascii (fst x) < N_of_ascii (fst y))%N)
    (show_inventory s) /\
  (forall c products,
     (c, products) ∈ show_inventory s ->
     products <> [] /\
     products = List.filter (fun product =>
                               Ascii.eqb (id_initial (p_id (pos_heap s product))) c)
                            (map snd (inventory s))) /\
  concat (map snd (show_inventory s)) ≡ₚ map snd (inventory s).
Proof.
  unfold show_inventory, inventory_groups.
  destruct (groups_of_seen (fun product => id_initial (p_id (pos_heap s product)))
              (map snd (inventory s))) as (Hnodup & _ & Hentries & Hperm).
  set (categories := fold_left _ _ []) in *.
  pose proof (stdpp.sorting.merge_sort_Permutation key_le categories) as Hsort.
  split_and!.
  - apply sorted_distinct_keys.
    + apply stdpp.sorting.StronglySorted_merge_sort;
        [apply key_le_transitive | apply key_le_total].
    + now rewrite Hsort.
  - intros c products Hin. apply Hentries. now rewrite <- Hsort.
  - rewrite (concat_Permutation_snd _ _ Hsort). exact Hperm.
Qed.

(** ** Adding from the menu *)

Lemma inventory_get_Some (inv : list (Z * loc)) (product_id : Z) (product : loc) :
  inventory_get inv product_id = Some product ->
  (product_id, product) ∈ inv.
Proof.
  induction inv as [|[k l] rest IH]; simpl; [discriminate|].
  destruct (k =? product_id) eqn:Hk.
  - intros [= ->]. apply Z.eqb_eq in Hk as ->. left.
  - intros Hget. right. now apply IH.
Qed.

(** X24. An addition that is not reported did not happen:
    [add_item_to_cart] changes the POS object only when it ends with the
    message that the items were added, and then by exactly one successful
    [Cart.add_item] of a product of the inventory with a quantity of at
    least one. A search without results, an unknown id, a quantity below
    one, text that is no number and a refusal by the cart leave everything
    as it was. Only [EOFError] leaves the method, with nothing changed. *)
Theorem X24_unreported_addition_did_not_happen `{PyBuiltins} (w : world) :
  match add_item_to_cart w with
  | Done _ w' =>
      exists printed,
        stdout w' = stdout w ++ printed /\
        (pos w' = pos w \/
         exists product_id product quantity,
           (product_id, product) ∈ inventory (pos w) /\
           0 < quantity /\
           let o := add_item (pos_heap (pos w)) (cart (pos w)) product quantity in
           ret o = true /\
           pos w' = set_heap_cart (o_heap o) (o_cart o) (pos w) /\
           last printed = Some (EAdded quantity (p_name (o_heap o product))))
  | Raised e w' => e = EOFError /\ pos w' = pos w
  | OutOfFuel => False
  end.
Proof.
  destruct w as [s inp out].
  unfold add_item_to_cart. unfold bind at 1. unfold input at 1.
  cbn [pos stdin stdout].
  destruct inp as [|query inp]; [now split|].
  unfold bind at 1. unfold get_pos at 1. cbn [pos stdin stdout].
  destruct (negb _ && _).
  { simpl. exists [ENoMatchingProducts]. split; [reflexivity | now left]. }
  set (shown := if String.eqb (py_strip query) "" then EShowInventory
                else ESearchResults (search_products s (py_strip query))).
  assert (Hshown : forall B (k : unit -> M B),
            bind (if String.eqb (py_strip query) "" then print EShowInventory
                  else print (ESearchResults (search_products s (py_strip query)))) k
                 (mkWorld s inp out)
            = k tt (mkWorld s inp (out ++ [shown]))).
  { intros B k. unfold shown. now destruct (String.eqb _ _). }
  rewrite Hshown. clear Hshown.
  unfold try_except_ValueError, bind, input, get_pos, lift_option, modify_pos,
    print, print_all, mret, raise.
  cbn [pos stdin stdout].
  destruct inp as [|id_line inp]; [now split|].
  destruct (py_int id_line) as [product_id|]; cbn [pos stdin stdout];
    [|eexists; rewrite <- app_assoc; split; [reflexivity | now left]].
  destruct (inventory_get (inventory s) product_id) as [product|] eqn:Hget;
    cbn [pos stdin stdout];
    [|eexists; rewrite <- app_assoc; split; [reflexivity | now left]].
  destruct inp as [|quantity_line inp]; [now split|].
  destruct (py_int quantity_line) as [quantity|]; cbn [pos stdin stdout];
    [|eexists; rewrite <- app_assoc; split; [reflexivity | now left]].
  destruct (quantity <=? 0) eqn:Hq; cbn [pos stdin stdout];
    [eexists; rewrite <- app_assoc; split; [reflexivity | now left]|].
  destruct (ret (add_item (pos_heap s) (cart s) product quantity)) eqn:Hret;
    cbn [pos stdin stdout].
  - eexists. rewrite <- !app_assoc. split; [reflexivity|]. right.
    exists product_id, product, quantity. split_and!.
    + now apply inventory_get_Some.
    + lia.
    + exact Hret.
    + reflexivity.
    + rewrite app_assoc. apply last_snoc.
  - eexists. rewrite <- !app_assoc. split; [reflexivity|]. left.
    destruct (add_item_false _ _ _ _ Hret) as [-> ->]. now destruct s.
Qed.

(** ** Text that is no number *)

Lemma no_ValueError_mret {A} (a : A) : no_ValueError (mret a).
Proof. intros w. exact I. Qed.

Lemma no_ValueError_out_of_fuel {A} : no_ValueError (fun _ => @OutOfFuel A).
Proof. intros w. exact I. Qed.

Lemma no_ValueError_print (e : event) : no_ValueError (print e).
Proof. intros w. exact I. Qed.

Lemma no_ValueError_print_all (es : list event) : no_ValueError (print_all es).
Proof. intros w. exact I. Qed.

Lemma no_ValueError_input : no_ValueError input.
Proof. intros w. unfold input. now destruct (stdin w). Qed.

Lemma no_ValueError_get_pos : no_ValueError get_pos.
Proof. intros w. exact I. Qed.

Lemma no_ValueError_modify_pos (f : POS -> POS) : no_ValueError (modify_pos f).
Proof. intros w. exact I. Qed.

Lemma no_ValueError_lift_AttributeError {A} (o : option A) :
  no_ValueError (lift_option AttributeError o).
Proof. intros w. now destruct o. Qed.

Lemma no_ValueError_lift_OverflowError {A} (o : option A) :
  no_ValueError (lift_option OverflowError o).
Proof. intros w. now destruct o. Qed.

Lemma no_ValueError_bind {A B} (m : M A) (k : A -> M B) :
  no_ValueError m -> (forall a, no_ValueError (k a)) -> no_ValueError (bind m k).
Proof.
  intros Hm Hk w. specialize (Hm w). unfold bind.
  destruct (m w) as [a w1|e w1|]; try assumption. apply Hk.
Qed.

(** A [try] with [except ValueError] lets through a [ValueError] of its
    handler only. *)
Lemma no_ValueError_try {A} (body handler : M A) :
  no_ValueError handler -> no_ValueError (try_except_ValueError body handler).
Proof.
  intros Hh w. unfold try_except_ValueError.
  destruct (body w) as [a w1|[] w1|]; try exact I. apply Hh.
Qed.

Ltac no_ValueError_step :=
  lazymatch goal with
  | Hx : no_ValueError ?m |- no_ValueError ?m => exact Hx
  | |- no_ValueError (mret _) => apply no_ValueError_mret
  | |- no_ValueError (fun _ => OutOfFuel) => apply no_ValueError_out_of_fuel
  | |- no_ValueError (print _) => apply no_ValueError_print
  | |- no_ValueError (print_all _) => apply no_ValueError_print_all
  | |- no_ValueError input => apply no_ValueError_input
  | |- no_ValueError get_pos => apply no_ValueError_get_pos
  | |- no_ValueError (lift_option AttributeError _) =>
      apply no_ValueError_lift_AttributeError
  | |- no_ValueError (lift_option OverflowError _) =>
      apply no_ValueError_lift_OverflowError
  | |- no_ValueError (modify_pos _) => apply no_ValueError_modify_pos
  | Hpr : forall _ _ _ _ _ _, no_ValueError (print_receipt _ _ _ _ _ _)
    |- no_ValueError (print_receipt _ _ _ _ _ _) => apply Hpr
  | |- no_ValueError (try_except_ValueError _ _) => apply no_ValueError_try
  | |- no_ValueError (bind _ _) => apply no_ValueError_bind; [| intros ?]
  | |- no_ValueError (if ?b then _ else _) => destruct b
  | |- no_ValueError (match ?x with _ => _ end) => destruct x
  end.

Section NoValueError.
Context `{PyBuiltins}.

Lemma no_ValueError_the_current_user : no_ValueError the_current_user.
Proof. unfold the_current_user. repeat no_ValueError_step. Qed.

Lemma no_ValueError_recalculate_total : no_ValueError recalculate_total.
Proof. unfold recalculate_total. repeat no_ValueError_step. Qed.

Lemma no_ValueError_view_cart : no_ValueError view_cart.
Proof.
  pose proof no_ValueError_recalculate_total.
  unfold view_cart, display_receipt. repeat no_ValueError_step.
Qed.

Lemma no_ValueError_cancel_sale : no_ValueError cancel_sale.
Proof. unfold cancel_sale. repeat no_ValueError_step. Qed.

Lemma no_ValueError_print_receipt subtotal tax discount total payment change :
  no_ValueError (print_receipt subtotal tax discount total payment change).
Proof.
  pose proof no_ValueError_the_current_user.
  unfold print_receipt. repeat no_ValueError_step.
Qed.

Lemma no_ValueError_admin_login : no_ValueError admin_login.
Proof. unfold admin_login. repeat no_ValueError_step. Qed.

Lemma no_ValueError_add_item_to_cart : no_ValueError add_item_to_cart.
Proof. unfold add_item_to_cart. repeat no_ValueError_step. Qed.

Lemma no_ValueError_remove_item_search : no_ValueError remove_item_search.
Proof. unfold remove_item_search. repeat no_ValueError_step. Qed.

Lemma menus_no_ValueError (fuel : nat) :
  no_ValueError (new_sale fuel) /\ no_ValueError (new_sale_loop fuel) /\
  no_ValueError (checkout fuel) /\ no_ValueError (checkout_loop fuel) /\
  no_ValueError (checkout_options fuel) /\ no_ValueError (remove_item_fr_cart fuel).
Proof.
  pose proof no_ValueError_the_current_user.
  pose proof no_ValueError_recalculate_total.
  pose proof no_ValueError_view_cart.
  pose proof no_ValueError_cancel_sale.
  pose proof no_ValueError_print_receipt.
  pose proof no_ValueError_admin_login.
  pose proof no_ValueError_add_item_to_cart.
  pose proof no_ValueError_remove_item_search.
  induction fuel as [|fuel (IHns & IHnl & IHco & IHcl & IHop & IHrm)].
  - repeat split; apply no_ValueError_out_of_fuel.
  - repeat split; simpl; repeat no_ValueError_step.
Qed.
End NoValueError.

(** X25. Text that is no number never stops the program: [ValueError],
    which [int] and [float] raise on such text, never leaves [new_sale],
    [checkout], [add_item_to_cart] or [remove_item_fr_cart]; every
    conversion of typed text stands in a [try] that catches it. What can
    leave them is [EOFError], [AttributeError] or [OverflowError]. *)
Theorem X25_ValueError_never_escapes `{PyBuiltins} (fuel : nat) (w : world) :
  (forall w', new_sale fuel w <> Raised ValueError w') /\
  (forall w', checkout fuel w <> Raised ValueError w') /\
  (forall w', add_item_to_cart w <> Raised ValueError w') /\
  (forall w', remove_item_fr_cart fuel w <> Raised ValueError w').
Proof.
  destruct (menus_no_ValueError fuel) as (Hns & _ & Hco & _ & _ & Hrm).
  pose proof no_ValueError_add_item_to_cart as Hadd.
  specialize (Hns w). specialize (Hco w). specialize (Hadd w). specialize (Hrm w).
  split_and!; intros w' Hrun; rewrite Hrun in *; assumption.
Qed.

(** ** Removing from the menu *)

Lemma remove_item_loop_removed_printed (product_id quantity : Z)
    (snapshot : list CartItem) :
  forall h,
    rl_removed (remove_item_loop h product_id quantity snapshot) = true ->
    existsb is_removal (rl_out (remove_item_loop h product_id quantity snapshot)) = true.
Proof.
  induction snapshot as [|item rest IH]; intros h; simpl; [discriminate|].
  destruct (_ =? product_id); [|apply IH].
  destruct (quantity >? _); simpl; [discriminate|].
  intros _. rewrite existsb_app. simpl. apply orb_true_r.
Qed.

Lemma remove_item_true_printed (h : heap) (c : Cart) (product_id quantity : Z) :
  ret (remove_item h c product_id quantity) = true ->
  existsb is_removal (o_out (remove_item h c product_id quantity)) = true.
Proof.
  unfold remove_item.
  pose proof (remove_item_loop_removed_printed product_id quantity (items c) h) as Hl.
  destruct (rl_returned _); simpl; [discriminate|].
  destruct (rl_removed _); simpl; [auto | discriminate].
Qed.

Section Removal.
Context `{PyBuiltins}.

Lemma remove_item_search_result (w : world) :
  match remove_item_search w with
  | Done r w1 =>
      r <> Some true /\ pos w1 = pos w /\
      exists printed, stdout w1 = stdout w ++ printed /\
                      existsb is_removal printed = false
  | Raised _ w1 => pos w1 = pos w /\ stdout w1 = stdout w
  | OutOfFuel => False
  end.
Proof.
  destruct w as [s inp out].
  unfold remove_item_search, bind, get_pos, input, print, mret. cbn [pos stdin stdout].
  destruct (is_empty (cart s)); cbn [pos stdin stdout].
  { split_and!; [discriminate | reflexivity|]. now exists [ECartIsEmpty]. }
  destruct inp as [|line rest]; cbn [pos stdin stdout]; [now split|].
  destruct (String.eqb _ _); cbn [pos stdin stdout].
  { split_and!; [discriminate | reflexivity|]. eexists. split; reflexivity. }
  destruct (List.filter _ _); cbn [pos stdin stdout];
    (split_and!; [discriminate | reflexivity|]; eexists; split; reflexivity).
Qed.

Lemma after_removal_appends (fuel : nat) (o : outcome) :
  appends (if is_empty (o_cart o)
           then print ECartNowEmpty ;; new_sale fuel
           else recalculate_total ;;
                let! t := recalculate_total in
                let '(_, _, _, total) := t in
                print (EUpdatedCartTotal total)).
Proof.
  destruct (menus_append fuel) as (Hns & _).
  pose proof appends_recalculate_total.
  repeat appends_step.
Qed.

Lemma after_removal_no_ValueError (fuel : nat) (o : outcome) :
  no_ValueError (if is_empty (o_cart o)
                 then print ECartNowEmpty ;; new_sale fuel
                 else recalculate_total ;;
                      let! t := recalculate_total in
                      let '(_, _, _, total) := t in
                      print (EUpdatedCartTotal total)).
Proof.
  destruct (menus_no_ValueError fuel) as (Hns & _).
  pose proof no_ValueError_recalculate_total.
  repeat no_ValueError_step.
Qed.
End Removal.

(** X26. A removal that is not reported did not happen: on a cart with one
    line per product id, when [remove_item_fr_cart] returns anything but
    [True] the POS object is what it was, and when it returns [True] the
    message of a removal has been printed. When an exception leaves it,
    either a removal was reported before or nothing has changed. *)
Theorem X26_unreported_removal_did_not_happen `{PyBuiltins} (fuel : nat) (w : world) :
  lines_unique (pos_heap (pos w)) (cart (pos w)) ->
  match remove_item_fr_cart fuel w with
  | Done r w' =>
      exists printed,
        stdout w' = stdout w ++ printed /\
        match r with
        | Some true => existsb is_removal printed = true
        | _ => pos w' = pos w
        end
  | Raised _ w' =>
      exists printed,
        stdout w' = stdout w ++ printed /\
        (existsb is_removal printed = true \/ pos w' = pos w)
  | OutOfFuel => True
  end.
Proof.
  intros Hunique. destruct fuel as [|fuel]; [exact I|].
  cbn [remove_item_fr_cart]. unfold bind at 1.
  pose proof (remove_item_search_result w) as Hsearch.
  destruct (remove_item_search w) as [[r|] w1|e w1|]; [| | |contradiction].
  - destruct Hsearch as (Hr & Hpos & printed & Hout & _).
    exists printed. split; [exact Hout|]. now destruct r.
  - destruct Hsearch as (_ & Hpos & printed1 & Hout1 & _).
    destruct w1 as [s1 inp1 out1]. cbn [pos stdout] in Hpos, Hout1. subst s1 out1.
    unfold try_except_ValueError. unfold bind at 1. unfold input at 1.
    cbn [pos stdin stdout].
    destruct inp1 as [|id_line inp1];
      [exists printed1; split; [reflexivity | now right]|].
    unfold bind at 1. unfold lift_option at 1.
    destruct (py_int id_line) as [product_id|];
      [|exists (printed1 ++ [EInvalidInput]); split;
        [simpl; now rewrite app_assoc | reflexivity]].
    unfold mret at 1. unfold bind at 1. unfold input at 1. cbn [pos stdin stdout].
    destruct inp1 as [|quantity_line inp1];
      [exists printed1; split; [reflexivity | now right]|].
    unfold bind at 1. unfold lift_option at 1.
    destruct (py_int quantity_line) as [quantity|];
      [|exists (printed1 ++ [EInvalidInput]); split;
        [simpl; now rewrite app_assoc | reflexivity]].
    unfold mret at 1. unfold bind at 1. unfold get_pos at 1. cbn [pos stdin stdout].
    set (o := remove_item (pos_heap (pos w)) (cart (pos w)) product_id quantity).
    unfold bind at 1. unfold modify_pos at 1. cbn [pos stdin stdout].
    unfold bind at 1. unfold print_all at 1. cbn [pos stdin stdout].
    destruct (ret o) eqn:Hret.
    + pose proof (remove_item_true_printed _ _ _ _ Hret) as Hprinted. fold o in Hprinted.
      unfold bind at 1.
      set (w3 := mkWorld _ inp1 ((stdout w ++ printed1) ++ o_out o)).
      pose proof (after_removal_appends fuel o w3) as Happ.
      pose proof (after_removal_no_ValueError fuel o w3) as Hnv.
      destruct (_ w3) as [[] w4|e w4|]; [| |exact I].
      * destruct Happ as [printed3 Hout3]. unfold mret.
        exists (printed1 ++ o_out o ++ printed3). split.
        -- rewrite Hout3. unfold w3. cbn [stdout]. now rewrite <- !app_assoc.
        -- rewrite !existsb_app, Hprinted. now rewrite orb_true_r.
      * destruct Happ as [printed3 Hout3].
        assert (Hends : exists printed,
                  stdout w4 = stdout w ++ printed /\
                  (existsb is_removal printed = true \/ pos w4 = pos w)).
        { exists (printed1 ++ o_out o ++ printed3). split.
          - rewrite Hout3. unfold w3. cbn [stdout]. now rewrite <- !app_assoc.
          - left. rewrite !existsb_app, Hprinted. now rewrite orb_true_r. }
        destruct e; [contradiction|exact Hends..].
    + unfold mret.
      destruct (remove_item_false _ _ _ _ Hunique Hret) as [Hheap Hcart]. fold o in Hheap, Hcart.
      exists (printed1 ++ o_out o). split; [cbn [stdout]; now rewrite <- app_assoc|].
      cbn [pos]. rewrite Hheap, Hcart. now destruct (pos w).
  - destruct Hsearch as [Hpos Hout]. exists []. split; [now rewrite app_nil_r | now right].
Qed.

(** One Notebook in the cart; an admin lists the cart and types a letter
    for the quantity. *)
Lemma X26_unreported_removal_did_not_happen_witness :
  match @remove_item_fr_cart ascii_builtins 2 (one_notebook [""; "40"; "x"]%string) with
  | Done r w' =>
      exists printed,
        stdout w' = stdout (one_notebook [""; "40"; "x"]%string) ++ printed /\
        match r with
        | Some true => existsb is_removal printed = true
        | _ => pos w' = pos (one_notebook [""; "40"; "x"]%string)
        end
  | Raised _ w' =>
      exists printed,
        stdout w' = stdout (one_notebook [""; "40"; "x"]%string) ++ printed /\
        (existsb is_removal printed = true \/
         pos w' = pos (one_notebook [""; "40"; "x"]%string))
  | OutOfFuel => True
  end.
Proof.
  apply (@X26_unreported_removal_did_not_happen ascii_builtins 2
           (one_notebook [""; "40"; "x"]%string)).
  apply (apply_op_lines_unique initial_heap Cart_init (OpAdd Notebook 1)).
  apply Cart_init_lines_unique.
Defined.
